(** * aidev-backend: persistence layer, AI gateway and request handlers

    A shallow embedding of [services/database.js], [services/ai.js],
    [routes/projects.js] and [routes/chat.js].

    - A JavaScript string is the list of its UTF-16 code units.
    - The storage engine is a record of three tables (lists of rows); every
      SQL statement of [database.js] is a function on that record.
    - [async] methods are computations in a state and error monad over a
      [World]: the tables, the log of statements handed to the pool, and the
      log of calls made to the AI provider.

    Left out: the pool and its configuration, [healthCheck] and [close], the
    health routes, the wording of the prompts and of the templates, and the
    handlers [/explain], [/improve], [/tests] and [/status], which touch
    neither the tables nor the caller's identity. *)

From Stdlib Require Import ZArith List String Ascii Bool Lia Sorted Permutation.
From Stdlib Require Import Decimal DecimalNat.
From stdpp Require Import gmap strings.
Import ListNotations.

Local Open Scope Z_scope.

(** ** JavaScript strings *)

(** A JavaScript string: its UTF-16 code units. *)
Abbreviation jsstring := (list Z) (only parsing).

(** A string literal of the source (ASCII). *)
Definition js (s : string) : jsstring :=
  List.map (fun a => Z.of_nat (nat_of_ascii a)) (list_ascii_of_string s).

Module JsString.

Definition eqb (a b : jsstring) : bool := bool_decide (a = b).

(** Lexicographic order on code units, the order of [ORDER BY] on text. *)
Fixpoint leb (a b : jsstring) : bool :=
  match a, b with
  | [], _ => true
  | _ :: _, [] => false
  | x :: a', y :: b' => (x <? y) || ((x =? y) && leb a' b')
  end.

Definition isLead (u : Z) : bool := (0xD800 <=? u) && (u <=? 0xDBFF).
Definition isTrail (u : Z) : bool := (0xDC00 <=? u) && (u <=? 0xDFFF).

(** The code points a string denotes when it is written out as UTF-8: a
    lead surrogate followed by a trail surrogate is one supplementary code
    point, a lone surrogate is replaced by U+FFFD. *)
Fixpoint codePoints (s : jsstring) : list Z :=
  match s with
  | [] => []
  | u :: rest =>
      if isLead u then
        match rest with
        | l :: rest' =>
            if isTrail l
            then (0x10000 + Z.shiftl (u - 0xD800) 10 + (l - 0xDC00)) :: codePoints rest'
            else 0xFFFD :: codePoints rest
        | [] => [0xFFFD]
        end
      else if isTrail u then 0xFFFD :: codePoints rest
      else u :: codePoints rest
  end.

(** UTF-8 encoding of one code point. *)
Definition utf8Encode (c : Z) : list Z :=
  if c <? 0x80 then [c]
  else if c <? 0x800 then
    [Z.lor 0xC0 (Z.shiftr c 6); Z.lor 0x80 (Z.land c 0x3F)]
  else if c <? 0x10000 then
    [Z.lor 0xE0 (Z.shiftr c 12);
     Z.lor 0x80 (Z.land (Z.shiftr c 6) 0x3F);
     Z.lor 0x80 (Z.land c 0x3F)]
  else
    [Z.lor 0xF0 (Z.shiftr c 18);
     Z.lor 0x80 (Z.land (Z.shiftr c 12) 0x3F);
     Z.lor 0x80 (Z.land (Z.shiftr c 6) 0x3F);
     Z.lor 0x80 (Z.land c 0x3F)].

(** The bytes of the string in UTF-8, as the driver sends a text parameter
    and the engine stores it. *)
Definition utf8Write (s : jsstring) : list Z := flat_map utf8Encode (codePoints s).

(** [Buffer.byteLength(s, "utf8")]: counted over the code units, without
    building the bytes. *)
Fixpoint byteLength (s : jsstring) : Z :=
  match s with
  | [] => 0
  | u :: rest =>
      if u <? 0x80 then 1 + byteLength rest
      else if u <? 0x800 then 2 + byteLength rest
      else if isLead u then
        match rest with
        | l :: rest' =>
            if isTrail l then 4 + byteLength rest' else 3 + byteLength rest
        | [] => 3
        end
      else 3 + byteLength rest
  end.

(** WhiteSpace and LineTerminator code units, as [trim] strips them. *)
Definition isSpace (u : Z) : bool :=
  existsb (Z.eqb u)
    [9; 10; 11; 12; 13; 32; 160; 0x1680; 0x2028; 0x2029; 0x202F; 0x205F;
     0x3000; 0xFEFF]
  || ((0x2000 <=? u) && (u <=? 0x200A)).

Fixpoint trimStart (s : jsstring) : jsstring :=
  match s with
  | u :: rest => if isSpace u then trimStart rest else s
  | [] => []
  end.

Definition trim (s : jsstring) : jsstring := rev (trimStart (rev (trimStart s))).

(** [s.length]. *)
Definition length (s : jsstring) : Z := Z.of_nat (List.length s).

(** Code units are 16 bits wide. *)
Definition wf (s : jsstring) : Prop := Forall (fun u => 0 <= u < 65536) s.

(** [s.substring(0, n)]. *)
Definition substring0 (n : nat) (s : jsstring) : jsstring := firstn n s.

End JsString.

(** [Array.prototype.join]. *)
Fixpoint join (sep : jsstring) (l : list jsstring) : jsstring :=
  match l with
  | [] => []
  | [x] => x
  | x :: rest => x ++ sep ++ join sep rest
  end.

(** ** Decimal rendering of a number in a template literal *)

Fixpoint uintUnits (d : uint) : jsstring :=
  match d with
  | Nil => []
  | D0 d => 48 :: uintUnits d
  | D1 d => 49 :: uintUnits d
  | D2 d => 50 :: uintUnits d
  | D3 d => 51 :: uintUnits d
  | D4 d => 52 :: uintUnits d
  | D5 d => 53 :: uintUnits d
  | D6 d => 54 :: uintUnits d
  | D7 d => 55 :: uintUnits d
  | D8 d => 56 :: uintUnits d
  | D9 d => 57 :: uintUnits d
  end.

(** [`${n}`] for a non-negative integer [n]. *)
Definition decimal (n : nat) : jsstring := uintUnits (Nat.to_uint n).

Definition nl : jsstring := [10].

(** [`${n}`] for an integer [n]. *)
Definition decimalZ (n : Z) : jsstring :=
  if n <? 0 then 45 :: decimal (Z.to_nat (- n)) else decimal (Z.to_nat n).

(** ** JavaScript values of a parsed JSON body

    Numbers are integers; an array or an object is kept as the text the
    driver sends for it, which is all the code below observes of it. *)
Inductive JsValue :=
| JUndefined
| JNull
| JBool (b : bool)
| JNumber (n : Z)
| JString (s : jsstring)
| JObject (text : jsstring).

(** [!!v]. *)
Definition truthy (v : JsValue) : bool :=
  match v with
  | JUndefined | JNull => false
  | JBool b => b
  | JNumber n => negb (n =? 0)
  | JString s => negb (JsString.eqb s [])
  | JObject _ => true
  end.

(** [typeof v === "string"]. *)
Definition isString (v : JsValue) : bool :=
  match v with JString _ => true | _ => false end.

(** The text the driver sends for a bind value; [None] is SQL NULL. *)
Definition prepareValue (v : JsValue) : option jsstring :=
  match v with
  | JUndefined | JNull => None
  | JBool b => Some (js (if b then "true" else "false"))
  | JNumber n => Some (decimalZ n)
  | JString s => Some s
  | JObject t => Some t
  end.

(** A JSON object: its own properties in [Object.keys] order. *)
Definition JsObject := list (jsstring * JsValue).

(** [obj[key]]. *)
Fixpoint prop (obj : JsObject) (key : jsstring) : JsValue :=
  match obj with
  | [] => JUndefined
  | (k, v) :: rest => if JsString.eqb k key then v else prop rest key
  end.

(** ** Rows of the three tables *)

Module Project.
Record t := {
  id : jsstring;
  user_id : jsstring;
  name : jsstring;
  description : jsstring;
  template_used : option jsstring;
  status : jsstring;
  settings : option jsstring;
  created_at : Z;
  updated_at : Z
}.
End Project.

Module ProjectFile.
Record t := {
  project_id : jsstring;
  file_path : jsstring;
  file_name : jsstring;
  content : jsstring;
  file_type : option jsstring;
  size_bytes : Z;
  created_at : Z;
  updated_at : Z
}.
End ProjectFile.

Module Conversation.
Record t := {
  id : jsstring;
  project_id : jsstring;
  user_id : jsstring;
  message : jsstring;
  response : jsstring;
  ai_model : jsstring;
  tokens_used : Z;
  created_at : Z
}.
End Conversation.

(** A row of [getProjects]: the project with its aggregates. *)
Module ProjectSummary.
Record t := {
  project : Project.t;
  file_count : Z;
  conversation_count : Z;
  last_conversation : option Z
}.
End ProjectSummary.

(** ** The storage engine

    [clock] is what [NOW()] returns; [uuid] and [serial] stand for the
    engine's generator of row ids: the next id is [uuid serial]. *)
Record DB := {
  projects : list Project.t;
  project_files : list ProjectFile.t;
  conversations : list Conversation.t;
  clock : Z;
  serial : nat;
  uuid : nat -> jsstring
}.

(** What is thrown: an [Error], a [TypeError], an error of the storage
    engine, or an error of the provider's client, which alone carries a
    [status]. *)
Inductive Exn :=
| Error (message : jsstring)
| TypeError (message : jsstring)
| StorageError (message : jsstring)
| ProviderError (status : option Z) (message : jsstring).

(** [error.message]. *)
Definition exnMessage (e : Exn) : jsstring :=
  match e with
  | Error m | TypeError m | StorageError m | ProviderError _ m => m
  end.

(** [error.status]; [None] is [undefined]. *)
Definition exnStatus (e : Exn) : option Z :=
  match e with ProviderError s _ => s | _ => None end.

(** [ORDER BY]: a stable insertion sort by the order [le]. *)
Section OrderBy.
Context {A : Type} (le : A -> A -> bool).

Fixpoint insertBy (x : A) (l : list A) : list A :=
  match l with
  | [] => [x]
  | y :: rest => if le x y then x :: l else y :: insertBy x rest
  end.

Fixpoint orderBy (l : list A) : list A :=
  match l with
  | [] => []
  | x :: rest => insertBy x (orderBy rest)
  end.
End OrderBy.

Infix "=?s" := JsString.eqb (at level 70).

(** ** The SQL statements of [database.js]

    Each statement is a function of the tables. A statement fails only where
    said below; loss of the connection and constraints of the schema other
    than the keys named in the statements are not modelled. Text is compared
    and kept as the string that was bound. *)
Module Sql.

(** Modelled from the spec: the schema of [projects] is not among the sources.
    A new row gets a generated unique id, status active, no settings, and both
    timestamps from the clock (spec, DATA MODEL: Project). A generated id
    that is already taken violates the key. *)
Definition insertProject (userId name description : jsstring)
    (template : option jsstring) (d : DB) : Exn + (list Project.t * DB) :=
  let newId := uuid d (serial d) in
  if existsb (fun p => Project.id p =?s newId) (projects d)
  then inl (StorageError (js "duplicate key value violates unique constraint"))
  else
    let row := {| Project.id := newId;
                  Project.user_id := userId;
                  Project.name := name;
                  Project.description := description;
                  Project.template_used := template;
                  Project.status := js "active";
                  Project.settings := None;
                  Project.created_at := clock d;
                  Project.updated_at := clock d |} in
    inr ([row],
         {| projects := projects d ++ [row];
            project_files := project_files d;
            conversations := conversations d;
            clock := clock d;
            serial := S (serial d);
            uuid := uuid d |}).

(** [MAX(created_at)] of a group; NULL for no row. *)
Definition maxCreated (l : list Conversation.t) : option Z :=
  fold_right (fun c acc =>
                match acc with
                | None => Some (Conversation.created_at c)
                | Some m => Some (Z.max (Conversation.created_at c) m)
                end) None l.

(** The two LEFT JOINs of [getProjects] on the grouped counts, with
    [COALESCE(count, 0)]. *)
Definition summary (d : DB) (p : Project.t) : ProjectSummary.t :=
  let files :=
    List.filter (fun f => ProjectFile.project_id f =?s Project.id p) (project_files d) in
  let convs :=
    List.filter (fun c => Conversation.project_id c =?s Project.id p) (conversations d) in
  {| ProjectSummary.project := p;
     ProjectSummary.file_count := Z.of_nat (List.length files);
     ProjectSummary.conversation_count := Z.of_nat (List.length convs);
     ProjectSummary.last_conversation := maxCreated convs |}.

(** [WHERE p.user_id = $1 AND p.status = 'active' ORDER BY p.updated_at DESC]. *)
Definition selectProjects (userId : jsstring) (d : DB) : list ProjectSummary.t :=
  List.map (summary d)
    (orderBy (fun a b => Project.updated_at b <=? Project.updated_at a)
       (List.filter (fun p => (Project.user_id p =?s userId)
                          && (Project.status p =?s js "active"))
          (projects d))).

(** [WHERE id = $1 AND user_id = $2 AND status = 'active']. *)
Definition selectProject (projectId userId : jsstring) (d : DB) : list Project.t :=
  List.filter (fun p => (Project.id p =?s projectId)
                     && (Project.user_id p =?s userId)
                     && (Project.status p =?s js "active"))
    (projects d).

Definition setProjects (d : DB) (ps : list Project.t) : DB :=
  {| projects := ps;
     project_files := project_files d;
     conversations := conversations d;
     clock := clock d;
     serial := serial d;
     uuid := uuid d |}.

Definition markDeleted (now : Z) (p : Project.t) : Project.t :=
  {| Project.id := Project.id p;
     Project.user_id := Project.user_id p;
     Project.name := Project.name p;
     Project.description := Project.description p;
     Project.template_used := Project.template_used p;
     Project.status := js "deleted";
     Project.settings := Project.settings p;
     Project.created_at := Project.created_at p;
     Project.updated_at := now |}.

(** [UPDATE projects SET status = 'deleted', updated_at = NOW()
     WHERE id = $1 AND user_id = $2 RETURNING *]. *)
Definition softDeleteProject (projectId userId : jsstring) (d : DB)
  : list Project.t * DB :=
  let hit p := (Project.id p =?s projectId) && (Project.user_id p =?s userId) in
  (List.map (markDeleted (clock d)) (List.filter hit (projects d)),
   setProjects d
     (List.map (fun p => if hit p then markDeleted (clock d) p else p) (projects d))).

Definition touch (now : Z) (p : Project.t) : Project.t :=
  {| Project.id := Project.id p;
     Project.user_id := Project.user_id p;
     Project.name := Project.name p;
     Project.description := Project.description p;
     Project.template_used := Project.template_used p;
     Project.status := Project.status p;
     Project.settings := Project.settings p;
     Project.created_at := Project.created_at p;
     Project.updated_at := now |}.

(** [UPDATE projects SET updated_at = NOW() WHERE id = $1]. *)
Definition touchProject (projectId : jsstring) (d : DB) : DB :=
  setProjects d
    (List.map (fun p => if Project.id p =?s projectId then touch (clock d) p else p)
       (projects d)).

(** Modelled from the spec: the schema of [conversations] is not among the
    sources. A new row gets a generated unique id and [created_at] from the
    clock (spec, DATA MODEL: Conversation). *)
Definition insertConversation (projectId userId message response aiModel : jsstring)
    (tokensUsed : Z) (d : DB) : Exn + (list Conversation.t * DB) :=
  let newId := uuid d (serial d) in
  if existsb (fun c => Conversation.id c =?s newId) (conversations d)
  then inl (StorageError (js "duplicate key value violates unique constraint"))
  else
    let row := {| Conversation.id := newId;
                  Conversation.project_id := projectId;
                  Conversation.user_id := userId;
                  Conversation.message := message;
                  Conversation.response := response;
                  Conversation.ai_model := aiModel;
                  Conversation.tokens_used := tokensUsed;
                  Conversation.created_at := clock d |} in
    inr ([row],
         {| projects := projects d;
            project_files := project_files d;
            conversations := conversations d ++ [row];
            clock := clock d;
            serial := S (serial d);
            uuid := uuid d |}).

(** [SELECT c.* FROM conversations c JOIN projects p ON c.project_id = p.id
     WHERE c.project_id = $1 AND p.user_id = $2
     ORDER BY c.created_at DESC LIMIT $3]; a negative LIMIT is an error of
    the engine. *)
Definition selectConversations (projectId userId : jsstring) (limit : Z) (d : DB)
  : Exn + list Conversation.t :=
  if limit <? 0 then inl (StorageError (js "LIMIT must not be negative"))
  else
    inr (firstn (Z.to_nat limit)
           (orderBy (fun a b => Conversation.created_at b <=? Conversation.created_at a)
              (flat_map
                 (fun c =>
                    List.map (fun _ => c)
                      (List.filter
                         (fun p => (Conversation.project_id c =?s Project.id p)
                                && (Conversation.project_id c =?s projectId)
                                && (Project.user_id p =?s userId))
                         (projects d)))
                 (conversations d)))).

Definition setFiles (d : DB) (fs : list ProjectFile.t) : DB :=
  {| projects := projects d;
     project_files := fs;
     conversations := conversations d;
     clock := clock d;
     serial := serial d;
     uuid := uuid d |}.

(** The [DO UPDATE SET] of the upsert: the row keeps its key and
    [created_at]. *)
Definition overwrite (fileName content : jsstring) (fileType : option jsstring)
    (sizeBytes now : Z) (f : ProjectFile.t) : ProjectFile.t :=
  {| ProjectFile.project_id := ProjectFile.project_id f;
     ProjectFile.file_path := ProjectFile.file_path f;
     ProjectFile.file_name := fileName;
     ProjectFile.content := content;
     ProjectFile.file_type := fileType;
     ProjectFile.size_bytes := sizeBytes;
     ProjectFile.created_at := ProjectFile.created_at f;
     ProjectFile.updated_at := now |}.

(** Modelled from the spec: the schema of [project_files] is not among the
    sources. A file has a path and a display name (spec, DATA MODEL:
    ProjectFile), so NULL is refused for them; a new row gets both timestamps
    from the clock. The statement is
    [INSERT INTO project_files (...) VALUES ($1, ..., $6)
     ON CONFLICT (project_id, file_path) DO UPDATE SET ... RETURNING *]. *)
Definition upsertProjectFile (projectId : jsstring) (filePath fileName : option jsstring)
    (content : jsstring) (fileType : option jsstring) (sizeBytes : Z) (d : DB)
  : Exn + (list ProjectFile.t * DB) :=
  match filePath, fileName with
  | Some path, Some name =>
      let hit f := (ProjectFile.project_id f =?s projectId)
                   && (ProjectFile.file_path f =?s path) in
      if existsb hit (project_files d) then
        let upd := overwrite name content fileType sizeBytes (clock d) in
        inr (List.map upd (List.filter hit (project_files d)),
             setFiles d (List.map (fun f => if hit f then upd f else f) (project_files d)))
      else
        let row := {| ProjectFile.project_id := projectId;
                      ProjectFile.file_path := path;
                      ProjectFile.file_name := name;
                      ProjectFile.content := content;
                      ProjectFile.file_type := fileType;
                      ProjectFile.size_bytes := sizeBytes;
                      ProjectFile.created_at := clock d;
                      ProjectFile.updated_at := clock d |} in
        inr ([row], setFiles d (project_files d ++ [row]))
  | _, _ => inl (StorageError (js "null value violates not-null constraint"))
  end.

(** The join of a file with the projects of [userId] it belongs to:
    [JOIN projects p ON pf.project_id = p.id WHERE ... p.user_id = $n]. *)
Definition owners (userId : jsstring) (f : ProjectFile.t) (d : DB) : list Project.t :=
  List.filter (fun p => (ProjectFile.project_id f =?s Project.id p)
                     && (Project.user_id p =?s userId))
    (projects d).

(** [SELECT pf.* FROM project_files pf JOIN projects p ON pf.project_id = p.id
     WHERE pf.project_id = $1 AND p.user_id = $2 ORDER BY pf.file_path]. *)
Definition selectProjectFiles (projectId userId : jsstring) (d : DB)
  : list ProjectFile.t :=
  orderBy (fun a b => JsString.leb (ProjectFile.file_path a) (ProjectFile.file_path b))
    (flat_map
       (fun f =>
          if ProjectFile.project_id f =?s projectId
          then List.map (fun _ => f) (owners userId f d) else [])
       (project_files d)).

(** [... WHERE pf.project_id = $1 AND pf.file_path = $2 AND p.user_id = $3]. *)
Definition selectProjectFile (projectId filePath userId : jsstring) (d : DB)
  : list ProjectFile.t :=
  flat_map
    (fun f =>
       if (ProjectFile.project_id f =?s projectId)
          && (ProjectFile.file_path f =?s filePath)
       then List.map (fun _ => f) (owners userId f d) else [])
    (project_files d).

(** [DELETE FROM project_files pf USING projects p
     WHERE pf.project_id = p.id AND pf.project_id = $1 AND pf.file_path = $2
       AND p.user_id = $3 RETURNING pf.*]: a row goes once, however many
    projects it joins with. A NULL path equals no path. *)
Definition deleteProjectFile (projectId : jsstring) (filePath : option jsstring)
    (userId : jsstring) (d : DB) : list ProjectFile.t * DB :=
  let hit f :=
    match filePath with
    | Some path =>
        (ProjectFile.project_id f =?s projectId)
        && (ProjectFile.file_path f =?s path)
        && negb (Nat.eqb (List.length (owners userId f d)) 0)
    | None => false
    end in
  (List.filter hit (project_files d),
   setFiles d (List.filter (fun f => negb (hit f)) (project_files d))).
End Sql.

(** ** The AI provider, as the gateway sees it *)

(** The prompt of a call, by capability; the fixed wording of the templates
    is left out. *)
Inductive Prompt :=
| GenerateCodePrompt (prompt projectContext : jsstring)
    (files : list (jsstring * jsstring))
| ExplainCodePrompt (code language : jsstring)
| SuggestImprovementsPrompt (code context : jsstring)
| GenerateTestsPrompt (code framework : jsstring).

Record ProviderRequest := {
  model : jsstring;
  max_tokens : Z;
  prompt : Prompt
}.

(** What [messages.create] does with a request: it resolves to a message
    with its usage, or rejects with an error carrying [status] (possibly
    undefined) and [message]. *)
Inductive ProviderOutcome :=
| Resolve (text : jsstring) (input_tokens output_tokens : Z)
| Reject (status : option Z) (message : jsstring).

Definition Client := ProviderRequest -> ProviderOutcome.

(** ** Worlds and the monad of [async] methods *)

Inductive Statement :=
| InsertProject
| SelectProjects
| SelectProject
| UpdateProjects (text : jsstring)
| SoftDeleteProject
| InsertConversation
| TouchProject
| SelectConversations
| UpsertProjectFile
| SelectProjectFiles
| SelectProjectFile
| DeleteProjectFile.

Record World := {
  db : DB;
  issued : list (Statement * list JsValue);
  providerCalls : list ProviderRequest
}.

Definition M (A : Type) : Type := World -> (Exn + A) * World.

Definition ret {A} (a : A) : M A := fun w => (inr a, w).

Definition bind {A B} (m : M A) (k : A -> M B) : M B :=
  fun w =>
    match m w with
    | (inr a, w') => k a w'
    | (inl e, w') => (inl e, w')
    end.

Definition throw {A} (e : Exn) : M A := fun w => (inl e, w).

(** [try { m } catch (error) { h error }]. *)
Definition tryCatch {A} (m : M A) (h : Exn -> M A) : M A :=
  fun w =>
    match m w with
    | (inr a, w') => (inr a, w')
    | (inl e, w') => h e w'
    end.

Declare Scope js_scope.
Delimit Scope js_scope with js_m.
Notation "x <- m ;; k" := (bind m (fun x => k))
  (at level 100, m at next level, right associativity) : js_scope.
Local Open Scope js_scope.

(** [result.rows[0]]; [None] is [undefined]. *)
Definition rows0 {A} (rows : list A) : option A := hd_error rows.

(** ** [class DatabaseService] *)

(** [query(text, params)]: the statement goes to the pool, and the engine
    runs it on the tables or fails. *)
Definition query {A} (text : Statement) (params : list JsValue)
    (run : DB -> Exn + (A * DB)) : M A :=
  fun w =>
    let log := issued w ++ [(text, params)] in
    match run (db w) with
    | inr (a, d') =>
        (inr a, {| db := d'; issued := log; providerCalls := providerCalls w |})
    | inl e =>
        (inl e, {| db := db w; issued := log; providerCalls := providerCalls w |})
    end.

Definition reading {A} (f : DB -> A) (d : DB) : Exn + (A * DB) := inr (f d, d).
Definition writing {A} (f : DB -> A * DB) (d : DB) : Exn + (A * DB) := inr (f d).

Definition createProject (userId name description : jsstring) (template : JsValue)
  : M (option Project.t) :=
  result <- query InsertProject
              [JString userId; JString name; JString description;
               match template with JUndefined => JNull | _ => template end]
              (Sql.insertProject userId name description (prepareValue template)) ;;
  ret (rows0 result).

Definition getProjects (userId : jsstring) : M (list ProjectSummary.t) :=
  result <- query SelectProjects [JString userId]
              (reading (Sql.selectProjects userId)) ;;
  ret result.

Definition getProject (projectId userId : jsstring) : M (option Project.t) :=
  result <- query SelectProject [JString projectId; JString userId]
              (reading (Sql.selectProject projectId userId)) ;;
  ret (rows0 result).

(** The [forEach] of [updateProject] over [Object.entries(updates)], with
    its three variables [fields], [values] and [paramCount]. *)
Definition updateLoop (updates : JsObject)
  : list jsstring * list JsValue * nat :=
  fold_left
    (fun '(fields, values, paramCount) '(key, value) =>
       (fields ++ [key ++ js " = $" ++ decimal paramCount],
        values ++ [value],
        S paramCount))
    updates ([], [], 1%nat).

(** The template literal of the statement. *)
Definition updateQuery (fields : list jsstring) (paramCount : nat) : jsstring :=
  nl ++ js "      UPDATE projects " ++ nl
  ++ js "      SET " ++ join (js ", ") fields ++ js ", updated_at = NOW()" ++ nl
  ++ js "      WHERE id = $" ++ decimal paramCount
  ++ js " AND user_id = $" ++ decimal (paramCount + 1) ++ nl
  ++ js "      RETURNING *" ++ nl
  ++ js "    ".

Section UpdateProject.
(** What the engine does with a statement text built at run time is a
    parameter: the embedding does not parse SQL. *)
Variable execute : jsstring -> list JsValue -> DB -> Exn + (list Project.t * DB).

Definition updateProject (projectId userId : jsstring) (updates : JsObject)
  : M (option Project.t) :=
  let '(fields, values, paramCount) := updateLoop updates in
  if Nat.eqb (List.length fields) 0 then throw (Error (js "No fields to update"))
  else
    let values := values ++ [JString projectId; JString userId] in
    let query_ := updateQuery fields paramCount in
    result <- query (UpdateProjects query_) values (execute query_ values) ;;
    ret (rows0 result).
End UpdateProject.

Definition deleteProject (projectId userId : jsstring) : M (option Project.t) :=
  result <- query SoftDeleteProject [JString projectId; JString userId]
              (writing (Sql.softDeleteProject projectId userId)) ;;
  ret (rows0 result).

Definition saveConversation (projectId userId message response aiModel : jsstring)
    (tokensUsed : Z) : M (option Conversation.t) :=
  result <- query InsertConversation
              [JString projectId; JString userId; JString message;
               JString response; JString aiModel; JNumber tokensUsed]
              (Sql.insertConversation projectId userId message response
                 aiModel tokensUsed) ;;
  _ <- query TouchProject [JString projectId]
         (writing (fun d => (tt, Sql.touchProject projectId d))) ;;
  ret (rows0 result).

Definition getConversations (projectId userId : jsstring) (limit : Z)
  : M (list Conversation.t) :=
  result <- query SelectConversations
              [JString projectId; JString userId; JNumber limit]
              (fun d =>
                 match Sql.selectConversations projectId userId limit d with
                 | inr rows => inr (rows, d)
                 | inl e => inl e
                 end) ;;
  ret (rev result).

(** [fileType = "text"]: the default of a parameter left [undefined]. *)
Definition orText (fileType : JsValue) : JsValue :=
  match fileType with JUndefined => JString (js "text") | _ => fileType end.

Definition saveProjectFile (projectId : jsstring)
    (filePath fileName content fileType : JsValue) : M (option ProjectFile.t) :=
  let fileType := orText fileType in
  match content with
  | JString text =>
      let sizeBytes := JsString.byteLength text in
      result <- query UpsertProjectFile
                  [JString projectId; filePath; fileName; content; fileType;
                   JNumber sizeBytes]
                  (Sql.upsertProjectFile projectId (prepareValue filePath)
                     (prepareValue fileName) text (prepareValue fileType)
                     sizeBytes) ;;
      _ <- query TouchProject [JString projectId]
             (writing (fun d => (tt, Sql.touchProject projectId d))) ;;
      ret (rows0 result)
  | _ =>
      throw (TypeError (js "The string argument must be of type string"))
  end.

Definition getProjectFiles (projectId userId : jsstring) : M (list ProjectFile.t) :=
  result <- query SelectProjectFiles [JString projectId; JString userId]
              (reading (Sql.selectProjectFiles projectId userId)) ;;
  ret result.

Definition getProjectFile (projectId filePath userId : jsstring)
  : M (option ProjectFile.t) :=
  result <- query SelectProjectFile
              [JString projectId; JString filePath; JString userId]
              (reading (Sql.selectProjectFile projectId filePath userId)) ;;
  ret (rows0 result).

Definition deleteProjectFile (projectId : jsstring) (filePath : JsValue)
    (userId : jsstring) : M (option ProjectFile.t) :=
  result <- query DeleteProjectFile [JString projectId; filePath; JString userId]
              (writing (Sql.deleteProjectFile projectId (prepareValue filePath) userId)) ;;
  ret (rows0 result).

(** ** [class AIService] *)

(** [this.anthropic]: the client, or [null] when no key was given at start. *)
Record AIService := { anthropic : option Client }.

Definition isConfigured (ai : AIService) : bool :=
  match anthropic ai with Some _ => true | None => false end.

Record Usage := {
  input_tokens : Z;
  output_tokens : Z;
  total_tokens : Z
}.

(** The [code] of a failure: [error.status || "UNKNOWN"]. *)
Inductive ErrCode :=
| StatusCode (status : Z)
| UNKNOWN.

(** The objects the four methods return. [Failure] is [{success: false,
    error}] with the key [code] present or not; the others are
    [{success: true, ...}]. *)
Inductive AIResult :=
| Generated (code : jsstring) (usage : Usage) (model : jsstring)
| Explained (explanation : jsstring) (usage : Usage)
| Suggested (suggestions : jsstring) (usage : Usage)
| Tested (tests : jsstring) (usage : Usage)
| Failure (error : jsstring) (code : option ErrCode).

(** [result.success]. *)
Definition success (r : AIResult) : bool :=
  match r with Failure _ _ => false | _ => true end.

(** [await this.anthropic.messages.create(...)]. *)
Definition create (client : Client) (request : ProviderRequest)
  : M (jsstring * Usage) :=
  fun w =>
    let w' := {| db := db w;
                 issued := issued w;
                 providerCalls := providerCalls w ++ [request] |} in
    match client request with
    | Resolve text i o =>
        (inr (text, {| input_tokens := i; output_tokens := o;
                       total_tokens := i + o |}), w')
    | Reject status message => (inl (ProviderError status message), w')
    end.

Definition sonnet : jsstring := js "claude-3-5-sonnet-20241022".

(** The part of a file that goes into the context of [generateCode]. *)
Definition contextOf (file : ProjectFile.t) : jsstring * jsstring :=
  (ProjectFile.file_path file,
   if JsString.length (ProjectFile.content file) >? 1000
   then JsString.substring0 1000 (ProjectFile.content file)
        ++ nl ++ js "... (truncated)"
   else ProjectFile.content file).

Definition generateCode (ai : AIService) (prompt projectContext : jsstring)
    (files : list ProjectFile.t) : M AIResult :=
  match anthropic ai with
  | None =>
      ret (Failure
             (js "AI service not configured - please add CLAUDE_API_KEY environment variable")
             None)
  | Some client =>
      tryCatch
        (message <- create client
                      {| model := sonnet;
                         max_tokens := 4000;
                         prompt := GenerateCodePrompt prompt projectContext
                                     (List.map contextOf files) |} ;;
         ret (Generated (fst message) (snd message) sonnet))
        (fun error =>
           let errorMessage :=
             match exnStatus error with
             | Some 401 =>
                 js "Invalid API key - please check your CLAUDE_API_KEY environment variable"
             | Some 429 => js "Rate limit exceeded - please try again in a moment"
             | Some 400 =>
                 js "Invalid request - the prompt might be too long or contain unsupported content"
             | _ => exnMessage error
             end in
           ret (Failure errorMessage
                  (Some match exnStatus error with
                        | Some status => if status =? 0 then UNKNOWN else StatusCode status
                        | None => UNKNOWN
                        end)))
  end.

Definition explainCode (ai : AIService) (code language : jsstring) : M AIResult :=
  match anthropic ai with
  | None =>
      ret (Failure
             (js "AI service not configured - please add CLAUDE_API_KEY environment variable")
             None)
  | Some client =>
      tryCatch
        (message <- create client
                      {| model := sonnet;
                         max_tokens := 1500;
                         prompt := ExplainCodePrompt code language |} ;;
         ret (Explained (fst message) (snd message)))
        (fun error => ret (Failure (exnMessage error) None))
  end.

Definition suggestImprovements (ai : AIService) (code context : jsstring)
  : M AIResult :=
  match anthropic ai with
  | None => ret (Failure (js "AI service not configured") None)
  | Some client =>
      tryCatch
        (message <- create client
                      {| model := sonnet;
                         max_tokens := 2000;
                         prompt := SuggestImprovementsPrompt code context |} ;;
         ret (Suggested (fst message) (snd message)))
        (fun error => ret (Failure (exnMessage error) None))
  end.

Definition generateTests (ai : AIService) (code framework : jsstring) : M AIResult :=
  match anthropic ai with
  | None => ret (Failure (js "AI service not configured") None)
  | Some client =>
      tryCatch
        (message <- create client
                      {| model := sonnet;
                         max_tokens := 3000;
                         prompt := GenerateTestsPrompt code framework |} ;;
         ret (Tested (fst message) (snd message)))
        (fun error => ret (Failure (exnMessage error) None))
  end.

(** ** Requests and responses *)

(** A request: its headers (names in lower case), its query string and its
    parsed JSON body. The parameters of the route are arguments of the
    handlers. *)
Record Request := {
  headers : gmap string jsstring;
  queryString : gmap string jsstring;
  body : JsObject
}.

(** The JSON documents the handlers send; [count], [stats] and [timestamp],
    which repeat or do not depend on the data, are left out. *)
Inductive Payload :=
| Failed (error : jsstring) (message : option jsstring)
    (details : list jsstring) (code : option ErrCode)
| ProjectList (data : list ProjectSummary.t)
| ProjectDetail (project : Project.t) (files : list ProjectFile.t)
    (conversations : list Conversation.t)
| ProjectData (message : option jsstring) (data : Project.t)
    (files : option (list (option ProjectFile.t)))
| FileData (message : option jsstring) (data : option ProjectFile.t)
| ChatData (response : jsstring) (usage : Usage) (model : jsstring)
    (projectId : JsValue) (conversationId : option jsstring)
| ConversationList (data : list Conversation.t) (projectId : jsstring).

Record Response := {
  statusCode : Z;
  json : Payload
}.

Definition fail (status : Z) (error : string) : Response :=
  {| statusCode := status; json := Failed (js error) None [] None |}.

(** [req.headers["x-user-id"] || "demo-user"]. *)
Definition getUserId (req : Request) : jsstring :=
  match headers req !! "x-user-id"%string with
  | Some value => if JsString.eqb value [] then js "demo-user" else value
  | None => js "demo-user"
  end.

(** *** The UUID pattern *)

Definition isDigit (u : Z) : bool := (48 <=? u) && (u <=? 57).

(** [[0-9a-f]] under the [i] flag. *)
Definition isHex (u : Z) : bool :=
  isDigit u || ((97 <=? u) && (u <=? 102)) || ((65 <=? u) && (u <=? 70)).

Definition isDash (u : Z) : bool := u =? 45.

(** [[1-5]]. *)
Definition isVersion (u : Z) : bool := (49 <=? u) && (u <=? 53).

(** [[89ab]] under the [i] flag. *)
Definition isVariant (u : Z) : bool :=
  existsb (Z.eqb u) [56; 57; 97; 98; 65; 66].

(** [^[0-9a-f]{8}-[0-9a-f]{4}-[1-5][0-9a-f]{3}-[89ab][0-9a-f]{3}-[0-9a-f]{12}$]
    with the [i] flag, position by position. *)
Definition uuidPattern : list (Z -> bool) :=
  repeat isHex 8 ++ [isDash]
  ++ repeat isHex 4 ++ [isDash]
  ++ [isVersion] ++ repeat isHex 3 ++ [isDash]
  ++ [isVariant] ++ repeat isHex 3 ++ [isDash]
  ++ repeat isHex 12.

Fixpoint matches (pattern : list (Z -> bool)) (s : jsstring) : bool :=
  match pattern, s with
  | [], [] => true
  | class :: pattern', u :: s' => class u && matches pattern' s'
  | _, _ => false
  end.

(** [uuidRegex.test(id)]. *)
Definition uuidRegexTest (id : jsstring) : bool := matches uuidPattern id.

(** *** [parseInt] without a radix

    The result is the integer read, [None] for [NaN]. A double this large is
    not exact, but [Math.min(n, 100)] and the sign of [n] are those of the
    integer, and nothing else is observed of it. *)
Definition hexValue (u : Z) : option Z :=
  if isDigit u then Some (u - 48)
  else if (97 <=? u) && (u <=? 102) then Some (u - 87)
  else if (65 <=? u) && (u <=? 70) then Some (u - 55)
  else None.

Definition digitValue (radix : Z) (u : Z) : option Z :=
  if radix =? 16 then hexValue u
  else if isDigit u then Some (u - 48) else None.

(** The longest prefix of digits, read in [radix]; [None] if there is none. *)
Fixpoint readDigits (radix : Z) (acc : option Z) (s : jsstring) : option Z :=
  match s with
  | [] => acc
  | u :: rest =>
      match digitValue radix u with
      | Some v =>
          readDigits radix
            (Some (match acc with Some a => a * radix + v | None => v end)) rest
      | None => acc
      end
  end.

Definition parseInt (input : option jsstring) : option Z :=
  let s := JsString.trimStart
             (match input with Some s => s | None => js "undefined" end) in
  let '(sign, s) :=
    match s with
    | 45 :: rest => (-1, rest)
    | 43 :: rest => (1, rest)
    | _ => (1, s)
    end in
  let '(radix, s) :=
    match s with
    | 48 :: 120 :: rest => (16, rest)
    | 48 :: 88 :: rest => (16, rest)
    | _ => (10, s)
    end in
  match readDigits radix None s with
  | Some n => Some (sign * n)
  | None => None
  end.

(** [n || 50] for the result of [parseInt]: [NaN] and zero are falsy. *)
Definition orFifty (n : option Z) : Z :=
  match n with
  | Some n => if n =? 0 then 50 else n
  | None => 50
  end.

(** [v.length > n] for a body value. Only a string has a length here; for an
    array or an object the comparison is taken to be false, which can only
    drop a second message from a request that is refused with 400 anyway. *)
Definition longerThan (n : Z) (v : JsValue) : bool :=
  match v with JString s => JsString.length s >? n | _ => false end.

(** [v.trim().length === 0]. *)
Definition blank (v : JsValue) : bool :=
  match v with JString s => JsString.eqb (JsString.trim s) [] | _ => false end.

(** ** [routes/projects.js] *)

Definition validateProjectData (data : JsObject) : list jsstring :=
  let name := prop data (js "name") in
  let description := prop data (js "description") in
  let template := prop data (js "template") in
  (if negb (truthy name) || negb (isString name) || blank name
   then [js "Project name is required and must be a non-empty string"] else [])
  ++ (if truthy name && longerThan 255 name
      then [js "Project name must be less than 255 characters"] else [])
  ++ (if truthy description && negb (isString description)
      then [js "Description must be a string"] else [])
  ++ (if truthy template && negb (isString template)
      then [js "Template must be a string"] else []).

(** [router.get("/")]. *)
Definition listProjects (req : Request) : M Response :=
  tryCatch
    (let userId := getUserId req in
     projects <- getProjects userId ;;
     ret {| statusCode := 200; json := ProjectList projects |})
    (fun _ => ret (fail 500 "Failed to fetch projects")).

(** [router.get("/:id")]. *)
Definition showProject (id : jsstring) (req : Request) : M Response :=
  tryCatch
    (let userId := getUserId req in
     if negb (uuidRegexTest id) then ret (fail 400 "Invalid project ID format")
     else
       project <- getProject id userId ;;
       match project with
       | None => ret (fail 404 "Project not found")
       | Some project =>
           files <- getProjectFiles id userId ;;
           conversations <- getConversations id userId 50 ;;
           ret {| statusCode := 200;
                  json := ProjectDetail project files conversations |}
       end)
    (fun _ => ret (fail 500 "Failed to fetch project")).

(** A file of a template. *)
Record TemplateFile := {
  path : jsstring;
  name : jsstring;
  type : jsstring;
  content : jsstring
}.

(** The [for] loop over the files of the template: a file that cannot be
    saved is skipped. *)
Fixpoint saveTemplateFiles (projectId : jsstring) (templateFiles : list TemplateFile)
    (createdFiles : list (option ProjectFile.t)) : M (list (option ProjectFile.t)) :=
  match templateFiles with
  | [] => ret createdFiles
  | file :: rest =>
      createdFiles <-
        tryCatch
          (createdFile <- saveProjectFile projectId (JString (path file))
                            (JString (name file)) (JString (content file))
                            (JString (type file)) ;;
           ret (createdFiles ++ [createdFile]))
          (fun _ => ret createdFiles) ;;
      saveTemplateFiles projectId rest createdFiles
  end.

(** [description?.trim() || ""]. *)
Definition trimmedOrEmpty (description : JsValue) : Exn + jsstring :=
  match description with
  | JUndefined | JNull => inr []
  | JString s => inr (JsString.trim s)
  | _ => inl (TypeError (js "description?.trim is not a function"))
  end.

Section Templates.
(** [getTemplateFiles]: the table of the templates, by name; an unknown name
    has no files. The texts of the files are not reproduced here, so the
    table is a parameter. *)
Variable getTemplateFiles : jsstring -> list TemplateFile.

(** [router.post("/")]. *)
Definition createProjectHandler (req : Request) : M Response :=
  tryCatch
    (let name := prop (body req) (js "name") in
     let description := prop (body req) (js "description") in
     let template := prop (body req) (js "template") in
     let userId := getUserId req in
     let validationErrors := validateProjectData (body req) in
     if negb (Nat.eqb (List.length validationErrors) 0) then
       ret {| statusCode := 400;
              json := Failed (js "Validation failed") None validationErrors None |}
     else
       match name, trimmedOrEmpty description with
       | JString name, inr description =>
           project <- createProject userId (JsString.trim name) description template ;;
           match project with
           | Some project =>
               match template with
               | JString template =>
                   if truthy (JString template) then
                     createdFiles <- saveTemplateFiles (Project.id project)
                                       (getTemplateFiles template) [] ;;
                     ret {| statusCode := 201;
                            json := ProjectData None project (Some createdFiles) |}
                   else
                     ret {| statusCode := 201; json := ProjectData None project None |}
               | _ =>
                   ret {| statusCode := 201; json := ProjectData None project None |}
               end
           | None => throw (TypeError (js "Cannot read properties of undefined"))
           end
       | _, inl e => throw e
       | _, _ => throw (TypeError (js "name.trim is not a function"))
       end)
    (fun _ => ret (fail 500 "Failed to create project")).
End Templates.

(** The allow-list of [router.put("/:id")] and its filter, in the order of
    [Object.keys(updates)]. *)
Definition allowedFields : list jsstring :=
  [js "name"; js "description"; js "status"; js "settings"].

Definition filterUpdates (updates : JsObject) : JsObject :=
  List.filter (fun '(key, _) => existsb (JsString.eqb key) allowedFields) updates.

Section UpdateHandler.
Variable execute : jsstring -> list JsValue -> DB -> Exn + (list Project.t * DB).

(** [router.put("/:id")]. *)
Definition updateProjectHandler (id : jsstring) (req : Request) : M Response :=
  tryCatch
    (let userId := getUserId req in
     let updates := body req in
     if negb (uuidRegexTest id) then ret (fail 400 "Invalid project ID format")
     else
       let filteredUpdates := filterUpdates updates in
       if Nat.eqb (List.length filteredUpdates) 0
       then ret (fail 400 "No valid fields to update")
       else
         let validationErrors :=
           if truthy (prop filteredUpdates (js "name"))
           then validateProjectData filteredUpdates else [] in
         if negb (Nat.eqb (List.length validationErrors) 0) then
           ret {| statusCode := 400;
                  json := Failed (js "Validation failed") None validationErrors None |}
         else
           updatedProject <- updateProject execute id userId filteredUpdates ;;
           match updatedProject with
           | None => ret (fail 404 "Project not found")
           | Some updatedProject =>
               ret {| statusCode := 200; json := ProjectData None updatedProject None |}
           end)
    (fun _ => ret (fail 500 "Failed to update project")).
End UpdateHandler.

(** [router.delete("/:id")]. *)
Definition deleteProjectHandler (id : jsstring) (req : Request) : M Response :=
  tryCatch
    (let userId := getUserId req in
     if negb (uuidRegexTest id) then ret (fail 400 "Invalid project ID format")
     else
       deletedProject <- deleteProject id userId ;;
       match deletedProject with
       | None => ret (fail 404 "Project not found")
       | Some deletedProject =>
           ret {| statusCode := 200;
                  json := ProjectData (Some (js "Project deleted successfully"))
                            deletedProject None |}
       end)
    (fun _ => ret (fail 500 "Failed to delete project")).

(** [router.post("/:id/files")]. *)
Definition saveFileHandler (projectId : jsstring) (req : Request) : M Response :=
  tryCatch
    (let filePath := prop (body req) (js "filePath") in
     let fileName := prop (body req) (js "fileName") in
     let content := prop (body req) (js "content") in
     let fileType := orText (prop (body req) (js "fileType")) in
     let userId := getUserId req in
     if negb (truthy filePath) || negb (truthy fileName)
        || match content with JUndefined => true | _ => false end
     then ret (fail 400 "filePath, fileName, and content are required")
     else
       project <- getProject projectId userId ;;
       match project with
       | None => ret (fail 404 "Project not found")
       | Some _ =>
           file <- saveProjectFile projectId filePath fileName content fileType ;;
           ret {| statusCode := 200; json := FileData None file |}
       end)
    (fun _ => ret (fail 500 "Failed to save file")).

(** [router.get("/:id/files/*")]; [filePath] is [req.params[0]]. *)
Definition showFileHandler (projectId filePath : jsstring) (req : Request)
  : M Response :=
  tryCatch
    (let userId := getUserId req in
     file <- getProjectFile projectId filePath userId ;;
     match file with
     | None => ret (fail 404 "File not found")
     | Some file => ret {| statusCode := 200; json := FileData None (Some file) |}
     end)
    (fun _ => ret (fail 500 "Failed to fetch file")).

(** [router.delete("/:id/files")]. *)
Definition deleteFileHandler (projectId : jsstring) (req : Request) : M Response :=
  tryCatch
    (let filePath := prop (body req) (js "filePath") in
     let userId := getUserId req in
     if negb (truthy filePath) then ret (fail 400 "filePath is required")
     else
       deletedFile <- deleteProjectFile projectId filePath userId ;;
       match deletedFile with
       | None => ret (fail 404 "File not found")
       | Some deletedFile =>
           ret {| statusCode := 200;
                  json := FileData (Some (js "File deleted successfully"))
                            (Some deletedFile) |}
       end)
    (fun _ => ret (fail 500 "Failed to delete file")).

(** ** [routes/chat.js] *)

Definition validateChatMessage (data : JsObject) : list jsstring :=
  let message := prop data (js "message") in
  let projectId := prop data (js "projectId") in
  (if negb (truthy message) || negb (isString message) || blank message
   then [js "Message is required and must be a non-empty string"] else [])
  ++ (if truthy message && longerThan 10000 message
      then [js "Message must be less than 10,000 characters"] else [])
  ++ (if truthy projectId && negb (isString projectId)
      then [js "Project ID must be a string"] else []).

(** [x || fallback] for a string. *)
Definition orElse (x : option jsstring) (fallback : string) : jsstring :=
  match x with
  | Some s => if JsString.eqb s [] then js fallback else s
  | None => js fallback
  end.

(** The context of a project, as [router.post("/message")] words it. *)
Definition projectContextOf (project : Project.t) : jsstring :=
  js "Project: " ++ Project.name project ++ nl
  ++ js "Description: "
  ++ orElse (Some (Project.description project)) "No description" ++ nl
  ++ js "Template: " ++ orElse (Project.template_used project) "None".

(** What the handler has of the project named in the body, or the response
    that ends the request. *)
Definition loadContext (projectId : JsValue) (userId : jsstring)
  : M (Response + (jsstring * list ProjectFile.t)) :=
  match projectId with
  | JString projectId =>
      if truthy (JString projectId) then
        if negb (uuidRegexTest projectId)
        then ret (inl (fail 400 "Invalid project ID format"))
        else
          project <- getProject projectId userId ;;
          match project with
          | None => ret (inl (fail 404 "Project not found"))
          | Some project =>
              existingFiles <- getProjectFiles projectId userId ;;
              ret (inr (projectContextOf project, existingFiles))
          end
      else ret (inr ([], []))
  | _ => ret (inr ([], []))
  end.

(** [router.post("/message")]. *)
Definition chatMessageHandler (aiService : AIService) (req : Request) : M Response :=
  tryCatch
    (let message := prop (body req) (js "message") in
     let projectId := prop (body req) (js "projectId") in
     let userId := getUserId req in
     let validationErrors := validateChatMessage (body req) in
     if negb (Nat.eqb (List.length validationErrors) 0) then
       ret {| statusCode := 400;
              json := Failed (js "Validation failed") None validationErrors None |}
     else
       match message with
       | JString message =>
           context <- loadContext projectId userId ;;
           match context with
           | inl response => ret response
           | inr (projectContext, existingFiles) =>
               if negb (isConfigured aiService) then
                 ret {| statusCode := 503;
                        json := Failed (js "AI service not configured")
                                  (Some (js "Claude API key is required but not provided. Please add CLAUDE_API_KEY environment variable."))
                                  [] None |}
               else
                 result <- generateCode aiService (JsString.trim message)
                             projectContext existingFiles ;;
                 match result with
                 | Failure error code =>
                     ret {| statusCode := 500;
                            json := Failed (js "AI generation failed") (Some error)
                                      [] code |}
                 | Generated code usage model =>
                     conversation <-
                       match projectId with
                       | JString projectId =>
                           if truthy (JString projectId) then
                             tryCatch
                               (saveConversation projectId userId
                                  (JsString.trim message) code
                                  (orElse (Some model) "claude-3-5-sonnet")
                                  (total_tokens usage))
                               (fun _ => ret None)
                           else ret None
                       | _ => ret None
                       end ;;
                     ret {| statusCode := 200;
                            json := ChatData code usage model projectId
                                      (option_map Conversation.id conversation) |}
                 | _ => throw (TypeError (js "unexpected result"))
                 end
           end
       | _ => throw (TypeError (js "message.trim is not a function"))
       end)
    (fun _ =>
       ret {| statusCode := 500;
              json := Failed (js "Failed to process message")
                        (Some (js "An unexpected error occurred while processing your request"))
                        [] None |}).

(** [Math.min(parseInt(req.query.limit) || 50, 100)]. *)
Definition effectiveLimit (req : Request) : Z :=
  Z.min (orFifty (parseInt (queryString req !! "limit"%string))) 100.

(** [router.get("/conversations/:projectId")]. *)
Definition conversationsHandler (projectId : jsstring) (req : Request) : M Response :=
  tryCatch
    (let userId := getUserId req in
     let limit := orFifty (parseInt (queryString req !! "limit"%string)) in
     if negb (uuidRegexTest projectId) then ret (fail 400 "Invalid project ID format")
     else
       project <- getProject projectId userId ;;
       match project with
       | None => ret (fail 404 "Project not found")
       | Some _ =>
           conversations <- getConversations projectId userId (Z.min limit 100) ;;
           ret {| statusCode := 200;
                  json := ConversationList conversations projectId |}
       end)
    (fun _ => ret (fail 500 "Failed to fetch conversations")).

(** ** The start-up check of [class DatabaseService] *)

(** The variables [validateConfig] asks for. *)
Definition required : list string := ["DB_HOST"%string; "DB_PASSWORD"%string].

(** [!process.env[key]]: the variable is not set, or set to the empty
    string. *)
Definition unset (env : gmap string jsstring) (key : string) : bool :=
  match env !! key with
  | Some value => JsString.eqb value []
  | None => true
  end.

(** [validateConfig()], on the environment of the process. *)
Definition validateConfig (env : gmap string jsstring) : Exn + unit :=
  let missing := List.filter (unset env) required in
  if negb (Nat.eqb (List.length missing) 0) then
    inl (Error (js "Missing required environment variables: "
                ++ join (js ", ") (List.map js missing)))
  else inr tt.

(** ** The capability endpoints of [routes/chat.js] *)






Section Capabilities.
(** The text a value becomes inside a template literal; for an array or an
    object it depends on the value, so it is a parameter. *)
Variable stringOf : JsValue -> jsstring.



End Capabilities.

(** * The vocabulary of the properties

    Predicates and sample data in which the properties below are stated. *)

(** ** Requests and worlds *)

(** The request with [x-user-id: demo-user] in place of whatever the header
    was. *)
Definition asDemoUser (req : Request) : Request :=
  {| headers := <["x-user-id"%string := js "demo-user"]> (headers req);
     queryString := queryString req;
     body := body req |}.

(** A request without the header [x-user-id], or with an empty one. *)
Definition anonymous (req : Request) : Prop :=
  headers req !! "x-user-id"%string = None
  \/ headers req !! "x-user-id"%string = Some [].

(** A request with no header at all. *)
Definition bareRequest : Request :=
  {| headers := ∅; queryString := ∅; body := [] |}.

(** The classification every method gives when there is no client. *)
Definition notConfigured : jsstring := js "AI service not configured".

(** The engine with empty tables, and a world around it. *)
Definition emptyDB : DB :=
  {| projects := []; project_files := []; conversations := [];
     clock := 0; serial := 0; uuid := fun n => decimal n |}.

Definition emptyWorld : World :=
  {| db := emptyDB; issued := []; providerCalls := [] |}.

(** A client that rejects every request with the given status and message. *)
Definition rejecting (status : option Z) (message : jsstring) : Client :=
  fun _ => Reject status message.

(** ** Statement texts *)

(** The items of the SET clause for the entries of a mapping, the first one
    bound to the placeholder [k]. *)
Fixpoint setItems (k : nat) (updates : JsObject) : list jsstring :=
  match updates with
  | [] => []
  | (key, _) :: rest => (key ++ js " = $" ++ decimal k) :: setItems (S k) rest
  end.

(** The digits a text starts with. *)
Fixpoint readUint (s : jsstring) : uint :=
  match s with
  | [] => Nil
  | u :: rest =>
      match u with
      | 48 => D0 (readUint rest)
      | 49 => D1 (readUint rest)
      | 50 => D2 (readUint rest)
      | 51 => D3 (readUint rest)
      | 52 => D4 (readUint rest)
      | 53 => D5 (readUint rest)
      | 54 => D6 (readUint rest)
      | 55 => D7 (readUint rest)
      | 56 => D8 (readUint rest)
      | 57 => D9 (readUint rest)
      | _ => Nil
      end
  end.

(** The numbers of the placeholders [$n] of a text, in the order in which
    they occur. *)
Fixpoint placeholders (s : jsstring) : list nat :=
  match s with
  | [] => []
  | u :: rest =>
      if u =? 36 then
        match readUint rest with
        | Nil => placeholders rest
        | d => Nat.of_uint d :: placeholders rest
        end
      else placeholders rest
  end.

(** A text that does not go on with a digit. *)
Definition stops (s : jsstring) : Prop :=
  match s with [] => True | u :: _ => isDigit u = false end.

(** A text without [$]. *)
Definition dollarFree (s : jsstring) : Prop := Forall (fun u => u <> 36) s.

(** A mapping whose keys contain no [$]: what the allow-list of the caller
    guarantees. *)
Definition plainKeys (updates : JsObject) : Prop :=
  Forall (fun entry => dollarFree (fst entry)) updates.

(** An engine that finds no row to update. *)
Definition noRow (text : jsstring) (values : list JsValue) (d : DB)
  : Exn + (list Project.t * DB) := inr ([], d).

(** A mapping of two fields. *)
Definition renaming : JsObject :=
  [(js "name", JString (js "Tetris")); (js "description", JNull)].

(** ** Code units and files *)

(** A unit that does not open a surrogate pair. *)
Definition alone (u : Z) (rest : jsstring) : Prop :=
  JsString.isLead u = false
  \/ match rest with l :: _ => JsString.isTrail l = false | [] => True end.

(** The code point a unit that stands alone is written as. *)
Definition scalarOf (u : Z) : Z :=
  if JsString.isLead u || JsString.isTrail u then 0xFFFD else u.

(** The code point of a surrogate pair. *)
Definition pairOf (u l : Z) : Z :=
  0x10000 + Z.shiftl (u - 0xD800) 10 + (l - 0xDC00).

(** The invariant of a row of [project_files]. *)
Definition sized (f : ProjectFile.t) : Prop :=
  ProjectFile.size_bytes f
  = Z.of_nat (List.length (JsString.utf8Write (ProjectFile.content f))).

(** The row stored for [path] in the project [projectId]. *)
Definition keyed (projectId path : jsstring) (f : ProjectFile.t) : Prop :=
  ProjectFile.project_id f = projectId /\ ProjectFile.file_path f = path.

(** "né" followed by U+1F680 as a surrogate pair: four code units, and
    1 + 2 + 4 bytes. *)
Definition accented : jsstring := [110; 233; 0xD83D; 0xDE80].

(** ** Conversations, and the tables of one user *)

(** Chronological order: [created_at] never decreases along the list. *)
Definition chronological (rows : list Conversation.t) : Prop :=
  StronglySorted
    (fun a b => Conversation.created_at a <= Conversation.created_at b) rows.

(** A conversation of the project of [ann], stored at time [n]. *)
Definition talk (n : Z) : Conversation.t :=
  {| Conversation.id := decimalZ n;
     Conversation.project_id := js "p1";
     Conversation.user_id := js "ann";
     Conversation.message := js "hello";
     Conversation.response := js "hi there";
     Conversation.ai_model := sonnet;
     Conversation.tokens_used := 12;
     Conversation.created_at := n |}.

(** The project of [ann], one file of it, and a world holding them with
    three conversations. *)
Definition annsProject : Project.t :=
  {| Project.id := js "p1";
     Project.user_id := js "ann";
     Project.name := js "Tetris";
     Project.description := [];
     Project.template_used := None;
     Project.status := js "active";
     Project.settings := None;
     Project.created_at := 1;
     Project.updated_at := 5 |}.

Definition annsFile : ProjectFile.t :=
  {| ProjectFile.project_id := js "p1";
     ProjectFile.file_path := js "a.txt";
     ProjectFile.file_name := js "a.txt";
     ProjectFile.content := js "hi";
     ProjectFile.file_type := Some (js "text");
     ProjectFile.size_bytes := 2;
     ProjectFile.created_at := 2;
     ProjectFile.updated_at := 2 |}.

Definition annsWorld : World :=
  {| db := {| projects := [annsProject];
              project_files := [annsFile];
              conversations := [talk 3; talk 5; talk 4];
              clock := 6;
              serial := 0;
              uuid := fun n => decimal n |};
     issued := [];
     providerCalls := [] |}.

(** ** Ownership *)

(** Project ids are a key of [projects]. *)
Definition uniqueIds (d : DB) : Prop :=
  List.NoDup (List.map Project.id (projects d)).

(** [userId] owns a project of id [projectId]. *)
Definition owns (d : DB) (userId projectId : jsstring) : Prop :=
  exists p, In p (projects d)
            /\ Project.id p = projectId /\ Project.user_id p = userId.

(** Two states of the engine with the same files and conversations, whose
    projects are the same rows up to columns other than [id] and
    [user_id]. *)
Definition sameOwners (d d' : DB) : Prop :=
  project_files d' = project_files d
  /\ conversations d' = conversations d
  /\ exists g, projects d' = List.map g (projects d)
               /\ forall p, Project.id (g p) = Project.id p
                            /\ Project.user_id (g p) = Project.user_id p.

(** The rows the join of [getConversations] yields, before the LIMIT. *)
Definition joinedConversations (projectId userId : jsstring) (d : DB)
  : list Conversation.t :=
  flat_map
    (fun c =>
       List.map (fun _ => c)
         (List.filter
            (fun p => (Conversation.project_id c =?s Project.id p)
                      && (Conversation.project_id c =?s projectId)
                      && (Project.user_id p =?s userId))
            (projects d)))
    (conversations d).

(** What a step from the tables [d] to the tables [d'] may do on behalf of
    [userId]: ownership is kept, and a file or conversation that appeared,
    changed or went away belongs to a project of [userId]. *)
Record guarded (userId : jsstring) (d d' : DB) : Prop := {
  guarded_unique : uniqueIds d';
  guarded_owns : forall u p, owns d u p -> owns d' u p;
  guarded_file_new :
    forall f, In f (project_files d') ->
      In f (project_files d) \/ owns d' userId (ProjectFile.project_id f);
  guarded_file_old :
    forall f, In f (project_files d) ->
      In f (project_files d') \/ owns d' userId (ProjectFile.project_id f);
  guarded_conversation_new :
    forall c, In c (conversations d') ->
      In c (conversations d)
      \/ owns d' userId (Conversation.project_id c)
         /\ Conversation.user_id c = userId;
  guarded_conversation_old :
    forall c, In c (conversations d) -> In c (conversations d')
}.

(** The rows the DELETE of a file removes. *)
Definition removed (projectId : jsstring) (filePath : option jsstring)
    (userId : jsstring) (d : DB) (f : ProjectFile.t) : bool :=
  match filePath with
  | Some path =>
      (ProjectFile.project_id f =?s projectId)
      && (ProjectFile.file_path f =?s path)
      && negb (Nat.eqb (List.length (Sql.owners userId f d)) 0)
  | None => false
  end.

(** The rows of [project_files] a response carries. *)
Definition filesOf (p : Payload) : list ProjectFile.t :=
  match p with
  | ProjectDetail _ files _ => files
  | ProjectData _ _ (Some files) =>
      flat_map (fun f => match f with Some f => [f] | None => [] end) files
  | FileData _ (Some file) => [file]
  | _ => []
  end.

(** Likewise for [conversations]. *)
Definition conversationsOf (p : Payload) : list Conversation.t :=
  match p with
  | ProjectDetail _ _ conversations => conversations
  | ConversationList conversations _ => conversations
  | _ => []
  end.

(** Every row in the response belongs to a project of [userId]. *)
Definition mine (userId : jsstring) (d : DB) (response : Response) : Prop :=
  (forall f, In f (filesOf (json response)) ->
     owns d userId (ProjectFile.project_id f))
  /\ (forall c, In c (conversationsOf (json response)) ->
        owns d userId (Conversation.project_id c)).

(** The handler answers, and what it did and what it sent is within the
    projects of [userId]. *)
Definition serves (userId : jsstring) (handler : M Response) (w : World) : Prop :=
  exists response w',
    handler w = (inr response, w')
    /\ guarded userId (db w) (db w')
    /\ mine userId (db w') response.

(** A request of [bob] to save a file into the project of [ann]. *)
Definition bobsRequest : Request :=
  {| headers := {[ "x-user-id"%string := js "bob" ]};
     queryString := ∅;
     body := [(js "filePath", JString (js "b.txt"));
              (js "fileName", JString (js "b.txt"));
              (js "content", JString (js "mine now"))] |}.

(** ** Further vocabulary *)

(** A hex digit or a dash. *)
Definition uuidUnit (u : Z) : Prop := isHex u = true \/ u = 45.

(** The key of a row of [project_files]. *)
Definition fileKey (f : ProjectFile.t) : jsstring * jsstring :=
  (ProjectFile.project_id f, ProjectFile.file_path f).

(** ([project_id], [file_path]) is a key of [project_files]. *)
Definition uniqueKeys (d : DB) : Prop :=
  List.NoDup (List.map fileKey (project_files d)).

(** Most recently updated first. *)
Definition latestFirst (rows : list Project.t) : Prop :=
  StronglySorted
    (fun a b => Project.updated_at b <= Project.updated_at a) rows.


(** The projects of [d'] are those of [d], with [updated_at] set to [now] on
    those of id [projectId] and nothing else changed. *)
Definition bumped (projectId : jsstring) (now : Z) (d d' : DB) : Prop :=
  List.length (projects d') = List.length (projects d)
  /\ (forall p', In p' (projects d') ->
        exists p, In p (projects d)
                  /\ p' = (if Project.id p =?s projectId then Sql.touch now p else p))
  /\ (forall p, In p (projects d) -> Project.id p <> projectId -> In p (projects d'))
  /\ (forall p', In p' (projects d') -> Project.id p' = projectId ->
        Project.updated_at p' = now).

(** The world after one more call to the provider. *)
Definition called (request : ProviderRequest) (w : World) : World :=
  {| db := db w; issued := issued w;
     providerCalls := providerCalls w ++ [request] |}.

(** The usage the gateway reports for a message. *)
Definition usageOf (input output : Z) : Usage :=
  {| input_tokens := input; output_tokens := output;
     total_tokens := input + output |}.

(** * Properties *)

Lemma eqb_eq (a b : jsstring) : (a =?s b) = true <-> a = b.
Proof. unfold JsString.eqb. apply bool_decide_eq_true. Qed.

Lemma eqb_neq (a b : jsstring) : (a =?s b) = false <-> a <> b.
Proof. unfold JsString.eqb. apply bool_decide_eq_false. Qed.

Lemma eqb_refl (a : jsstring) : (a =?s a) = true.
Proof. now apply eqb_eq. Qed.

(** ** The caller's identity *)

Lemma getUserId_asDemoUser req : getUserId (asDemoUser req) = js "demo-user".
Proof.
  unfold getUserId, asDemoUser; simpl.
  rewrite lookup_insert_eq. reflexivity.
Qed.

Lemma getUserId_anonymous req : anonymous req -> getUserId req = js "demo-user".
Proof. unfold getUserId. intros [-> | ->]; reflexivity. Qed.

(** C10. A request without the header [x-user-id], or with an empty one, is
    served as the user [demo-user]: that is the identity [getUserId] resolves,
    and every handler that looks at the caller answers it, and changes the
    tables, exactly as it does for the same request sent with
    [x-user-id: demo-user]. None of them rejects it for the missing header. *)
Theorem anonymous_is_demo_user :
  forall req, anonymous req ->
    getUserId req = js "demo-user"
    /\ listProjects req = listProjects (asDemoUser req)
    /\ (forall id, showProject id req = showProject id (asDemoUser req))
    /\ (forall templates,
          createProjectHandler templates req
          = createProjectHandler templates (asDemoUser req))
    /\ (forall execute id,
          updateProjectHandler execute id req
          = updateProjectHandler execute id (asDemoUser req))
    /\ (forall id, deleteProjectHandler id req = deleteProjectHandler id (asDemoUser req))
    /\ (forall id, saveFileHandler id req = saveFileHandler id (asDemoUser req))
    /\ (forall id filePath,
          showFileHandler id filePath req = showFileHandler id filePath (asDemoUser req))
    /\ (forall id, deleteFileHandler id req = deleteFileHandler id (asDemoUser req))
    /\ (forall ai, chatMessageHandler ai req = chatMessageHandler ai (asDemoUser req))
    /\ (forall id, conversationsHandler id req = conversationsHandler id (asDemoUser req)).
Proof.
  intros req Hreq.
  pose proof (getUserId_anonymous req Hreq) as Hu.
  pose proof (getUserId_asDemoUser req) as Hd.
  split; [exact Hu|].
  unfold listProjects, showProject, createProjectHandler, updateProjectHandler,
    deleteProjectHandler, saveFileHandler, showFileHandler, deleteFileHandler,
    chatMessageHandler, conversationsHandler.
  rewrite Hu, Hd. simpl.
  repeat split; reflexivity.
Qed.

Lemma anonymous_is_demo_user_witness :
  getUserId bareRequest = js "demo-user".
Proof.
  apply (anonymous_is_demo_user bareRequest).
  left. reflexivity.
Defined.

(** ** The AI gateway *)

(** C8. Without a credential ([isConfigured] is false) each of
    [generateCode], [explainCode], [suggestImprovements] and [generateTests]
    returns a failure [{success: false, error}] whose error starts with
    "AI service not configured" and which has no [code]; the world is left as
    it was, so the provider is not called. *)
Theorem not_configured_short_circuit :
  forall ai, isConfigured ai = false ->
  forall (w : World) (a b : jsstring) (files : list ProjectFile.t),
    let outcomes :=
      [generateCode ai a b files w; explainCode ai a b w;
       suggestImprovements ai a b w; generateTests ai a b w] in
    Forall
      (fun outcome =>
         exists rest : jsstring,
           outcome = (inr (Failure (notConfigured ++ rest) None), w)
           /\ success (Failure (notConfigured ++ rest) None) = false
           /\ providerCalls (snd outcome) = providerCalls w)
      outcomes.
Proof.
  intros ai Hc w a b files. unfold isConfigured in Hc.
  unfold generateCode, explainCode, suggestImprovements, generateTests.
  destruct (anthropic ai) as [client|]; [discriminate|].
  repeat constructor.
  - exists (js " - please add CLAUDE_API_KEY environment variable"). repeat split.
  - exists (js " - please add CLAUDE_API_KEY environment variable"). repeat split.
  - exists []. repeat split.
  - exists []. repeat split.
Qed.

Lemma not_configured_short_circuit_witness :
  Forall
    (fun outcome =>
       exists rest : jsstring,
         outcome = (inr (Failure (notConfigured ++ rest) None), emptyWorld)
         /\ success (Failure (notConfigured ++ rest) None) = false
         /\ providerCalls (snd outcome) = [])
    [generateCode {| anthropic := None |} (js "x = 1") (js "jest") [] emptyWorld;
     explainCode {| anthropic := None |} (js "x = 1") (js "jest") emptyWorld;
     suggestImprovements {| anthropic := None |} (js "x = 1") (js "jest") emptyWorld;
     generateTests {| anthropic := None |} (js "x = 1") (js "jest") emptyWorld].
Proof.
  apply (not_configured_short_circuit {| anthropic := None |} eq_refl emptyWorld
           (js "x = 1") (js "jest") []).
Defined.

(** C9. What the code does with an error of the provider. [generateCode]
    tells 401, 429 and 400 apart from the rest, by message and by [code]; the
    other three methods hand back [error.message] as it is, with no [code],
    whatever the status: an unauthenticated call and a rate-limited one that
    carry the same message give the same failure. No method throws. *)
Theorem provider_errors_classified_by_generateCode_only :
  forall (w : World) (a b message : jsstring) (files : list ProjectFile.t),
    let failed status := {| anthropic := Some (rejecting status message) |} in
    fst (generateCode (failed (Some 401)) a b files w)
      = inr (Failure (js "Invalid API key - please check your CLAUDE_API_KEY environment variable")
               (Some (StatusCode 401)))
    /\ fst (generateCode (failed (Some 429)) a b files w)
      = inr (Failure (js "Rate limit exceeded - please try again in a moment")
               (Some (StatusCode 429)))
    /\ fst (generateCode (failed (Some 400)) a b files w)
      = inr (Failure (js "Invalid request - the prompt might be too long or contain unsupported content")
               (Some (StatusCode 400)))
    /\ fst (generateCode (failed None) a b files w)
      = inr (Failure message (Some UNKNOWN))
    /\ (forall status,
          fst (explainCode (failed status) a b w) = inr (Failure message None)
          /\ fst (suggestImprovements (failed status) a b w)
             = inr (Failure message None)
          /\ fst (generateTests (failed status) a b w)
             = inr (Failure message None)).
Proof.
  intros w a b message files failed. repeat split.
Qed.

(** ** [updateProject] *)

(** C2. For the empty mapping [updateProject] throws the usage error
    "No fields to update" and leaves the world as it was: no statement
    reaches the pool, whatever the engine would have done with one. *)
Theorem updateProject_empty_mapping :
  forall execute (projectId userId : jsstring) (w : World),
    updateProject execute projectId userId [] w
    = (inl (Error (js "No fields to update")), w)
    /\ issued (snd (updateProject execute projectId userId [] w)) = issued w.
Proof. intros. split; reflexivity. Qed.

Lemma updateLoop_from (updates : JsObject) :
  forall fields values k,
    fold_left
      (fun '(fields, values, paramCount) '(key, value) =>
         (fields ++ [key ++ js " = $" ++ decimal paramCount],
          values ++ [value],
          S paramCount))
      updates (fields, values, k)
    = (fields ++ setItems k updates, values ++ List.map snd updates,
       (k + List.length updates)%nat).
Proof.
  induction updates as [|[key value] rest IH]; intros fields values k; simpl.
  - now rewrite !app_nil_r, Nat.add_0_r.
  - rewrite IH, <- !app_assoc. simpl. now rewrite Nat.add_succ_r.
Qed.

Lemma updateLoop_eq (updates : JsObject) :
  updateLoop updates
  = (setItems 1 updates, List.map snd updates, S (List.length updates)).
Proof. unfold updateLoop. now rewrite updateLoop_from. Qed.

Lemma setItems_length k updates :
  List.length (setItems k updates) = List.length updates.
Proof.
  revert k. induction updates as [|[key value] rest IH]; intros k; simpl; auto.
Qed.

Lemma setItems_nth updates :
  forall k i key value,
    nth_error updates i = Some (key, value) ->
    nth_error (setItems k updates) i = Some (key ++ js " = $" ++ decimal (k + i)).
Proof.
  induction updates as [|[key0 value0] rest IH]; intros k i key value H.
  - destruct i; discriminate.
  - destruct i as [|i]; simpl in *.
    + injection H as -> ->. now rewrite Nat.add_0_r.
    + rewrite (IH (S k) i key value H). now rewrite Nat.add_succ_r.
Qed.

(** *** The placeholders a statement text contains *)

Lemma readUint_stops s : stops s -> readUint s = Nil.
Proof.
  destruct s as [|u rest]; simpl; [easy|]. intros H.
  destruct u as [|p|p]; try reflexivity.
  do 7 (try (destruct p as [p|p|]; try reflexivity;
             try (vm_compute in H; discriminate H))).
Qed.

Lemma readUint_units d s : stops s -> readUint (uintUnits d ++ s) = d.
Proof.
  intros Hs. induction d; simpl; try (now rewrite IHd).
  now apply readUint_stops.
Qed.

Lemma uintUnits_dollarFree d : dollarFree (uintUnits d).
Proof. induction d; simpl; constructor; (lia || assumption). Qed.

Lemma placeholders_dollarFree s t :
  dollarFree s -> placeholders (s ++ t) = placeholders t.
Proof.
  induction 1 as [|u s Hu _ IH]; simpl; [reflexivity|].
  destruct (u =? 36) eqn:E; [apply Z.eqb_eq in E; contradiction|exact IH].
Qed.

Lemma to_uint_nonnil n : Nat.to_uint n <> Nil.
Proof.
  rewrite <- (Unsigned.of_to n) at 1. rewrite Unsigned.to_of.
  apply DecimalFacts.unorm_nonnil.
Qed.

Lemma placeholders_dollar k s :
  stops s -> placeholders (36 :: decimal k ++ s) = k :: placeholders s.
Proof.
  intros Hs. unfold decimal. simpl. rewrite readUint_units by assumption.
  rewrite placeholders_dollarFree by apply uintUnits_dollarFree.
  pose proof (to_uint_nonnil k) as Hn. pose proof (Unsigned.of_to k) as Hk.
  destruct (Nat.to_uint k); [contradiction|now rewrite Hk ..].
Qed.

Lemma dollarFree_check s :
  forallb (fun u => negb (u =? 36)) s = true -> dollarFree s.
Proof.
  intros H. apply List.Forall_forall. intros u Hu.
  rewrite forallb_forall in H. specialize (H u Hu).
  apply negb_true_iff, Z.eqb_neq in H. exact H.
Qed.

Lemma dollarFree_app s t : dollarFree s -> dollarFree t -> dollarFree (s ++ t).
Proof. intros. now apply List.Forall_app. Qed.

Lemma placeholders_item key k s :
  dollarFree key -> stops s ->
  placeholders ((key ++ js " = $" ++ decimal k) ++ s) = k :: placeholders s.
Proof.
  intros Hk Hs.
  change (js " = $") with ([32; 61; 32] ++ [36]).
  rewrite <- !app_assoc. rewrite placeholders_dollarFree by assumption.
  rewrite placeholders_dollarFree by (now apply dollarFree_check).
  simpl app. now apply placeholders_dollar.
Qed.

Lemma placeholders_setItems updates :
  forall k s,
    plainKeys updates -> stops s ->
    placeholders (join (js ", ") (setItems k updates) ++ s)
    = seq k (List.length updates) ++ placeholders s.
Proof.
  induction updates as [|[key value] rest IH]; intros k s Hp Hs.
  - reflexivity.
  - inversion Hp as [|? ? Hkey Hrest]; subst. simpl in Hkey.
    destruct rest as [|[key' value'] rest'].
    + change (join (js ", ") (setItems k [(key, value)]))
        with (key ++ js " = $" ++ decimal k).
      now rewrite placeholders_item.
    + change (join (js ", ") (setItems k ((key, value) :: (key', value') :: rest')))
        with ((key ++ js " = $" ++ decimal k)
              ++ js ", " ++ join (js ", ") (setItems (S k) ((key', value') :: rest'))).
      rewrite <- !app_assoc.
      rewrite (app_assoc key), (app_assoc (key ++ _)), <- (app_assoc key).
      rewrite placeholders_item by (assumption || exact eq_refl).
      rewrite placeholders_dollarFree by (now apply dollarFree_check).
      rewrite IH by assumption. reflexivity.
Qed.

Lemma placeholders_dollar_app k s :
  stops s -> placeholders ([36] ++ decimal k ++ s) = k :: placeholders s.
Proof. apply placeholders_dollar. Qed.

Lemma placeholders_updateQuery updates :
  plainKeys updates ->
  placeholders (updateQuery (setItems 1 updates) (S (List.length updates)))
  = seq 1 (List.length updates + 2).
Proof.
  intros Hp. set (n := List.length updates).
  unfold updateQuery.
  do 4 rewrite placeholders_dollarFree by (now apply dollarFree_check).
  rewrite placeholders_setItems by (assumption || exact eq_refl).
  fold n.
  do 2 rewrite placeholders_dollarFree by (now apply dollarFree_check).
  change (js "      WHERE id = $") with (js "      WHERE id = " ++ [36]).
  rewrite <- app_assoc.
  rewrite placeholders_dollarFree by (now apply dollarFree_check).
  change (js " AND user_id = $") with (js " AND user_id = " ++ [36]).
  rewrite <- (app_assoc (js " AND user_id = ")).
  rewrite placeholders_dollar_app by exact eq_refl.
  rewrite placeholders_dollarFree by (now apply dollarFree_check).
  rewrite placeholders_dollar_app by exact eq_refl.
  rewrite !placeholders_dollarFree by (now apply dollarFree_check).
  rewrite seq_app. simpl. now rewrite Nat.add_1_r.
Qed.

(** C1. For a non-empty mapping [updateProject] hands the pool one UPDATE
    statement. Its SET clause lists, in the order of the mapping, one item
    [key = $i] per entry, followed by [updated_at = NOW()]; its WHERE clause
    constrains [id] and [user_id]. The bind values are the values of the
    mapping in the same order, then the project id and the owner: the value
    at position [i] is the one of the item with placeholder [$i], and [id],
    [user_id] are bound to the last two. When no key contains a [$], the
    placeholders that occur in the text are exactly [$1 ... $(n+2)], one per
    bind value, in this order. *)
Theorem updateProject_statement :
  forall execute (projectId userId : jsstring) (updates : JsObject) (w : World),
    updates <> [] ->
    let n := List.length updates in
    let text := updateQuery (setItems 1 updates) (S n) in
    let values := List.map snd updates ++ [JString projectId; JString userId] in
    issued (snd (updateProject execute projectId userId updates w))
      = issued w ++ [(UpdateProjects text, values)]
    /\ text
       = nl ++ js "      UPDATE projects " ++ nl
         ++ js "      SET " ++ join (js ", ") (setItems 1 updates)
         ++ js ", updated_at = NOW()" ++ nl
         ++ js "      WHERE id = $" ++ decimal (n + 1)
         ++ js " AND user_id = $" ++ decimal (n + 2) ++ nl
         ++ js "      RETURNING *" ++ nl
         ++ js "    "
    /\ List.length (setItems 1 updates) = n
    /\ (forall i key value,
          nth_error updates i = Some (key, value) ->
          nth_error (setItems 1 updates) i
            = Some (key ++ js " = $" ++ decimal (i + 1))
          /\ nth_error values i = Some value)
    /\ nth_error values n = Some (JString projectId)
    /\ nth_error values (n + 1) = Some (JString userId)
    /\ List.length values = (n + 2)%nat
    /\ (plainKeys updates -> placeholders text = seq 1 (n + 2)).
Proof.
  intros execute projectId userId updates w Hne n text values.
  assert (Hlen : List.length (List.map snd updates) = n) by apply length_map.
  repeat split.
  - unfold updateProject. rewrite updateLoop_eq, setItems_length.
    assert (Nat.eqb (List.length updates) 0 = false) as ->
      by (destruct updates; [contradiction|reflexivity]).
    unfold bind, query.
    destruct (execute _ _ (db w)) as [e|[rows d']]; reflexivity.
  - unfold text, updateQuery.
    replace (n + 1)%nat with (S n) by lia.
    replace (n + 2)%nat with (S n + 1)%nat by lia. reflexivity.
  - apply setItems_length.
  - rewrite (setItems_nth updates 1 i key value H).
    now replace (1 + i)%nat with (i + 1)%nat by lia.
  - unfold values. rewrite nth_error_app1.
    + rewrite nth_error_map, H. reflexivity.
    + rewrite Hlen. apply nth_error_Some. now rewrite H.
  - unfold values. rewrite nth_error_app2 by lia.
    now rewrite Hlen, Nat.sub_diag.
  - unfold values. rewrite nth_error_app2 by lia.
    rewrite Hlen. now replace (n + 1 - n)%nat with 1%nat by lia.
  - unfold values. rewrite length_app, Hlen. reflexivity.
  - intros Hp. now apply placeholders_updateQuery.
Qed.

Lemma updateProject_statement_witness :
  issued (snd (updateProject noRow (js "p1") (js "ann") renaming emptyWorld))
  = [(UpdateProjects
        (nl ++ js "      UPDATE projects " ++ nl
         ++ js "      SET name = $1, description = $2, updated_at = NOW()" ++ nl
         ++ js "      WHERE id = $3 AND user_id = $4" ++ nl
         ++ js "      RETURNING *" ++ nl
         ++ js "    "),
      [JString (js "Tetris"); JNull; JString (js "p1"); JString (js "ann")])]
  /\ placeholders (updateQuery (setItems 1 renaming) 3) = [1; 2; 3; 4]%nat.
Proof.
  destruct (updateProject_statement noRow (js "p1") (js "ann") renaming emptyWorld)
    as (Hissued & _ & _ & _ & _ & _ & _ & Hplaceholders).
  - discriminate.
  - split.
    + exact Hissued.
    + apply Hplaceholders.
      unfold plainKeys, renaming.
      repeat (apply List.Forall_cons; [apply dollarFree_check; reflexivity|]).
      apply List.Forall_nil.
Defined.

(** ** [Buffer.byteLength] and the bytes written *)

Lemma utf8Encode_length c :
  List.length (JsString.utf8Encode c)
  = if c <? 0x80 then 1%nat
    else if c <? 0x800 then 2%nat
    else if c <? 0x10000 then 3%nat else 4%nat.
Proof.
  unfold JsString.utf8Encode.
  destruct (c <? 0x80); [reflexivity|].
  destruct (c <? 0x800); [reflexivity|].
  destruct (c <? 0x10000); reflexivity.
Qed.

Lemma codePoints_alone u rest :
  alone u rest ->
  JsString.codePoints (u :: rest) = scalarOf u :: JsString.codePoints rest.
Proof.
  unfold alone, scalarOf. cbn [JsString.codePoints].
  destruct (JsString.isLead u) eqn:EL; simpl.
  - intros [H|H]; [discriminate|].
    destruct rest as [|l rest']; [reflexivity|]. now rewrite H.
  - intros _. destruct (JsString.isTrail u); reflexivity.
Qed.

Lemma byteLength_alone u rest :
  alone u rest -> 0 <= u < 65536 ->
  JsString.byteLength (u :: rest)
  = Z.of_nat (List.length (JsString.utf8Encode (scalarOf u)))
    + JsString.byteLength rest.
Proof.
  unfold alone, scalarOf. intros Ha Hu.
  cbn [JsString.byteLength]. rewrite utf8Encode_length.
  unfold JsString.isLead, JsString.isTrail in *.
  destruct (u <? 128) eqn:E1; [apply Z.ltb_lt in E1|apply Z.ltb_ge in E1].
  { replace (55296 <=? u) with false by (symmetry; apply Z.leb_gt; lia).
    replace (56320 <=? u) with false by (symmetry; apply Z.leb_gt; lia).
    simpl. replace (u <? 128) with true by (symmetry; apply Z.ltb_lt; lia). lia. }
  destruct (u <? 2048) eqn:E2; [apply Z.ltb_lt in E2|apply Z.ltb_ge in E2].
  { replace (55296 <=? u) with false by (symmetry; apply Z.leb_gt; lia).
    replace (56320 <=? u) with false by (symmetry; apply Z.leb_gt; lia).
    simpl. replace (u <? 128) with false by (symmetry; apply Z.ltb_ge; lia).
    replace (u <? 2048) with true by (symmetry; apply Z.ltb_lt; lia). lia. }
  destruct ((55296 <=? u) && (u <=? 56319)) eqn:EL.
  { simpl. destruct Ha as [Ha|Ha]; [discriminate|].
    destruct rest as [|l rest']; [simpl; lia|]. rewrite Ha. lia. }
  destruct ((56320 <=? u) && (u <=? 57343)) eqn:ET; simpl; [lia|].
  replace (u <? 128) with false by (symmetry; apply Z.ltb_ge; lia).
  replace (u <? 2048) with false by (symmetry; apply Z.ltb_ge; lia).
  replace (u <? 65536) with true by (symmetry; apply Z.ltb_lt; lia). lia.
Qed.

Lemma codePoints_pair u l rest :
  JsString.isLead u = true -> JsString.isTrail l = true ->
  JsString.codePoints (u :: l :: rest) = pairOf u l :: JsString.codePoints rest.
Proof. intros EL ET. cbn [JsString.codePoints]. now rewrite EL, ET. Qed.

Lemma byteLength_pair u l rest :
  JsString.isLead u = true -> JsString.isTrail l = true ->
  JsString.byteLength (u :: l :: rest)
  = Z.of_nat (List.length (JsString.utf8Encode (pairOf u l)))
    + JsString.byteLength rest.
Proof.
  intros EL ET. cbn [JsString.byteLength]. rewrite EL, ET, utf8Encode_length.
  unfold JsString.isLead in EL. unfold JsString.isTrail in ET.
  apply andb_true_iff in EL as [EL1 EL2]. apply andb_true_iff in ET as [ET1 ET2].
  apply Z.leb_le in EL1, EL2, ET1, ET2.
  unfold pairOf. rewrite Z.shiftl_mul_pow2 by lia.
  set (c := 65536 + (u - 55296) * 2 ^ 10 + (l - 56320)).
  assert (65536 <= c) by (unfold c; lia).
  replace (u <? 128) with false by (symmetry; apply Z.ltb_ge; lia).
  replace (u <? 2048) with false by (symmetry; apply Z.ltb_ge; lia).
  replace (c <? 128) with false by (symmetry; apply Z.ltb_ge; lia).
  replace (c <? 2048) with false by (symmetry; apply Z.ltb_ge; lia).
  replace (c <? 65536) with false by (symmetry; apply Z.ltb_ge; lia).
  lia.
Qed.

Lemma alone_or_pair u rest :
  alone u rest
  \/ exists l rest', rest = l :: rest'
       /\ JsString.isLead u = true /\ JsString.isTrail l = true.
Proof.
  unfold alone. destruct (JsString.isLead u); [|now left; left].
  destruct rest as [|l rest']; [now left; right|].
  destruct (JsString.isTrail l) eqn:ET; [right; eauto|now left; right].
Qed.

Lemma byteLength_step :
  forall s, JsString.wf s ->
    JsString.byteLength s = Z.of_nat (List.length (JsString.utf8Write s))
    /\ forall u, 0 <= u < 65536 ->
         JsString.byteLength (u :: s)
         = Z.of_nat (List.length (JsString.utf8Write (u :: s))).
Proof.
  unfold JsString.utf8Write.
  induction s as [|l rest IH]; intros Hwf.
  - split; [reflexivity|]. intros u Hu.
    assert (Ha : alone u []) by now right.
    rewrite byteLength_alone, codePoints_alone by assumption.
    simpl. rewrite length_app. simpl. lia.
  - inversion Hwf as [|? ? Hl Hrest]; subst.
    destruct (IH Hrest) as [IH0 IH1]. pose proof (IH1 l Hl) as IHl.
    split; [exact IHl|]. intros u Hu.
    destruct (alone_or_pair u (l :: rest)) as [Ha|(l' & rest' & E & EL & ET)].
    + rewrite byteLength_alone, codePoints_alone by assumption.
      rewrite IHl. cbn [flat_map]. rewrite length_app. lia.
    + injection E as <- <-.
      rewrite byteLength_pair, codePoints_pair by assumption.
      rewrite IH0. cbn [flat_map]. rewrite length_app. lia.
Qed.

Lemma byteLength_utf8Write s :
  JsString.wf s ->
  JsString.byteLength s = Z.of_nat (List.length (JsString.utf8Write s)).
Proof. intros H. now apply byteLength_step. Qed.

(** ** [saveProjectFile] *)

Lemma hit_keyed projectId path f :
  (ProjectFile.project_id f =?s projectId) && (ProjectFile.file_path f =?s path) = true
  <-> keyed projectId path f.
Proof. unfold keyed. now rewrite andb_true_iff, !eqb_eq. Qed.

(** What the upsert does to the table. *)
Lemma upsertProjectFile_spec projectId path name text fileType size d :
  exists row rows d',
    Sql.upsertProjectFile projectId (Some path) (Some name) text fileType size d
    = inr (row :: rows, d')
    /\ projects d' = projects d
    /\ conversations d' = conversations d
    /\ In row (project_files d')
    /\ (keyed projectId path row
        /\ ProjectFile.content row = text /\ ProjectFile.size_bytes row = size)
    /\ (forall f, In f (project_files d') ->
          keyed projectId path f
          /\ ProjectFile.content f = text /\ ProjectFile.size_bytes f = size
          \/ ~ keyed projectId path f /\ In f (project_files d))
    /\ (forall f, In f (project_files d) ->
          ~ keyed projectId path f -> In f (project_files d')).
Proof.
  unfold Sql.upsertProjectFile.
  set (hit := fun f => (ProjectFile.project_id f =?s projectId)
                       && (ProjectFile.file_path f =?s path)).
  set (upd := Sql.overwrite name text fileType size (clock d)).
  assert (Hupd : forall f, keyed projectId path f -> keyed projectId path (upd f))
    by (intros f Hf; exact Hf).
  destruct (existsb hit (project_files d)) eqn:E.
  - apply existsb_exists in E as (f0 & Hin0 & Hhit0).
    assert (Hf0 : In f0 (List.filter hit (project_files d)))
      by (apply filter_In; auto).
    destruct (List.filter hit (project_files d)) as [|f1 fs] eqn:EF; [easy|].
    assert (H1 : In f1 (project_files d) /\ hit f1 = true).
    { apply filter_In. rewrite EF. now left. }
    destruct H1 as [Hin1 Hhit1].
    do 3 eexists. split; [reflexivity|].
    unfold Sql.setFiles; cbn [project_files projects conversations].
    split; [reflexivity|]. split; [reflexivity|].
    split; [|split; [|split]].
    + apply in_map_iff. exists f1. unfold hit in Hhit1. now rewrite Hhit1.
    + split; [|split; reflexivity]. now apply Hupd, hit_keyed.
    + intros f Hf. apply in_map_iff in Hf as (g & <- & Hg).
      destruct (_ && _) eqn:Eg.
      * left. apply hit_keyed in Eg. auto.
      * right. split; [|assumption]. rewrite <- hit_keyed. now rewrite Eg.
    + intros f Hf Hk. apply in_map_iff. exists f. split; [|assumption].
      destruct (_ && _) eqn:Ef; [|reflexivity].
      apply hit_keyed in Ef. contradiction.
  - do 3 eexists. split; [reflexivity|].
    unfold Sql.setFiles; cbn [project_files projects conversations].
    split; [reflexivity|]. split; [reflexivity|].
    split; [|split; [|split]].
    + apply in_or_app. right. now left.
    + unfold keyed. simpl. auto.
    + intros f Hf. apply in_app_or in Hf as [Hf|[<-|[]]].
      * right. split; [|assumption]. rewrite <- hit_keyed. intros Hh.
        assert (existsb hit (project_files d) = true)
          by (apply existsb_exists; eauto).
        congruence.
      * left. simpl. unfold keyed. auto.
    + intros f Hf _. apply in_or_app. now left.
Qed.

(** C4. After [saveProjectFile], whether it inserted the row or overwrote
    the one already stored for the same project and path, the row it returns
    is in the table, holds the content given, and its [size_bytes] is the
    number of bytes of that content in UTF-8, characters that take several
    bytes and surrogate pairs included; so does every row stored under that
    key. The size is computed from the content argument (the method takes no
    size), and rows whose size was right before the call keep a right size. *)
Theorem saveProjectFile_size_bytes :
  forall (w : World) (projectId path name text : jsstring)
         (filePath fileName fileType : JsValue),
    prepareValue filePath = Some path ->
    prepareValue fileName = Some name ->
    JsString.wf text ->
    exists row w',
      saveProjectFile projectId filePath fileName (JString text) fileType w
      = (inr (Some row), w')
      /\ In row (project_files (db w'))
      /\ keyed projectId path row
      /\ ProjectFile.content row = text
      /\ ProjectFile.size_bytes row
         = Z.of_nat (List.length (JsString.utf8Write text))
      /\ (forall f, In f (project_files (db w')) -> keyed projectId path f ->
            ProjectFile.content f = text /\ sized f)
      /\ ((forall f, In f (project_files (db w)) -> sized f) ->
          forall f, In f (project_files (db w')) -> sized f).
Proof.
  intros w projectId path name text filePath fileName fileType Hpath Hname Hwf.
  destruct (upsertProjectFile_spec projectId path name text
              (prepareValue (orText fileType)) (JsString.byteLength text) (db w))
    as (row & rows & d' & Hrun & _ & _ & Hin & (Hkey & Hcontent & Hsize) & Hnew & _).
  rewrite byteLength_utf8Write in Hsize by assumption.
  exists row. eexists. split.
  - unfold saveProjectFile, bind, query, writing.
    rewrite Hpath, Hname, Hrun. reflexivity.
  - cbn [db Sql.touchProject Sql.setProjects project_files].
    split; [assumption|]. split; [assumption|]. split; [assumption|].
    split; [assumption|]. split.
    + intros f Hf Hk. unfold sized.
      destruct (Hnew f Hf) as [(_ & Hc & Hs)|[Hn _]]; [|tauto].
      rewrite Hc, Hs. split; [reflexivity|]. now apply byteLength_utf8Write.
    + intros Hold f Hf. unfold sized.
      destruct (Hnew f Hf) as [(_ & Hc & Hs)|[_ Hn]]; [|now apply Hold].
      rewrite Hc, Hs. now apply byteLength_utf8Write.
Qed.

Lemma saveProjectFile_size_bytes_witness :
  exists row w',
    saveProjectFile (js "p1") (JString (js "a.txt")) (JString (js "a.txt"))
      (JString accented) JUndefined emptyWorld
    = (inr (Some row), w')
    /\ ProjectFile.content row = accented
    /\ ProjectFile.size_bytes row = 7.
Proof.
  destruct (saveProjectFile_size_bytes emptyWorld (js "p1") (js "a.txt")
              (js "a.txt") accented (JString (js "a.txt")) (JString (js "a.txt"))
              JUndefined)
    as (row & w' & Hrun & _ & _ & Hcontent & Hsize & _).
  - reflexivity.
  - reflexivity.
  - unfold JsString.wf, accented. repeat (apply List.Forall_cons; [lia|]).
    apply List.Forall_nil.
  - exists row, w'. repeat split; assumption.
Defined.

(** ** [ORDER BY], [LIMIT] and [reverse] *)

Section OrderByFacts.
Context {A : Type} (le : A -> A -> bool).
Hypothesis le_total : forall a b, le a b = true \/ le b a = true.
Hypothesis le_trans : forall a b c, le a b = true -> le b c = true -> le a c = true.

Let R (a b : A) : Prop := le a b = true.

Lemma insertBy_In x l z : In z (insertBy le x l) <-> z = x \/ In z l.
Proof.
  induction l as [|y rest IH]; simpl.
  - intuition.
  - destruct (le x y); simpl; rewrite ?IH; intuition.
Qed.

Lemma orderBy_In l z : In z (orderBy le l) <-> In z l.
Proof.
  induction l as [|x rest IH]; simpl; [tauto|].
  rewrite insertBy_In, IH. intuition.
Qed.

Lemma insertBy_sorted x l :
  StronglySorted R l -> StronglySorted R (insertBy le x l).
Proof.
  induction 1 as [|y rest Hs IH Hy]; simpl.
  - repeat constructor.
  - destruct (le x y) eqn:E.
    + constructor; [now constructor|]. constructor; [exact E|].
      eapply List.Forall_impl; [|exact Hy]. intros z Hz. exact (le_trans _ _ _ E Hz).
    + constructor; [exact IH|].
      apply List.Forall_forall. intros z Hz. apply insertBy_In in Hz as [->|Hz].
      * destruct (le_total x y) as [H|H]; [congruence|exact H].
      * rewrite List.Forall_forall in Hy. now apply Hy.
Qed.

Lemma orderBy_sorted l : StronglySorted R (orderBy le l).
Proof.
  induction l as [|x rest IH]; simpl; [constructor|now apply insertBy_sorted].
Qed.
End OrderByFacts.

Lemma StronglySorted_impl {A} (R S : A -> A -> Prop) l :
  (forall a b, R a b -> S a b) -> StronglySorted R l -> StronglySorted S l.
Proof.
  intros H. induction 1 as [|x rest Hs IH Hx]; constructor; [exact IH|].
  eapply List.Forall_impl; [|exact Hx]. intros y. apply H.
Qed.

Lemma StronglySorted_app_l {A} (R : A -> A -> Prop) l1 l2 :
  StronglySorted R (l1 ++ l2) -> StronglySorted R l1.
Proof.
  induction l1 as [|x l1 IH]; simpl; intros H; [constructor|].
  inversion H as [|? ? Hs Hx]; subst. constructor; [now apply IH|].
  apply List.Forall_app in Hx. tauto.
Qed.

Lemma StronglySorted_firstn {A} (R : A -> A -> Prop) n l :
  StronglySorted R l -> StronglySorted R (firstn n l).
Proof.
  intros H. rewrite <- (firstn_skipn n l) in H.
  now apply StronglySorted_app_l in H.
Qed.

Lemma StronglySorted_snoc {A} (R : A -> A -> Prop) l x :
  StronglySorted R l -> Forall (fun y => R y x) l -> StronglySorted R (l ++ [x]).
Proof.
  induction 1 as [|y rest Hs IH Hy]; simpl; intros Hx.
  - repeat constructor.
  - inversion Hx; subst. constructor; [now apply IH|].
    apply List.Forall_app. split; [assumption|]. now repeat constructor.
Qed.

Lemma StronglySorted_rev {A} (R : A -> A -> Prop) l :
  StronglySorted R l -> StronglySorted (fun a b => R b a) (rev l).
Proof.
  induction 1 as [|x rest Hs IH Hx]; simpl; [constructor|].
  apply StronglySorted_snoc; [exact IH|].
  apply List.Forall_forall. intros y Hy. apply in_rev in Hy.
  rewrite List.Forall_forall in Hx. now apply Hx.
Qed.

(** What [getConversations] returns, in terms of the table. *)
Lemma getConversations_rows projectId userId limit w :
  0 <= limit ->
  exists rows,
    getConversations projectId userId limit w
    = (inr rows,
       {| db := db w;
          issued := issued w
                    ++ [(SelectConversations,
                         [JString projectId; JString userId; JNumber limit])];
          providerCalls := providerCalls w |})
    /\ Sql.selectConversations projectId userId limit (db w) = inr (rev rows)
    /\ chronological rows
    /\ Z.of_nat (List.length rows) <= limit.
Proof.
  intros Hlimit. unfold getConversations, bind, query, Sql.selectConversations.
  replace (limit <? 0) with false by (symmetry; apply Z.ltb_ge; lia).
  eexists. split; [reflexivity|]. rewrite rev_involutive.
  split; [reflexivity|]. split.
  - unfold chronological.
    apply (StronglySorted_rev
             (fun a b => Conversation.created_at b <= Conversation.created_at a)).
    apply StronglySorted_firstn.
    eapply StronglySorted_impl;
      [|apply (orderBy_sorted
                 (fun a b => Conversation.created_at b <=? Conversation.created_at a))].
    + intros a b H. now apply Z.leb_le in H.
    + intros a b. rewrite !Z.leb_le. lia.
    + intros a b c. rewrite !Z.leb_le. lia.
  - rewrite length_rev, length_firstn. lia.
Qed.

Lemma getConversations_negative projectId userId limit w :
  limit < 0 ->
  exists e w', getConversations projectId userId limit w = (inl e, w').
Proof.
  intros Hlimit. unfold getConversations, bind, query, Sql.selectConversations.
  replace (limit <? 0) with true by (symmetry; apply Z.ltb_lt; lia).
  eauto.
Qed.

Lemma getProject_run projectId userId w :
  getProject projectId userId w
  = (inr (rows0 (Sql.selectProject projectId userId (db w))),
     {| db := db w;
        issued := issued w
                  ++ [(SelectProject, [JString projectId; JString userId])];
        providerCalls := providerCalls w |}).
Proof. reflexivity. Qed.

(** C5. For a positive limit [getConversations] returns its rows in
    chronological order ([created_at] never decreases: the rows are selected
    most recent first and then reversed), and at most [limit] of them. The
    limit the conversation-history handler passes is at most 100, so the list
    it sends is chronological and has at most 100 entries. *)
Theorem getConversations_chronological_bounded :
  forall (w : World) (projectId userId : jsstring) (limit : Z) (req : Request),
    0 < limit ->
    (exists rows w',
       getConversations projectId userId limit w = (inr rows, w')
       /\ Sql.selectConversations projectId userId limit (db w) = inr (rev rows)
       /\ chronological rows
       /\ Z.of_nat (List.length rows) <= limit)
    /\ effectiveLimit req <= 100
    /\ (forall id v response v' data echoed,
          conversationsHandler id req v = (inr response, v') ->
          json response = ConversationList data echoed ->
          chronological data
          /\ Z.of_nat (List.length data) <= effectiveLimit req).
Proof.
  intros w projectId userId limit req Hlimit. split; [|split].
  - destruct (getConversations_rows projectId userId limit w) as (rows & H);
      [lia|]. exists rows. eexists. exact H.
  - unfold effectiveLimit. lia.
  - intros id v response v' data echoed Hrun Hjson.
    unfold conversationsHandler, tryCatch, bind in Hrun.
    destruct (uuidRegexTest id); cbn [negb] in Hrun;
      [|injection Hrun as <- <-; discriminate].
    rewrite getProject_run in Hrun.
    destruct (rows0 _) as [project|];
      [|injection Hrun as <- <-; discriminate].
    fold (effectiveLimit req) in Hrun.
    destruct (Z.lt_ge_cases (effectiveLimit req) 0) as [Hneg|Hpos].
    + destruct (getConversations_negative id (getUserId req) _
                  {| db := db v;
                     issued := issued v
                               ++ [(SelectProject,
                                    [JString id; JString (getUserId req)])];
                     providerCalls := providerCalls v |} Hneg)
        as (e & w1 & Hget).
      rewrite Hget in Hrun. injection Hrun as <- <-. discriminate.
    + destruct (getConversations_rows id (getUserId req) _
                  {| db := db v;
                     issued := issued v
                               ++ [(SelectProject,
                                    [JString id; JString (getUserId req)])];
                     providerCalls := providerCalls v |} Hpos)
        as (rows & Hget & _ & Hsorted & Hlen).
      rewrite Hget in Hrun. injection Hrun as <- <-.
      injection Hjson as <- <-. split; assumption.
Qed.

Lemma getConversations_chronological_bounded_witness :
  exists rows w',
    getConversations (js "p1") (js "ann") 2 annsWorld = (inr rows, w')
    /\ chronological rows
    /\ Z.of_nat (List.length rows) <= 2.
Proof.
  destruct (getConversations_chronological_bounded annsWorld (js "p1") (js "ann")
              2 bareRequest)
    as [(rows & w' & Hrun & _ & Hsorted & Hlen) _].
  - lia.
  - exists rows, w'. auto.
Defined.

(** ** Ownership *)

Lemma uniqueIds_owner d p q :
  uniqueIds d -> In p (projects d) -> In q (projects d) ->
  Project.id p = Project.id q -> p = q.
Proof.
  unfold uniqueIds. induction (projects d) as [|x rest IH]; simpl; [easy|].
  intros Hnd Hp Hq E. inversion Hnd as [|? ? Hx Hrest]; subst.
  destruct Hp as [->|Hp], Hq as [->|Hq]; auto.
  - exfalso. apply Hx. rewrite E. now apply in_map.
  - exfalso. apply Hx. rewrite <- E. now apply in_map.
Qed.

Lemma owns_unique d a b projectId :
  uniqueIds d -> owns d a projectId -> owns d b projectId -> a = b.
Proof.
  intros Hu (p & Hp & Hpi & <-) (q & Hq & Hqi & <-).
  now rewrite (uniqueIds_owner d p q Hu Hp Hq) by congruence.
Qed.

Lemma filter_none {A} (f : A -> bool) l :
  (forall x, In x l -> f x = false) -> List.filter f l = [].
Proof.
  induction l as [|x rest IH]; simpl; intros H; [reflexivity|].
  rewrite (H x) by now left. apply IH. intros y Hy. apply H. now right.
Qed.

Lemma flat_map_none {A B} (f : A -> list B) l :
  (forall x, In x l -> f x = []) -> flat_map f l = [].
Proof.
  induction l as [|x rest IH]; simpl; intros H; [reflexivity|].
  rewrite (H x) by now left. apply IH. intros y Hy. apply H. now right.
Qed.

Lemma owners_In userId f d p :
  In p (Sql.owners userId f d)
  <-> In p (projects d)
      /\ Project.id p = ProjectFile.project_id f /\ Project.user_id p = userId.
Proof.
  unfold Sql.owners. rewrite filter_In, andb_true_iff, !eqb_eq. intuition.
Qed.

Lemma owners_none userId f d :
  ~ owns d userId (ProjectFile.project_id f) -> Sql.owners userId f d = [].
Proof.
  intros H. destruct (Sql.owners userId f d) as [|p ps] eqn:E; [reflexivity|].
  exfalso. apply H. exists p. apply owners_In. rewrite E. now left.
Qed.

(** Whoever does not own the project is shown nothing of it. *)
Lemma stranger_sees_nothing d userId projectId :
  ~ owns d userId projectId ->
  Sql.selectProject projectId userId d = []
  /\ Sql.selectProjectFiles projectId userId d = []
  /\ (forall path, Sql.selectProjectFile projectId path userId d = [])
  /\ (forall limit, 0 <= limit ->
        Sql.selectConversations projectId userId limit d = inr []).
Proof.
  intros H. repeat split.
  - unfold Sql.selectProject. apply filter_none. intros p Hp.
    destruct (_ && _) eqn:E; [|reflexivity].
    rewrite !andb_true_iff, !eqb_eq in E. exfalso. apply H. exists p. tauto.
  - unfold Sql.selectProjectFiles. rewrite flat_map_none; [reflexivity|].
    intros f Hf. destruct (_ =?s _) eqn:E; [|reflexivity].
    apply eqb_eq in E. rewrite owners_none; [reflexivity|]. now rewrite E.
  - intros path. unfold Sql.selectProjectFile. apply flat_map_none.
    intros f Hf. destruct (_ && _) eqn:E; [|reflexivity].
    rewrite andb_true_iff, !eqb_eq in E. destruct E as [E _].
    rewrite owners_none; [reflexivity|]. now rewrite E.
  - intros limit Hlimit. unfold Sql.selectConversations.
    replace (limit <? 0) with false by (symmetry; apply Z.ltb_ge; lia).
    rewrite flat_map_none; [now rewrite firstn_nil|].
    intros c Hc. rewrite filter_none; [reflexivity|]. intros p Hp.
    destruct (_ && _) eqn:E; [|reflexivity].
    rewrite !andb_true_iff, !eqb_eq in E. exfalso. apply H. exists p.
    intuition congruence.
Qed.

Lemma getConversations_none projectId userId limit w :
  ~ owns (db w) userId projectId ->
  fst (getConversations projectId userId limit w)
  = if limit <? 0 then inl (StorageError (js "LIMIT must not be negative"))
    else inr [].
Proof.
  intros H. destruct (limit <? 0) eqn:E.
  - unfold getConversations, bind, query, Sql.selectConversations.
    now rewrite E.
  - apply Z.ltb_ge in E.
    destruct (stranger_sees_nothing (db w) userId projectId H) as (_ & _ & _ & Hc).
    unfold getConversations, bind, query. now rewrite (Hc limit E).
Qed.

(** C3. When a project belongs to A and B is another user, B's
    [getProject], [getProjectFiles], [getProjectFile] and [getConversations]
    on its id return nothing: absent, or the empty list. That is what they
    return in any world in which no project has this id, so the outcome does
    not tell "not yours" from "does not exist"; the handlers that show a
    project, a file or the conversations answer B alike in both. Project ids
    are taken to be a key of the table. *)
Theorem ownership_isolation :
  forall (w : World) (A B projectId : jsstring),
    uniqueIds (db w) -> owns (db w) A projectId -> A <> B ->
    fst (getProject projectId B w) = inr None
    /\ fst (getProjectFiles projectId B w) = inr []
    /\ (forall path, fst (getProjectFile projectId path B w) = inr None)
    /\ (forall limit, 0 <= limit ->
          fst (getConversations projectId B limit w) = inr [])
    /\ (forall v : World,
          (forall u, ~ owns (db v) u projectId) ->
          fst (getProject projectId B w) = fst (getProject projectId B v)
          /\ fst (getProjectFiles projectId B w)
             = fst (getProjectFiles projectId B v)
          /\ (forall path,
                fst (getProjectFile projectId path B w)
                = fst (getProjectFile projectId path B v))
          /\ (forall limit,
                fst (getConversations projectId B limit w)
                = fst (getConversations projectId B limit v))
          /\ (forall req path,
                getUserId req = B ->
                fst (showProject projectId req w) = fst (showProject projectId req v)
                /\ fst (showFileHandler projectId path req w)
                   = fst (showFileHandler projectId path req v)
                /\ fst (conversationsHandler projectId req w)
                   = fst (conversationsHandler projectId req v))).
Proof.
  intros w A B projectId Hu HA Hne.
  assert (HB : ~ owns (db w) B projectId).
  { intros HB. apply Hne. exact (owns_unique _ _ _ _ Hu HA HB). }
  destruct (stranger_sees_nothing (db w) B projectId HB) as (Hp & Hfs & Hf & Hc).
  assert (G1 : fst (getProject projectId B w) = inr None).
  { rewrite getProject_run. simpl. now rewrite Hp. }
  assert (G2 : fst (getProjectFiles projectId B w) = inr []).
  { unfold getProjectFiles, bind, query, reading. simpl. now rewrite Hfs. }
  assert (G3 : forall path, fst (getProjectFile projectId path B w) = inr None).
  { intros path. unfold getProjectFile, bind, query, reading. simpl.
    now rewrite Hf. }
  split; [exact G1|]. split; [exact G2|]. split; [exact G3|]. split.
  { intros limit Hl. rewrite getConversations_none by assumption.
    now replace (limit <? 0) with false by (symmetry; apply Z.ltb_ge; lia). }
  intros v Hv.
  destruct (stranger_sees_nothing (db v) B projectId (Hv B)) as (Hp' & Hfs' & Hf' & _).
  assert (G1' : fst (getProject projectId B v) = inr None).
  { rewrite getProject_run. simpl. now rewrite Hp'. }
  split; [congruence|]. split.
  { rewrite G2. unfold getProjectFiles, bind, query, reading. simpl.
    now rewrite Hfs'. }
  split.
  { intros path. rewrite G3. unfold getProjectFile, bind, query, reading. simpl.
    now rewrite Hf'. }
  split.
  { intros limit. rewrite !getConversations_none by auto. reflexivity. }
  intros req path <-. repeat split.
  - unfold showProject, tryCatch, bind.
    destruct (uuidRegexTest projectId); [|reflexivity]. cbn [negb].
    rewrite !getProject_run, Hp, Hp'. reflexivity.
  - unfold showFileHandler, tryCatch, bind, getProjectFile, query, reading.
    simpl. now rewrite Hf, Hf'.
  - unfold conversationsHandler, tryCatch, bind.
    destruct (uuidRegexTest projectId); [|reflexivity]. cbn [negb].
    rewrite !getProject_run, Hp, Hp'. reflexivity.
Qed.

Lemma ownership_isolation_witness :
  fst (getProject (js "p1") (js "bob") annsWorld) = inr None
  /\ fst (getProjectFiles (js "p1") (js "bob") annsWorld) = inr []
  /\ fst (getProject (js "p1") (js "bob") annsWorld)
     = fst (getProject (js "p1") (js "bob") emptyWorld).
Proof.
  destruct (ownership_isolation annsWorld (js "ann") (js "bob") (js "p1"))
    as (H1 & H2 & _ & _ & H5).
  - unfold uniqueIds. simpl. constructor; [intros []|constructor].
  - exists annsProject. repeat split. now left.
  - discriminate.
  - destruct (H5 emptyWorld) as (H6 & _).
    + intros u (p & [] & _).
    + auto.
Defined.

(** ** Soft delete *)

Lemma filter_map_commute {A} (P : A -> bool) (g : A -> A) l :
  (forall x, P (g x) = P x) ->
  List.filter P (List.map g l) = List.map g (List.filter P l).
Proof.
  intros H. induction l as [|x rest IH]; simpl; [reflexivity|].
  rewrite H. destruct (P x); simpl; now rewrite IH.
Qed.

Lemma joined_same {A} (x : A) (P : Project.t -> bool) (g : Project.t -> Project.t) l :
  (forall p, P (g p) = P p) ->
  List.map (fun _ => x) (List.filter P (List.map g l))
  = List.map (fun _ => x) (List.filter P l).
Proof. intros H. now rewrite filter_map_commute, map_map. Qed.

Lemma flat_map_ext_in {A B} (f g : A -> list B) l :
  (forall x, In x l -> f x = g x) -> flat_map f l = flat_map g l.
Proof.
  induction l as [|x rest IH]; simpl; intros H; [reflexivity|].
  rewrite (H x) by now left. f_equal. apply IH. intros y Hy. apply H. now right.
Qed.

(** The three reads of files and conversations look at [id] and [user_id]
    of the projects only. *)
Lemma reads_sameOwners d d' projectId userId :
  sameOwners d d' ->
  Sql.selectProjectFiles projectId userId d' = Sql.selectProjectFiles projectId userId d
  /\ (forall path,
        Sql.selectProjectFile projectId path userId d'
        = Sql.selectProjectFile projectId path userId d)
  /\ (forall limit,
        Sql.selectConversations projectId userId limit d'
        = Sql.selectConversations projectId userId limit d).
Proof.
  intros (Hf & Hc & g & Hp & Hg).
  assert (Ho : forall f,
             List.map (fun _ => f) (Sql.owners userId f d')
             = List.map (fun _ => f) (Sql.owners userId f d)).
  { intros f. unfold Sql.owners. rewrite Hp. apply joined_same.
    intros p. destruct (Hg p) as [-> ->]. reflexivity. }
  repeat split.
  - unfold Sql.selectProjectFiles. rewrite Hf. f_equal.
    apply flat_map_ext_in. intros f _. now rewrite Ho.
  - intros path. unfold Sql.selectProjectFile. rewrite Hf.
    apply flat_map_ext_in. intros f _. now rewrite Ho.
  - intros limit. unfold Sql.selectConversations. rewrite Hc, Hp.
    destruct (limit <? 0); [reflexivity|]. do 3 f_equal.
    apply flat_map_ext_in. intros c _. apply joined_same.
    intros p. destruct (Hg p) as [-> ->]. reflexivity.
Qed.

Lemma sameOwners_owns d d' userId projectId :
  sameOwners d d' -> (owns d' userId projectId <-> owns d userId projectId).
Proof.
  intros (_ & _ & g & Hp & Hg). unfold owns. rewrite Hp. split.
  - intros (p & Hin & <- & <-). apply in_map_iff in Hin as (q & <- & Hq).
    exists q. destruct (Hg q) as [-> ->]. auto.
  - intros (p & Hin & <- & <-). exists (g p). destruct (Hg p) as [-> ->].
    split; [now apply in_map|auto].
Qed.

Lemma sameOwners_uniqueIds d d' : sameOwners d d' -> uniqueIds d -> uniqueIds d'.
Proof.
  intros (_ & _ & g & Hp & Hg). unfold uniqueIds. rewrite Hp, map_map.
  now rewrite (map_ext (fun p => Project.id (g p)) Project.id)
    by (intros p; apply Hg).
Qed.

Lemma softDelete_sameOwners projectId userId d :
  sameOwners d (snd (Sql.softDeleteProject projectId userId d)).
Proof.
  unfold sameOwners, Sql.softDeleteProject; simpl.
  split; [reflexivity|]. split; [reflexivity|].
  eexists. split; [reflexivity|].
  intros p. simpl. destruct (_ && _); split; reflexivity.
Qed.

Lemma touchProject_sameOwners projectId d :
  sameOwners d (Sql.touchProject projectId d).
Proof.
  unfold sameOwners, Sql.touchProject; simpl.
  split; [reflexivity|]. split; [reflexivity|].
  eexists. split; [reflexivity|].
  intros p. simpl. destruct (_ =?s _); split; reflexivity.
Qed.

Lemma rows0_In {A} (l : list A) x :
  In x l -> exists first, rows0 l = Some first /\ In first l.
Proof. destruct l as [|y rest]; [easy|]. intros _. exists y. split; [reflexivity|now left]. Qed.

Lemma rows0_Some {A} (l : list A) x : rows0 l = Some x -> In x l.
Proof. destruct l; [discriminate|]. intros [= ->]. now left. Qed.

Lemma owners_some userId f d :
  owns d userId (ProjectFile.project_id f) -> Sql.owners userId f d <> [].
Proof.
  intros (p & Hp & Hid & Hu) E.
  assert (H : In p (Sql.owners userId f d)) by (apply owners_In; auto).
  now rewrite E in H.
Qed.

Lemma selectProjectFiles_In projectId userId d f :
  In f (Sql.selectProjectFiles projectId userId d)
  <-> In f (project_files d)
      /\ ProjectFile.project_id f = projectId /\ owns d userId projectId.
Proof.
  unfold Sql.selectProjectFiles. rewrite orderBy_In, in_flat_map. split.
  - intros (x & Hx & Hin). destruct (_ =?s _) eqn:E; [|easy].
    apply eqb_eq in E. apply in_map_iff in Hin as (p & <- & Hp).
    apply owners_In in Hp as (Hp & Hid & Hu).
    split; [assumption|]. split; [assumption|].
    exists p. rewrite <- E. auto.
  - intros (Hin & <- & Ho). exists f. split; [assumption|].
    rewrite eqb_refl. pose proof (owners_some userId f d Ho) as Hn.
    destruct (Sql.owners userId f d); [contradiction|now left].
Qed.

Lemma selectProjectFile_In projectId path userId d f :
  In f (Sql.selectProjectFile projectId path userId d)
  <-> In f (project_files d)
      /\ keyed projectId path f /\ owns d userId projectId.
Proof.
  unfold Sql.selectProjectFile. rewrite in_flat_map. split.
  - intros (x & Hx & Hin). destruct (_ && _) eqn:E; [|easy].
    apply hit_keyed in E. apply in_map_iff in Hin as (p & <- & Hp).
    apply owners_In in Hp as (Hp & Hid & Hu).
    split; [assumption|]. split; [assumption|].
    exists p. destruct E as [<- _]. auto.
  - intros (Hin & Hk & Ho). exists f. split; [assumption|].
    pose proof Hk as Hk'. apply hit_keyed in Hk'. rewrite Hk'.
    destruct Hk as [<- _]. pose proof (owners_some userId f d Ho) as Hn.
    destruct (Sql.owners userId f d); [contradiction|now left].
Qed.

Lemma joinedConversations_In projectId userId d c :
  In c (joinedConversations projectId userId d)
  <-> In c (conversations d)
      /\ Conversation.project_id c = projectId /\ owns d userId projectId.
Proof.
  unfold joinedConversations. rewrite in_flat_map. split.
  - intros (x & Hx & Hin). apply in_map_iff in Hin as (p & <- & Hp).
    apply filter_In in Hp as (Hp & E).
    rewrite !andb_true_iff, !eqb_eq in E. destruct E as [[E1 E2] E3].
    split; [assumption|]. split; [assumption|]. exists p.
    split; [assumption|]. split; congruence.
  - intros (Hin & Hc & p & Hp & Hid & Hu). exists c. split; [assumption|].
    apply in_map_iff. exists p. split; [reflexivity|]. apply filter_In.
    split; [assumption|]. rewrite !andb_true_iff, !eqb_eq. split; [split|]; congruence.
Qed.

Lemma matches_at_most_one (P : Project.t -> bool) x l :
  List.NoDup (List.map Project.id l) ->
  (forall p, P p = true -> Project.id p = x) ->
  (List.length (List.filter P l) <= 1)%nat.
Proof.
  intros Hnd HP. induction l as [|p rest IH]; simpl; [lia|].
  inversion Hnd as [|? ? Hp Hrest]; subst.
  destruct (P p) eqn:E; [|now apply IH].
  rewrite filter_none; [simpl; lia|].
  intros q Hq. destruct (P q) eqn:Eq; [|reflexivity].
  exfalso. apply Hp. rewrite (HP p E), <- (HP q Eq). now apply in_map.
Qed.

Lemma joinedConversations_length projectId userId d :
  uniqueIds d ->
  (List.length (joinedConversations projectId userId d)
   <= List.length (conversations d))%nat.
Proof.
  intros Hu. unfold joinedConversations.
  induction (conversations d) as [|c rest IH]; simpl; [lia|].
  rewrite length_app, length_map.
  pose proof (matches_at_most_one
                (fun p => (Conversation.project_id c =?s Project.id p)
                          && (Conversation.project_id c =?s projectId)
                          && (Project.user_id p =?s userId))
                (Conversation.project_id c) (projects d) Hu) as H.
  assert (forall p,
             (Conversation.project_id c =?s Project.id p)
             && (Conversation.project_id c =?s projectId)
             && (Project.user_id p =?s userId) = true ->
             Project.id p = Conversation.project_id c) as H'.
  { intros p E. rewrite !andb_true_iff, !eqb_eq in E. now destruct E as [[-> _] _]. }
  specialize (H H'). lia.
Qed.

(** With a limit that covers the table, the owner gets every conversation of
    the project. *)
Lemma getConversations_all projectId userId limit w c :
  uniqueIds (db w) ->
  Z.of_nat (List.length (conversations (db w))) <= limit ->
  In c (conversations (db w)) ->
  Conversation.project_id c = projectId ->
  owns (db w) userId projectId ->
  exists rows,
    fst (getConversations projectId userId limit w) = inr rows /\ In c rows.
Proof.
  intros Hu Hlimit Hin Hc Ho.
  unfold getConversations, bind, query, Sql.selectConversations.
  replace (limit <? 0) with false by (symmetry; apply Z.ltb_ge; lia).
  eexists. split; [reflexivity|]. rewrite <- in_rev.
  fold (joinedConversations projectId userId (db w)).
  rewrite firstn_all2.
  - apply orderBy_In. apply joinedConversations_In. auto.
  - assert (Hl : forall {A} (le : A -> A -> bool) l,
               List.length (orderBy le l) = List.length l).
    { intros A le l. induction l as [|x rest IH]; simpl; [reflexivity|].
      rewrite <- IH. generalize (orderBy le rest). intros l'.
      induction l' as [|y l' IH']; simpl; [reflexivity|].
      destruct (le x y); simpl; [reflexivity|]. now rewrite IH'. }
    rewrite Hl.
    pose proof (joinedConversations_length projectId userId (db w) Hu). lia.
Qed.

Lemma deleted_not_active : (js "deleted" =?s js "active") = false.
Proof. reflexivity. Qed.

(** What the soft delete does to the tables. *)
Lemma softDeleteProject_spec projectId userId d rows d' :
  Sql.softDeleteProject projectId userId d = (rows, d') ->
  sameOwners d d'
  /\ List.map Project.id (projects d') = List.map Project.id (projects d)
  /\ (forall row, In row rows ->
        In row (projects d')
        /\ Project.id row = projectId /\ Project.user_id row = userId)
  /\ (forall p, In p (projects d') ->
        Project.id p = projectId -> Project.user_id p = userId ->
        Project.status p = js "deleted").
Proof.
  intros E. pose proof (softDelete_sameOwners projectId userId d) as Hsame.
  rewrite E in Hsame. simpl in Hsame.
  unfold Sql.softDeleteProject in E. injection E as <- <-.
  cbn [projects Sql.setProjects].
  split; [exact Hsame|]. split; [|split].
  - rewrite map_map. apply map_ext. intros p.
    destruct ((Project.id p =?s projectId) && (Project.user_id p =?s userId));
      reflexivity.
  - intros row Hrow. apply in_map_iff in Hrow as (p0 & <- & Hp0).
    apply filter_In in Hp0 as (Hp0 & Hhit).
    split.
    + apply in_map_iff. exists p0. now rewrite Hhit.
    + rewrite andb_true_iff, !eqb_eq in Hhit. exact Hhit.
  - intros p Hp Hid Hu. apply in_map_iff in Hp as (q & <- & Hq).
    destruct ((Project.id q =?s projectId) && (Project.user_id q =?s userId))
      eqn:E; [reflexivity|].
    rewrite andb_false_iff, !eqb_neq in E. tauto.
Qed.

Lemma deleteProject_run projectId userId w :
  deleteProject projectId userId w
  = (inr (rows0 (fst (Sql.softDeleteProject projectId userId (db w)))),
     {| db := snd (Sql.softDeleteProject projectId userId (db w));
        issued := issued w
                  ++ [(SoftDeleteProject, [JString projectId; JString userId])];
        providerCalls := providerCalls w |}).
Proof. reflexivity. Qed.

(** C6. After [deleteProject] has returned the project, the row is still in
    the table, with the same id and owner and with status [deleted]: no row
    of any table went away. [getProjects] of the owner no longer lists the
    project and [getProject] returns nothing for it. [getProjectFiles],
    [getProjectFile] and [getConversations] answer the owner as before the
    deletion; every file of the project is still listed and found by its
    path, and every conversation is still returned when the limit covers
    the table. Project ids are taken to be a key of the table. *)
Theorem soft_delete_keeps_children :
  forall (w w' : World) (projectId userId : jsstring) (row : Project.t),
    uniqueIds (db w) ->
    deleteProject projectId userId w = (inr (Some row), w') ->
    (In row (projects (db w'))
     /\ Project.id row = projectId
     /\ Project.user_id row = userId
     /\ Project.status row = js "deleted"
     /\ List.map Project.id (projects (db w')) = List.map Project.id (projects (db w))
     /\ project_files (db w') = project_files (db w)
     /\ conversations (db w') = conversations (db w))
    /\ (exists listed,
          fst (getProjects userId w') = inr listed
          /\ forall s, In s listed ->
               Project.id (ProjectSummary.project s) <> projectId)
    /\ fst (getProject projectId userId w') = inr None
    /\ fst (getProjectFiles projectId userId w')
       = fst (getProjectFiles projectId userId w)
    /\ (forall path,
          fst (getProjectFile projectId path userId w')
          = fst (getProjectFile projectId path userId w))
    /\ (forall limit,
          fst (getConversations projectId userId limit w')
          = fst (getConversations projectId userId limit w))
    /\ (forall f,
          In f (project_files (db w)) -> ProjectFile.project_id f = projectId ->
          (exists files,
             fst (getProjectFiles projectId userId w') = inr files /\ In f files)
          /\ (exists found,
                fst (getProjectFile projectId (ProjectFile.file_path f) userId w')
                = inr (Some found)
                /\ keyed projectId (ProjectFile.file_path f) found))
    /\ (forall c limit,
          In c (conversations (db w)) -> Conversation.project_id c = projectId ->
          Z.of_nat (List.length (conversations (db w))) <= limit ->
          exists rows,
            fst (getConversations projectId userId limit w') = inr rows
            /\ In c rows).
Proof.
  intros w w' projectId userId row Hu Hrun.
  rewrite deleteProject_run in Hrun.
  destruct (Sql.softDeleteProject projectId userId (db w)) as [rows d'] eqn:E.
  apply softDeleteProject_spec in E as (Hsame & Hids & Hrows & Hdel).
  cbn [fst snd] in Hrun. injection Hrun as Hrow <-.
  apply rows0_Some, Hrows in Hrow as (Hin & Hid0 & Hu0).
  assert (Hown : owns d' userId projectId) by (exists row; auto).
  pose proof (sameOwners_uniqueIds _ _ Hsame Hu) as Hu'.
  destruct (reads_sameOwners (db w) d' projectId userId Hsame) as (Rfs & Rf & Rc).
  destruct Hsame as (Hfiles & Hconvs & _).
  cbn [db].
  split; [|split; [|split; [|split; [|split; [|split; [|split]]]]]].
  - split; [exact Hin|]. split; [exact Hid0|]. split; [exact Hu0|].
    split; [now apply Hdel|]. split; [exact Hids|split; assumption].
  - eexists. split; [reflexivity|]. intros s Hs Hsid. cbn [db] in Hs.
    unfold Sql.selectProjects in Hs. apply in_map_iff in Hs as (p & <- & Hp).
    apply orderBy_In, filter_In in Hp as (Hp & Hact).
    cbn [Sql.summary ProjectSummary.project] in Hsid.
    rewrite andb_true_iff, !eqb_eq in Hact. destruct Hact as [Hpu Hact].
    rewrite (Hdel p Hp Hsid Hpu) in Hact. discriminate Hact.
  - assert (Hsel : Sql.selectProject projectId userId d' = []).
    { apply filter_none. intros p Hp.
      destruct (_ && _) eqn:Ep; [|reflexivity].
      rewrite !andb_true_iff, !eqb_eq in Ep. destruct Ep as [[Hpi Hpu] Hact].
      rewrite (Hdel p Hp Hpi Hpu) in Hact. discriminate Hact. }
    rewrite getProject_run. cbn [fst db]. now rewrite Hsel.
  - unfold getProjectFiles, bind, query, reading; cbn [fst db]. now rewrite Rfs.
  - intros path. unfold getProjectFile, bind, query, reading; cbn [fst db].
    now rewrite Rf.
  - intros limit. unfold getConversations, bind, query; cbn [fst db].
    rewrite Rc.
    destruct (Sql.selectConversations projectId userId limit (db w));
      reflexivity.
  - intros f Hf Hfid. split.
    + eexists. split; [reflexivity|]. cbn [db].
      apply selectProjectFiles_In. rewrite Hfiles. auto.
    + assert (Hsel : In f (Sql.selectProjectFile projectId
                             (ProjectFile.file_path f) userId d')).
      { apply selectProjectFile_In. rewrite Hfiles. unfold keyed. auto. }
      apply rows0_In in Hsel as (found & Hfirst & Hfound).
      exists found. split.
      * unfold getProjectFile, bind, query, reading; cbn [fst db].
        now rewrite Hfirst.
      * now apply selectProjectFile_In in Hfound.
  - intros c limit Hc Hcid Hlimit.
    apply (getConversations_all projectId userId limit
             {| db := d'; issued := issued w ++ [(SoftDeleteProject,
                                     [JString projectId; JString userId])];
                providerCalls := providerCalls w |});
      cbn [db]; rewrite ?Hconvs; auto.
Qed.

Lemma soft_delete_keeps_children_witness :
  exists row w',
    deleteProject (js "p1") (js "ann") annsWorld = (inr (Some row), w')
    /\ Project.status row = js "deleted"
    /\ fst (getProject (js "p1") (js "ann") w') = inr None
    /\ fst (getProjectFiles (js "p1") (js "ann") w')
       = fst (getProjectFiles (js "p1") (js "ann") annsWorld).
Proof.
  eexists. eexists. split; [reflexivity|].
  match goal with
  | |- context [Project.status ?row = _ /\ fst (getProject _ _ ?w') = _ /\ _] =>
      destruct (soft_delete_keeps_children annsWorld w' (js "p1") (js "ann") row)
        as ((_ & _ & _ & Hstatus & _) & _ & Hgone & Hfiles & _)
  end.
  - unfold uniqueIds. simpl. constructor; [intros []|constructor].
  - reflexivity.
  - auto.
Defined.

(** ** Every path to the rows of a project goes through its owner *)

Lemma guarded_refl userId d : uniqueIds d -> guarded userId d d.
Proof. intros H. split; auto. Qed.

Lemma guarded_trans userId d1 d2 d3 :
  guarded userId d1 d2 -> guarded userId d2 d3 -> guarded userId d1 d3.
Proof.
  intros [U1 O1 N1 D1 C1 K1] [U2 O2 N2 D2 C2 K2]. split; auto.
  - intros f Hf. destruct (N2 f Hf) as [H|H]; [|auto].
    destruct (N1 f H) as [H'|H']; auto.
  - intros f Hf. destruct (D1 f Hf) as [H|H]; auto.
  - intros c Hc. destruct (C2 c Hc) as [H|H]; [|auto].
    destruct (C1 c H) as [H'|[H' E]]; auto.
Qed.

Lemma guarded_sameOwners userId d d' :
  uniqueIds d -> sameOwners d d' -> guarded userId d d'.
Proof.
  intros Hu Hs. pose proof (sameOwners_uniqueIds _ _ Hs Hu) as Hu'.
  pose proof (fun u p => proj2 (sameOwners_owns d d' u p Hs)) as Ho.
  destruct Hs as (Hf & Hc & _). split; auto.
  - intros f. rewrite Hf. auto.
  - intros f. rewrite Hf. auto.
  - intros c. rewrite Hc. auto.
  - intros c. now rewrite Hc.
Qed.

(** *** The methods of the persistence layer, one by one *)

Lemma getProject_cases projectId userId w :
  exists r w',
    getProject projectId userId w = (inr r, w')
    /\ db w' = db w
    /\ forall p, r = Some p -> owns (db w) userId projectId.
Proof.
  rewrite getProject_run. do 2 eexists. split; [reflexivity|].
  split; [reflexivity|]. intros p Hp. apply rows0_Some in Hp.
  apply filter_In in Hp as (Hp & E). rewrite !andb_true_iff, !eqb_eq in E.
  exists p. tauto.
Qed.

Lemma getProjects_cases userId w :
  exists r w', getProjects userId w = (inr r, w') /\ db w' = db w.
Proof. do 2 eexists. split; reflexivity. Qed.

Lemma getProjectFiles_cases projectId userId w :
  exists r w',
    getProjectFiles projectId userId w = (inr r, w')
    /\ db w' = db w
    /\ forall f, In f r ->
         ProjectFile.project_id f = projectId /\ owns (db w) userId projectId.
Proof.
  do 2 eexists. split; [reflexivity|]. split; [reflexivity|].
  intros f Hf. apply selectProjectFiles_In in Hf. tauto.
Qed.

Lemma getProjectFile_cases projectId path userId w :
  exists r w',
    getProjectFile projectId path userId w = (inr r, w')
    /\ db w' = db w
    /\ forall f, r = Some f ->
         ProjectFile.project_id f = projectId /\ owns (db w) userId projectId.
Proof.
  do 2 eexists. split; [reflexivity|]. split; [reflexivity|].
  intros f Hf. apply rows0_Some, selectProjectFile_In in Hf.
  unfold keyed in Hf. tauto.
Qed.

Lemma firstn_incl {A} n (l : list A) x : In x (firstn n l) -> In x l.
Proof.
  intros H. rewrite <- (firstn_skipn n l). apply in_or_app. now left.
Qed.

Lemma getConversations_cases projectId userId limit w :
  exists r w',
    getConversations projectId userId limit w = (r, w')
    /\ db w' = db w
    /\ forall rows c, r = inr rows -> In c rows ->
         Conversation.project_id c = projectId /\ owns (db w) userId projectId.
Proof.
  unfold getConversations, bind, query, Sql.selectConversations.
  destruct (limit <? 0).
  - do 2 eexists. split; [reflexivity|]. split; [reflexivity|]. discriminate.
  - do 2 eexists. split; [reflexivity|]. split; [reflexivity|].
    intros rows c [= <-] Hc. apply in_rev in Hc.
    apply firstn_incl, orderBy_In in Hc.
    fold (joinedConversations projectId userId (db w)) in Hc.
    apply joinedConversations_In in Hc. tauto.
Qed.

Lemma owns_same_projects d d' userId projectId :
  projects d' = projects d -> owns d' userId projectId <-> owns d userId projectId.
Proof. unfold owns. now intros ->. Qed.

Lemma deleteProject_cases projectId userId caller w :
  uniqueIds (db w) ->
  exists r w',
    deleteProject projectId userId w = (inr r, w')
    /\ guarded caller (db w) (db w').
Proof.
  intros Hu. rewrite deleteProject_run. do 2 eexists. split; [reflexivity|].
  apply guarded_sameOwners; [assumption|]. apply softDelete_sameOwners.
Qed.

Lemma upsert_guarded projectId path name text fileType size userId d row rows d' :
  uniqueIds d -> owns d userId projectId ->
  Sql.upsertProjectFile projectId (Some path) (Some name) text fileType size d
  = inr (row :: rows, d') ->
  guarded userId d d' /\ ProjectFile.project_id row = projectId.
Proof.
  intros Hu Ho E.
  destruct (upsertProjectFile_spec projectId path name text fileType size d)
    as (row0 & rows0 & d0 & E0 & Hp & Hc & _ & ((Hk & _) & _) & Hnew & Hold).
  rewrite E0 in E. injection E as <- <- <-.
  split; [|exact Hk]. split.
  - unfold uniqueIds. now rewrite Hp.
  - intros u p. now rewrite (owns_same_projects d d0 u p Hp).
  - intros f Hf. destruct (Hnew f Hf) as [([Hk' _] & _)|[_ H]]; [right|now left].
    rewrite Hk'. now apply (owns_same_projects d d0).
  - intros f Hf.
    destruct ((ProjectFile.project_id f =?s projectId)
              && (ProjectFile.file_path f =?s path)) eqn:Ehit.
    + apply hit_keyed in Ehit as [Hk' _]. right. rewrite Hk'.
      now apply (owns_same_projects d d0).
    + left. apply Hold; [assumption|]. rewrite <- hit_keyed. now rewrite Ehit.
  - intros c. rewrite Hc. auto.
  - intros c. now rewrite Hc.
Qed.

Lemma saveProjectFile_cases projectId filePath fileName content fileType userId w :
  uniqueIds (db w) -> owns (db w) userId projectId ->
  exists r w',
    saveProjectFile projectId filePath fileName content fileType w = (r, w')
    /\ guarded userId (db w) (db w')
    /\ forall row, r = inr (Some row) -> ProjectFile.project_id row = projectId.
Proof.
  intros Hu Ho. unfold saveProjectFile.
  destruct content as [| | | |text|];
    try (do 2 eexists; split; [reflexivity|];
         split; [now apply guarded_refl|discriminate]).
  unfold bind, query, writing.
  destruct (prepareValue filePath) as [path|], (prepareValue fileName) as [name|];
    try (do 2 eexists; split; [reflexivity|];
         split; [now apply guarded_refl|discriminate]).
  destruct (upsertProjectFile_spec projectId path name text
              (prepareValue (orText fileType)) (JsString.byteLength text) (db w))
    as (row & rows & d' & E & _).
  rewrite E. do 2 eexists. split; [reflexivity|]. cbn [db].
  apply (upsert_guarded _ _ _ _ _ _ userId) in E as [Hg Hrow]; try assumption.
  split.
  - eapply guarded_trans; [exact Hg|].
    apply guarded_sameOwners; [apply Hg|apply touchProject_sameOwners].
  - intros row' [= <-]. exact Hrow.
Qed.

Lemma saveConversation_cases projectId userId message response aiModel tokens w :
  uniqueIds (db w) -> owns (db w) userId projectId ->
  exists r w',
    saveConversation projectId userId message response aiModel tokens w = (r, w')
    /\ guarded userId (db w) (db w').
Proof.
  intros Hu Ho. unfold saveConversation, bind, query, writing, Sql.insertConversation.
  destruct (existsb _ (conversations (db w))).
  - do 2 eexists. split; [reflexivity|]. now apply guarded_refl.
  - do 2 eexists. split; [reflexivity|]. cbn [db].
    eapply guarded_trans;
      [|apply guarded_sameOwners; [|apply touchProject_sameOwners]].
    + split; cbn [projects project_files conversations]; auto.
      intros c Hc. apply in_app_or in Hc as [Hc|[<-|[]]]; [now left|].
      right. split; [exact Ho|reflexivity].
      intros c Hc. apply in_or_app. now left.
    + exact Hu.
Qed.

Lemma createProject_cases userId name description template caller w :
  uniqueIds (db w) ->
  exists r w',
    createProject userId name description template w = (r, w')
    /\ guarded caller (db w) (db w')
    /\ forall p, r = inr (Some p) -> owns (db w') userId (Project.id p).
Proof.
  intros Hu. unfold createProject, bind, query, Sql.insertProject.
  destruct (existsb _ (projects (db w))) eqn:E.
  - do 2 eexists. split; [reflexivity|].
    split; [now apply guarded_refl|discriminate].
  - do 2 eexists. split; [reflexivity|]. cbn [db]. split.
    + split; cbn [projects project_files conversations]; auto.
      * unfold uniqueIds. cbn [projects]. rewrite map_app. simpl.
        apply List.NoDup_app; [exact Hu|repeat constructor; intros []|].
        intros x Hx [<-|[]].
        apply in_map_iff in Hx as (p & Hid & Hp).
        assert (existsb (fun p => Project.id p =?s uuid (db w) (serial (db w)))
                  (projects (db w)) = true) as E'.
        { apply existsb_exists. exists p. split; [assumption|]. now apply eqb_eq. }
        congruence.
      * intros u p (q & Hq & Hid & Hu'). exists q.
        split; [apply in_or_app; now left|auto].
    + intros p [= <-]. eexists. split; [apply in_or_app; right; now left|].
      split; reflexivity.
Qed.

Lemma deleteProjectFile_removed projectId filePath userId d :
  Sql.deleteProjectFile projectId filePath userId d
  = (List.filter (removed projectId filePath userId d) (project_files d),
     Sql.setFiles d
       (List.filter (fun f => negb (removed projectId filePath userId d f))
          (project_files d))).
Proof. reflexivity. Qed.

Lemma removed_owned projectId filePath userId d f :
  removed projectId filePath userId d f = true ->
  owns d userId (ProjectFile.project_id f).
Proof.
  unfold removed. destruct filePath; [|discriminate].
  rewrite !andb_true_iff, negb_true_iff. intros [_ Hn].
  destruct (Sql.owners userId f d) as [|p ps] eqn:Eo; [discriminate|].
  assert (In p (Sql.owners userId f d)) as Hp by (rewrite Eo; now left).
  apply owners_In in Hp. exists p. tauto.
Qed.

Lemma deleteProjectFile_cases projectId filePath userId w :
  uniqueIds (db w) ->
  exists r w',
    deleteProjectFile projectId filePath userId w = (inr r, w')
    /\ guarded userId (db w) (db w')
    /\ forall f, r = Some f -> owns (db w) userId (ProjectFile.project_id f).
Proof.
  intros Hu. unfold deleteProjectFile, bind, query, writing.
  rewrite deleteProjectFile_removed.
  do 2 eexists. split; [reflexivity|]. cbn [db fst snd]. split.
  - split; unfold Sql.setFiles; cbn [projects project_files conversations]; auto.
    + intros f Hf. apply filter_In in Hf. tauto.
    + intros f Hf.
      destruct (removed projectId (prepareValue filePath) userId (db w) f) eqn:E.
      * right. now apply removed_owned in E.
      * left. apply filter_In. split; [assumption|]. now rewrite E.
  - intros f Hf. apply rows0_Some, filter_In in Hf as [_ Hf].
    now apply removed_owned in Hf.
Qed.

Lemma generateCode_cases ai prompt projectContext files w :
  exists r w',
    generateCode ai prompt projectContext files w = (inr r, w')
    /\ db w' = db w.
Proof.
  unfold generateCode. destruct (anthropic ai) as [client|].
  - unfold tryCatch, bind, create. destruct (client _).
    + do 2 eexists. split; reflexivity.
    + do 2 eexists. split; reflexivity.
  - do 2 eexists. split; reflexivity.
Qed.

(** *** The handlers *)

Lemma mine_Failed userId d status error message details code :
  mine userId d
    {| statusCode := status; json := Failed error message details code |}.
Proof. split; intros ? []. Qed.

Lemma mine_fail userId d status error : mine userId d (fail status error).
Proof. apply mine_Failed. Qed.

Ltac answered :=
  do 2 eexists; split; [reflexivity|]; split;
  [try (now apply guarded_refl)|try apply mine_fail; try apply mine_Failed].

Ltac run lemma :=
  let r := fresh "r" in
  let w' := fresh "w" in
  let E := fresh "E" in
  destruct lemma as (r & w' & E & ?); rewrite E; cbv beta iota.

Lemma listProjects_serves req w :
  uniqueIds (db w) -> serves (getUserId req) (listProjects req) w.
Proof.
  intros Hu. unfold serves, listProjects, tryCatch, bind.
  run (getProjects_cases (getUserId req) w).
  answered.
  - rewrite H. now apply guarded_refl.
  - split; intros ? [].
Qed.

Lemma showProject_serves id req w :
  uniqueIds (db w) -> serves (getUserId req) (showProject id req) w.
Proof.
  intros Hu. unfold serves, showProject, tryCatch, bind.
  destruct (uuidRegexTest id); cbn [negb]; [|answered].
  run (getProject_cases id (getUserId req) w). destruct H as [Hdb Hown].
  destruct r as [project|]; [|answered; rewrite Hdb; now apply guarded_refl].
  run (getProjectFiles_cases id (getUserId req) w0). destruct H as [Hdb0 Hfiles].
  run (getConversations_cases id (getUserId req) 50 w1). destruct H as [Hdb1 Hconvs].
  assert (Hsame : db w2 = db w) by congruence.
  destruct r0 as [e|rows]; answered; rewrite ?Hsame; try (now apply guarded_refl).
  split; cbn [json filesOf conversationsOf].
  - intros f Hf. destruct (Hfiles f Hf) as [-> Ho]. congruence.
  - intros c Hc. destruct (Hconvs rows c eq_refl Hc) as [-> Ho]. congruence.
Qed.

Lemma deleteProjectHandler_serves id req w :
  uniqueIds (db w) -> serves (getUserId req) (deleteProjectHandler id req) w.
Proof.
  intros Hu. unfold serves, deleteProjectHandler, tryCatch, bind.
  destruct (uuidRegexTest id); cbn [negb]; [|answered].
  run (deleteProject_cases id (getUserId req) (getUserId req) w Hu).
  destruct r as [deleted|]; answered; try assumption.
  split; intros ? [].
Qed.

Lemma saveFileHandler_serves id req w :
  uniqueIds (db w) -> serves (getUserId req) (saveFileHandler id req) w.
Proof.
  intros Hu. unfold serves, saveFileHandler, tryCatch, bind.
  destruct (_ || _); [answered|].
  run (getProject_cases id (getUserId req) w). destruct H as [Hdb Hown].
  destruct r as [project|]; [|answered; rewrite Hdb; now apply guarded_refl].
  specialize (Hown project eq_refl). rewrite <- Hdb in Hu, Hown.
  run (saveProjectFile_cases id (prop (body req) (js "filePath"))
         (prop (body req) (js "fileName")) (prop (body req) (js "content"))
         (orText (prop (body req) (js "fileType"))) (getUserId req) w0 Hu Hown).
  destruct H as [Hg Hrow]. rewrite Hdb in Hg.
  destruct r as [e|file]; answered; try assumption.
  split; cbn [json filesOf conversationsOf]; [|intros ? []].
  destruct file as [file|]; [|intros ? []].
  intros f [<-|[]]. rewrite (Hrow file eq_refl).
  apply (guarded_owns _ _ _ Hg). now rewrite <- Hdb.
Qed.

Lemma showFileHandler_serves id path req w :
  uniqueIds (db w) -> serves (getUserId req) (showFileHandler id path req) w.
Proof.
  intros Hu. unfold serves, showFileHandler, tryCatch, bind.
  run (getProjectFile_cases id path (getUserId req) w). destruct H as [Hdb Hown].
  destruct r as [file|]; answered; rewrite ?Hdb; try (now apply guarded_refl).
  split; cbn [json filesOf conversationsOf]; [|intros ? []].
  intros f [<-|[]]. now destruct (Hown file eq_refl) as [-> Ho].
Qed.

Lemma deleteFileHandler_serves id req w :
  uniqueIds (db w) -> serves (getUserId req) (deleteFileHandler id req) w.
Proof.
  intros Hu. unfold serves, deleteFileHandler, tryCatch, bind.
  destruct (truthy _); cbn [negb]; [|answered].
  run (deleteProjectFile_cases id (prop (body req) (js "filePath"))
         (getUserId req) w Hu).
  destruct H as [Hg Hown].
  destruct r as [file|]; answered; try assumption.
  split; cbn [json filesOf conversationsOf]; [|intros ? []].
  intros f [<-|[]]. apply (guarded_owns _ _ _ Hg). now apply Hown.
Qed.

Lemma conversationsHandler_serves id req w :
  uniqueIds (db w) -> serves (getUserId req) (conversationsHandler id req) w.
Proof.
  intros Hu. unfold serves, conversationsHandler, tryCatch, bind.
  destruct (uuidRegexTest id); cbn [negb]; [|answered].
  run (getProject_cases id (getUserId req) w). destruct H as [Hdb Hown].
  destruct r as [project|]; [|answered; rewrite Hdb; now apply guarded_refl].
  run (getConversations_cases id (getUserId req)
         (Z.min (orFifty (parseInt (queryString req !! "limit"%string))) 100) w0).
  destruct H as [Hdb0 Hconvs].
  assert (Hsame : db w1 = db w) by congruence.
  destruct r as [e|rows]; answered; rewrite ?Hsame; try (now apply guarded_refl).
  split; cbn [json filesOf conversationsOf]; [intros ? []|].
  intros c Hc. destruct (Hconvs rows c eq_refl Hc) as [-> Ho]. congruence.
Qed.

Lemma saveTemplateFiles_cases projectId userId templateFiles :
  forall createdFiles w,
    uniqueIds (db w) -> owns (db w) userId projectId ->
    exists r w',
      saveTemplateFiles projectId templateFiles createdFiles w = (inr r, w')
      /\ guarded userId (db w) (db w')
      /\ forall f, In (Some f) r ->
           In (Some f) createdFiles \/ ProjectFile.project_id f = projectId.
Proof.
  induction templateFiles as [|file rest IH]; intros createdFiles w Hu Ho.
  - do 2 eexists. split; [reflexivity|]. split; [now apply guarded_refl|auto].
  - cbn [saveTemplateFiles]. unfold bind at 1. unfold tryCatch, bind at 1.
    run (saveProjectFile_cases projectId (JString (path file))
           (JString (name file)) (JString (content file)) (JString (type file))
           userId w Hu Ho).
    destruct H as [Hg Hrow].
    pose proof (guarded_unique _ _ _ Hg) as Hu0.
    pose proof (guarded_owns _ _ _ Hg _ _ Ho) as Ho0.
    destruct r as [e|created]; unfold ret; cbv beta iota.
    + destruct (IH createdFiles w0 Hu0 Ho0) as (r & w' & E' & Hg' & Hr).
      rewrite E'. do 2 eexists. split; [reflexivity|].
      split; [eapply guarded_trans; eassumption|exact Hr].
    + destruct (IH (createdFiles ++ [created]) w0 Hu0 Ho0)
        as (r & w' & E' & Hg' & Hr).
      rewrite E'. do 2 eexists. split; [reflexivity|].
      split; [eapply guarded_trans; eassumption|].
      intros f Hf. destruct (Hr f Hf) as [H|H]; [|now right].
      apply in_app_or in H as [H|[H|[]]]; [now left|right].
      now apply Hrow; rewrite H.
Qed.

Lemma createProjectHandler_serves templates req w :
  uniqueIds (db w) ->
  serves (getUserId req) (createProjectHandler templates req) w.
Proof.
  intros Hu. unfold serves, createProjectHandler, tryCatch, bind.
  destruct (negb _); [answered|].
  destruct (prop (body req) (js "name")) as [| | | |name|];
    destruct (trimmedOrEmpty _) as [e|description]; try answered.
  run (createProject_cases (getUserId req) (JsString.trim name) description
         (prop (body req) (js "template")) (getUserId req) w Hu).
  destruct H as [Hg Hown].
  destruct r as [e|[project|]]; try (answered; assumption).
  specialize (Hown project eq_refl).
  assert (Hplain : mine (getUserId req) (db w0)
                     {| statusCode := 201; json := ProjectData None project None |})
    by (split; intros ? []).
  destruct (prop (body req) (js "template")) as [| | | |template|];
    try (answered; assumption).
  destruct (truthy _); [|answered; assumption].
  destruct (saveTemplateFiles_cases (Project.id project) (getUserId req)
              (templates template) [] w0 (guarded_unique _ _ _ Hg) Hown)
    as (r & w' & E' & Hg' & Hr).
  rewrite E'. answered.
  - eapply guarded_trans; eassumption.
  - split; cbn [json filesOf conversationsOf]; [|intros ? []].
    intros f Hf. apply in_flat_map in Hf as ([g|] & Hin & Hg0); [|destruct Hg0].
    destruct Hg0 as [<-|[]]. destruct (Hr g Hin) as [[] | ->].
    now apply (guarded_owns _ _ _ Hg').
Qed.

Lemma loadContext_cases projectId userId w :
  exists r w',
    loadContext projectId userId w = (inr r, w')
    /\ db w' = db w
    /\ forall projectContext files,
         r = inr (projectContext, files) ->
         (forall f, In f files ->
            owns (db w) userId (ProjectFile.project_id f))
         /\ (forall id, projectId = JString id -> truthy (JString id) = true ->
               owns (db w) userId id).
Proof.
  unfold loadContext.
  destruct projectId as [| | | |id|];
    try (do 2 eexists; split; [reflexivity|]; split; [reflexivity|];
         intros ? ? [= <- <-]; split; [intros ? []|discriminate]).
  destruct (truthy (JString id)) eqn:Et;
    [|do 2 eexists; split; [reflexivity|]; split; [reflexivity|];
      intros ? ? [= <- <-]; split; [intros ? []|intros ? [= <-]; congruence]].
  destruct (uuidRegexTest id); cbn [negb];
    [|do 2 eexists; split; [reflexivity|]; split; [reflexivity|]; discriminate].
  unfold bind.
  run (getProject_cases id userId w). destruct H as [Hdb Hown].
  destruct r as [project|];
    [|do 2 eexists; split; [reflexivity|]; split; [assumption|]; discriminate].
  run (getProjectFiles_cases id userId w0). destruct H as [Hdb0 Hfiles].
  do 2 eexists. split; [reflexivity|]. split; [congruence|].
  intros ? ? [= <- <-]. split.
  - intros f Hf. destruct (Hfiles f Hf) as [-> Ho]. congruence.
  - intros ? [= <-] _. eauto.
Qed.

Lemma chatMessageHandler_serves ai req w :
  uniqueIds (db w) -> serves (getUserId req) (chatMessageHandler ai req) w.
Proof.
  intros Hu. unfold serves, chatMessageHandler, tryCatch, bind.
  destruct (negb _); [answered|].
  destruct (prop (body req) (js "message")) as [| | | |message|]; try answered.
  run (loadContext_cases (prop (body req) (js "projectId")) (getUserId req) w).
  destruct H as [Hdb Hctx].
  destruct r as [response|[projectContext files]].
  { do 2 eexists. split; [reflexivity|]. rewrite Hdb.
    split; [now apply guarded_refl|].
    revert E. unfold loadContext.
    destruct (prop (body req) (js "projectId")); try discriminate.
    destruct (truthy _); [|discriminate].
    destruct (uuidRegexTest _); cbn [negb];
      [|intros [= <- _]; apply mine_fail].
    unfold bind. rewrite getProject_run.
    destruct (rows0 _); [discriminate|]. intros [= <- _]. apply mine_fail. }
  destruct (Hctx projectContext files eq_refl) as [_ Hown].
  destruct (isConfigured ai); cbn [negb];
    [|answered; rewrite Hdb; now apply guarded_refl].
  run (generateCode_cases ai (JsString.trim message) projectContext files w0).
  assert (Hsame : db w1 = db w) by congruence.
  assert (Hu1 : uniqueIds (db w1)) by now rewrite Hsame.
  destruct r as [code usage model0| | | |error code];
    try (answered; rewrite Hsame; now apply guarded_refl).
  assert (Hchat : forall response conversationId d,
             mine (getUserId req) d
               {| statusCode := 200;
                  json := ChatData code usage model0 response conversationId |})
    by (intros; split; intros ? []).
  destruct (prop (body req) (js "projectId")) as [| | | |id|];
    try (answered; [rewrite Hsame; now apply guarded_refl|apply Hchat]).
  destruct (truthy (JString id)) eqn:Et;
    [|answered; [rewrite Hsame; now apply guarded_refl|apply Hchat]].
  specialize (Hown id eq_refl Et). rewrite <- Hsame in Hown.
  destruct (saveConversation_cases id (getUserId req) (JsString.trim message)
              code (orElse (Some model0) "claude-3-5-sonnet") (total_tokens usage)
              w1 Hu1 Hown)
    as (saved & w2 & E2 & Hg).
  rewrite E2; cbv beta iota. rewrite Hsame in Hg.
  destruct saved as [e|conversation]; answered; try assumption; apply Hchat.
Qed.

(** C7. Every handler that reads or writes rows of [project_files] or
    [conversations] does so within the projects of the caller, the identity
    [getUserId] resolves: whatever the request, the handler answers; a file
    or conversation row that it created, overwrote or removed belongs to a
    project the caller owns (ownership itself is never changed), a new
    conversation carries the caller's id, and every file or conversation row
    in the response, or handed to the AI provider as context, belongs to a
    project the caller owns. The reads join [projects] on [user_id]; the
    writes come after [getProject] has returned the project for the caller,
    or after the caller has created it. Project ids are taken to be a key of
    the table. *)
Theorem ownership_rederived_on_every_path :
  forall (req : Request) (w : World),
    uniqueIds (db w) ->
    let caller := getUserId req in
    serves caller (listProjects req) w
    /\ (forall id, serves caller (showProject id req) w)
    /\ (forall templates, serves caller (createProjectHandler templates req) w)
    /\ (forall id, serves caller (deleteProjectHandler id req) w)
    /\ (forall id, serves caller (saveFileHandler id req) w)
    /\ (forall id filePath, serves caller (showFileHandler id filePath req) w)
    /\ (forall id, serves caller (deleteFileHandler id req) w)
    /\ (forall ai, serves caller (chatMessageHandler ai req) w)
    /\ (forall id, serves caller (conversationsHandler id req) w)
    /\ (forall projectId projectContext files w',
          loadContext projectId caller w = (inr (inr (projectContext, files)), w') ->
          forall f, In f files -> owns (db w) caller (ProjectFile.project_id f)).
Proof.
  intros req w Hu caller. unfold caller.
  split; [now apply listProjects_serves|].
  split; [intros; now apply showProject_serves|].
  split; [intros; now apply createProjectHandler_serves|].
  split; [intros; now apply deleteProjectHandler_serves|].
  split; [intros; now apply saveFileHandler_serves|].
  split; [intros; now apply showFileHandler_serves|].
  split; [intros; now apply deleteFileHandler_serves|].
  split; [intros; now apply chatMessageHandler_serves|].
  split; [intros; now apply conversationsHandler_serves|].
  intros projectId projectContext files w' E.
  destruct (loadContext_cases projectId (getUserId req) w) as (r & w0 & E0 & _ & H).
  rewrite E in E0. injection E0 as <- <-.
  now destruct (H projectContext files eq_refl).
Qed.

Lemma ownership_rederived_on_every_path_witness :
  serves (getUserId bobsRequest) (saveFileHandler (js "p1") bobsRequest) annsWorld.
Proof.
  destruct (ownership_rederived_on_every_path bobsRequest annsWorld)
    as (_ & _ & _ & _ & H & _).
  - unfold uniqueIds. simpl. constructor; [intros []|constructor].
  - apply H.
Defined.

(** The request above is answered 404 and stores nothing. *)
Example bob_cannot_write_to_anns_project :
  exists w',
    saveFileHandler (js "p1") bobsRequest annsWorld
    = (inr (fail 404 "Project not found"), w')
    /\ project_files (db w') = [annsFile].
Proof. eexists. split; reflexivity. Qed.

(** The check is the handler's: [saveProjectFile] and [saveConversation]
    themselves write into whatever project they are given. *)
Remark persistence_writes_trust_their_caller :
  (exists row w',
     saveProjectFile (js "p1") (JString (js "b.txt")) (JString (js "b.txt"))
       (JString (js "mine now")) JUndefined annsWorld
     = (inr (Some row), w')
     /\ In row (project_files (db w')))
  /\ (exists row w',
        saveConversation (js "p1") (js "bob") (js "hello") (js "hi") sonnet 3
          annsWorld
        = (inr (Some row), w')
        /\ In row (conversations (db w'))).
Proof.
  split; do 2 eexists; (split; [reflexivity|]); simpl; auto.
Qed.

(** * Further properties of the code *)

(** ** Identifiers and validation *)

Lemma matches_Forall2 pattern s :
  matches pattern s = true -> Forall2 (fun class u => class u = true) pattern s.
Proof.
  revert s. induction pattern as [|class pattern IH]; intros [|u s] H;
    simpl in H; try discriminate.
  - constructor.
  - apply andb_true_iff in H as [Hu Hs]. constructor; auto.
Qed.

Lemma uuidPattern_units :
  Forall (fun class => forall u, class u = true -> uuidUnit u) uuidPattern.
Proof.
  assert (Hhex : forall u, isHex u = true -> uuidUnit u) by (intros; now left).
  assert (Hdash : forall u, isDash u = true -> uuidUnit u).
  { intros u H. right. now apply Z.eqb_eq in H. }
  assert (Hversion : forall u, isVersion u = true -> uuidUnit u).
  { intros u H. left. unfold isVersion in H. unfold isHex, isDigit.
    apply andb_true_iff in H as [H1 H2]. apply Z.leb_le in H1, H2.
    replace (48 <=? u) with true by (symmetry; apply Z.leb_le; lia).
    replace (u <=? 57) with true by (symmetry; apply Z.leb_le; lia).
    reflexivity. }
  assert (Hvariant : forall u, isVariant u = true -> uuidUnit u).
  { intros u H. left. unfold isVariant in H. simpl in H.
    repeat (apply orb_true_iff in H as [H|H];
            [apply Z.eqb_eq in H; subst; reflexivity|]).
    discriminate. }
  unfold uuidPattern.
  repeat (apply List.Forall_cons; [assumption|]). apply List.Forall_nil.
Qed.

Lemma classes_units pattern s :
  Forall (fun class : Z -> bool => forall u, class u = true -> uuidUnit u) pattern ->
  Forall2 (fun class u => class u = true) pattern s ->
  Forall uuidUnit s.
Proof.
  intros HU HF. revert HU.
  induction HF as [|class u pattern s Hc HF IH]; intros HU.
  - apply List.Forall_nil.
  - inversion HU as [|? ? Hclass Hrest]; subst.
    apply List.Forall_cons; [exact (Hclass u Hc)|exact (IH Hrest)].
Qed.

(** X1. An id the UUID pattern accepts has 36 code units, each a hex digit
    or a dash, with the dashes at positions 8, 13, 18 and 23. An id it
    rejects is answered 400 by the handlers that check it, and the world is
    left as it was: no statement reaches the pool. *)
Theorem uuid_checked_before_any_statement :
  forall id : jsstring,
    (uuidRegexTest id = true ->
       List.length id = 36%nat
       /\ Forall uuidUnit id
       /\ nth 8 id 0 = 45 /\ nth 13 id 0 = 45
       /\ nth 18 id 0 = 45 /\ nth 23 id 0 = 45)
    /\ (uuidRegexTest id = false ->
        forall req w,
          showProject id req w = (inr (fail 400 "Invalid project ID format"), w)
          /\ (forall execute,
                updateProjectHandler execute id req w
                = (inr (fail 400 "Invalid project ID format"), w))
          /\ deleteProjectHandler id req w
             = (inr (fail 400 "Invalid project ID format"), w)
          /\ conversationsHandler id req w
             = (inr (fail 400 "Invalid project ID format"), w)).
Proof.
  intros id. split.
  - intros H. unfold uuidRegexTest in H.
    pose proof (matches_Forall2 _ _ H) as HF.
    assert (Hlen : List.length id = 36%nat).
    { apply Forall2_length in HF. rewrite <- HF. reflexivity. }
    split; [exact Hlen|]. split.
    + exact (classes_units _ _ uuidPattern_units HF).
    + do 36 (destruct id as [|? id]; [discriminate Hlen|]).
      unfold uuidPattern in H. simpl in H.
      rewrite !andb_true_iff in H. unfold isDash in H.
      simpl. repeat split; apply Z.eqb_eq; tauto.
  - intros H req w.
    unfold showProject, updateProjectHandler, deleteProjectHandler,
      conversationsHandler, tryCatch.
    rewrite H. repeat split.
Qed.

Lemma uuid_checked_before_any_statement_witness :
  List.length (js "123e4567-e89b-42d3-a456-426614174000") = 36%nat
  /\ showProject (js "p1") bareRequest emptyWorld
     = (inr (fail 400 "Invalid project ID format"), emptyWorld).
Proof.
  destruct (uuid_checked_before_any_statement
              (js "123e4567-e89b-42d3-a456-426614174000")) as [Hyes _].
  destruct (uuid_checked_before_any_statement (js "p1")) as [_ Hno].
  split.
  - apply Hyes. reflexivity.
  - apply Hno. reflexivity.
Defined.

Lemma errors_none (c1 c2 c3 c4 : bool) (e1 e2 e3 e4 : jsstring) :
  (if c1 then [e1] else []) ++ (if c2 then [e2] else [])
  ++ (if c3 then [e3] else []) ++ (if c4 then [e4] else []) = []
  <-> c1 = false /\ c2 = false /\ c3 = false /\ c4 = false.
Proof. destruct c1, c2, c3, c4; simpl; intuition discriminate. Qed.

Lemma text_accepted (limit : Z) (name : JsValue) :
  negb (truthy name) || negb (isString name) || blank name = false
  /\ truthy name && longerThan limit name = false
  <-> exists s, name = JString s
                /\ JsString.trim s <> [] /\ JsString.length s <= limit.
Proof.
  split.
  - intros [H1 H2]. destruct name as [| | | |s|]; try discriminate;
      try (destruct b; discriminate).
    + simpl in H1. destruct (n =? 0); discriminate.
    + exists s. split; [reflexivity|].
      apply orb_false_iff in H1 as [H1 Hb]. apply orb_false_iff in H1 as [Ht _].
      apply negb_false_iff in Ht. rewrite Ht in H2. simpl in H2, Hb.
      apply eqb_neq in Hb. split; [exact Hb|].
      destruct (JsString.length s >? limit) eqn:E; [discriminate|].
      rewrite Z.gtb_ltb in E. apply Z.ltb_ge in E. exact E.
  - intros (s & -> & Ht & Hl). simpl.
    assert (Hs : s <> []) by (intros ->; now apply Ht).
    apply eqb_neq in Hs, Ht. rewrite Hs, Ht. simpl. split; [reflexivity|].
    rewrite Z.gtb_ltb. apply Z.ltb_ge. exact Hl.
Qed.

Lemma optional_string (v : JsValue) :
  truthy v && negb (isString v) = false
  <-> (truthy v = true -> isString v = true).
Proof. destruct (truthy v), (isString v); simpl; intuition discriminate. Qed.

(** X2. [validateProjectData] reports nothing exactly when the name is a
    string that is not blank and has at most 255 code units (255 itself
    passes, though the message says "less than"), and the description and the
    template are strings whenever they are truthy. *)
Theorem validateProjectData_accepts :
  forall data : JsObject,
    validateProjectData data = []
    <-> (exists s, prop data (js "name") = JString s
                   /\ JsString.trim s <> [] /\ JsString.length s <= 255)
        /\ (truthy (prop data (js "description")) = true ->
            isString (prop data (js "description")) = true)
        /\ (truthy (prop data (js "template")) = true ->
            isString (prop data (js "template")) = true).
Proof.
  intros data. unfold validateProjectData. rewrite errors_none.
  rewrite <- (text_accepted 255), <- !optional_string. tauto.
Qed.

(** ** The allow-list of the update *)

Lemma filterUpdates_allowed (updates : JsObject) :
  Forall (fun entry => In (fst entry) allowedFields) (filterUpdates updates).
Proof.
  apply List.Forall_forall. intros [key value] H.
  apply filter_In in H as [_ H]. apply existsb_exists in H as (a & Ha & E).
  apply eqb_eq in E. simpl. now subst.
Qed.

Lemma allowedFields_plain key : In key allowedFields -> dollarFree key.
Proof.
  intros H. apply dollarFree_check. unfold allowedFields in H. simpl in H.
  repeat (destruct H as [<-|H]; [reflexivity|]). destruct H.
Qed.

Lemma filterUpdates_plain (updates : JsObject) : plainKeys (filterUpdates updates).
Proof.
  eapply List.Forall_impl; [|apply filterUpdates_allowed].
  intros entry. apply allowedFields_plain.
Qed.

(** X3. Whatever the body of [PUT /:id], the handler either answers 400
    without a statement, or hands the pool exactly one UPDATE built from the
    allow-listed entries of the body, in their order: every column named in
    its SET clause is one of [name], [description], [status], [settings], and
    its placeholders are [$1 ... $k] for the [k] bind values. The usage error
    of [updateProject] for an empty mapping is never reached. *)
Theorem update_handler_builds_from_allow_list :
  forall execute (id : jsstring) (req : Request) (w w' : World)
         (response : Response),
    updateProjectHandler execute id req w = (inr response, w') ->
    let fields := filterUpdates (body req) in
    let values :=
      List.map snd fields ++ [JString id; JString (getUserId req)] in
    let text := updateQuery (setItems 1 fields) (S (List.length fields)) in
    Forall (fun entry => In (fst entry) allowedFields) fields
    /\ (statusCode response = 400 /\ w' = w
        \/ fields <> []
           /\ issued w' = issued w ++ [(UpdateProjects text, values)]
           /\ placeholders text = seq 1 (List.length values)).
Proof.
  intros execute id req w w' response Hrun fields values text.
  split; [apply filterUpdates_allowed|].
  unfold updateProjectHandler, tryCatch, bind in Hrun.
  destruct (uuidRegexTest id); cbn [negb] in Hrun;
    [|injection Hrun as <- <-; now left].
  fold fields in Hrun.
  destruct (Nat.eqb (List.length fields) 0) eqn:E;
    [injection Hrun as <- <-; now left|].
  destruct (negb (Nat.eqb (List.length _) 0));
    [injection Hrun as <- <-; now left|].
  right. unfold updateProject in Hrun.
  rewrite updateLoop_eq, setItems_length, E in Hrun.
  fold text values in Hrun.
  assert (Hne : fields <> []) by (intros H; rewrite H in E; discriminate).
  split; [exact Hne|]. split.
  - unfold bind, query in Hrun.
    destruct (execute text values (db w)) as [e|[rows d']].
    + injection Hrun as _ <-. reflexivity.
    + destruct (rows0 rows); injection Hrun as _ <-; reflexivity.
  - unfold text, values. rewrite placeholders_updateQuery
      by apply filterUpdates_plain.
    rewrite length_app, length_map. reflexivity.
Qed.

Lemma update_handler_builds_from_allow_list_witness :
  exists response w',
    updateProjectHandler noRow (js "123e4567-e89b-42d3-a456-426614174000")
      {| headers := ∅; queryString := ∅;
         body := [(js "id", JString (js "x")); (js "name", JString (js "Tetris"))] |}
      emptyWorld
    = (inr response, w')
    /\ List.length (issued w') = 1%nat.
Proof.
  do 2 eexists. split; [reflexivity|].
  match goal with
  | |- context [issued ?w'] =>
      destruct (update_handler_builds_from_allow_list noRow
                  (js "123e4567-e89b-42d3-a456-426614174000")
                  {| headers := ∅; queryString := ∅;
                     body := [(js "id", JString (js "x"));
                              (js "name", JString (js "Tetris"))] |}
                  emptyWorld w' (fail 404 "Project not found") eq_refl)
        as [_ [[H _]|(_ & H & _)]]
  end.
  - discriminate H.
  - rewrite H. reflexivity.
Defined.

(** ** Files *)

Lemma keyed_fileKey projectId path f :
  keyed projectId path f <-> fileKey f = (projectId, path).
Proof. unfold keyed, fileKey. split; [intros [-> ->]; reflexivity|intros [= -> ->]; auto]. Qed.

(** The two branches of the upsert, on the keys of the table. *)
Lemma upsert_keys projectId path name text fileType size d rows d' :
  Sql.upsertProjectFile projectId (Some path) (Some name) text fileType size d
  = inr (rows, d') ->
  (exists f, In f (project_files d) /\ keyed projectId path f)
  /\ List.map fileKey (project_files d') = List.map fileKey (project_files d)
  \/ (forall f, In f (project_files d) -> ~ keyed projectId path f)
     /\ exists row, project_files d' = project_files d ++ [row]
                    /\ fileKey row = (projectId, path).
Proof.
  unfold Sql.upsertProjectFile.
  destruct (existsb _ (project_files d)) eqn:E; intros [= <- <-].
  - left. apply existsb_exists in E as (f & Hf & Hk). apply hit_keyed in Hk.
    split; [eauto|]. unfold Sql.setFiles; cbn [project_files].
    rewrite map_map. apply map_ext. intros g.
    destruct ((ProjectFile.project_id g =?s projectId)
              && (ProjectFile.file_path g =?s path)); reflexivity.
  - right. split.
    + intros f Hf Hk. apply hit_keyed in Hk.
      assert (existsb
                (fun f => (ProjectFile.project_id f =?s projectId)
                          && (ProjectFile.file_path f =?s path))
                (project_files d) = true) by (apply existsb_exists; eauto).
      congruence.
    + eexists. split; reflexivity.
Qed.

Lemma saveProjectFile_run projectId filePath fileName content fileType w r w' :
  saveProjectFile projectId filePath fileName content fileType w = (r, w') ->
  (exists e, r = inl e) /\ db w' = db w
  \/ exists text path name rows d',
       content = JString text
       /\ prepareValue filePath = Some path
       /\ prepareValue fileName = Some name
       /\ Sql.upsertProjectFile projectId (Some path) (Some name) text
            (prepareValue (orText fileType)) (JsString.byteLength text) (db w)
          = inr (rows, d')
       /\ r = inr (rows0 rows)
       /\ db w' = Sql.touchProject projectId d'.
Proof.
  unfold saveProjectFile.
  destruct content as [| | | |text|];
    try (intros [= <- <-]; left; split; [eauto|reflexivity]).
  unfold bind, query, writing.
  destruct (prepareValue filePath) as [path|] eqn:Ep;
    [destruct (prepareValue fileName) as [name|] eqn:En|].
  - destruct (Sql.upsertProjectFile _ _ _ _ _ _ _) as [e|[rows d']] eqn:E.
    + intros [= <- <-]. left. split; [eauto|reflexivity].
    + intros [= <- <-]. right. exists text, path, name, rows, d'.
      repeat split; assumption || reflexivity.
  - intros [= <- <-]. left. split; [eauto|reflexivity].
  - intros [= <- <-]. left. split; [eauto|reflexivity].
Qed.

(** X4. [saveProjectFile] keeps ([project_id], [file_path]) a key of the
    table: saving under a path that is already stored for the project
    overwrites the row in place and the table keeps its size, saving under a
    new path adds one row, and a call that throws stores nothing. *)
Theorem saveProjectFile_upserts :
  forall (w w' : World) (projectId : jsstring)
         (filePath fileName content fileType : JsValue) r,
    uniqueKeys (db w) ->
    saveProjectFile projectId filePath fileName content fileType w = (r, w') ->
    uniqueKeys (db w')
    /\ (forall e, r = inl e -> project_files (db w') = project_files (db w))
    /\ (forall row, r = inr row ->
        exists path stored,
          prepareValue filePath = Some path
          /\ row = Some stored
          /\ keyed projectId path stored
          /\ ((exists f, In f (project_files (db w)) /\ keyed projectId path f)
              /\ List.length (project_files (db w'))
                 = List.length (project_files (db w))
              \/ (forall f, In f (project_files (db w)) ->
                    ~ keyed projectId path f)
                 /\ project_files (db w') = project_files (db w) ++ [stored])).
Proof.
  intros w w' projectId filePath fileName content fileType r Hu Hrun.
  apply saveProjectFile_run in Hrun
    as [[[e ->] Hdb]|(text & path & name & rows & d' & -> & Hp & Hn & E & -> & Hdb)].
  - rewrite Hdb. split; [exact Hu|]. split; [reflexivity|discriminate].
  - assert (Hfiles : project_files (db w') = project_files d')
      by (rewrite Hdb; reflexivity).
    unfold uniqueKeys. rewrite Hfiles.
    destruct (upsertProjectFile_spec projectId path name text
                (prepareValue (orText fileType)) (JsString.byteLength text) (db w))
      as (row & rows' & d0 & E0 & _ & _ & _ & (Hk & _) & _).
    rewrite E0 in E. injection E as <- <-.
    destruct (upsert_keys _ _ _ _ _ _ _ _ _ E0) as [[Hex Hkeys]|[Hnone (new & Hnew & Hkey)]].
    + split; [rewrite Hkeys; exact Hu|].
      split; [discriminate|]. intros ? [= <-].
      exists path, row. repeat split; try assumption; try apply Hk.
      left. split; [exact Hex|].
      rewrite <- (length_map fileKey), Hkeys. apply length_map.
    + assert (Hrow : new = row).
      { unfold Sql.upsertProjectFile in E0.
        destruct (existsb _ (project_files (db w))) eqn:Eb.
        - apply existsb_exists in Eb as (f & Hf & Hh). apply hit_keyed in Hh.
          now destruct (Hnone f Hf).
        - injection E0 as <- _ Hd. rewrite <- Hd in Hnew. cbn in Hnew.
          apply app_inv_head in Hnew. now injection Hnew. }
      subst new. split.
      * rewrite Hnew, map_app. cbn [List.map].
        apply List.NoDup_app; [exact Hu|repeat constructor; intros []|].
        intros k Hin [<-|[]]. apply in_map_iff in Hin as (f & Hfk & Hf).
        apply (Hnone f Hf). apply keyed_fileKey. congruence.
      * split; [discriminate|]. intros ? [= <-].
        exists path, row. repeat split; try assumption; try apply Hk.
        right. split; assumption.
Qed.

Lemma saveProjectFile_upserts_witness :
  exists r w',
    saveProjectFile (js "p1") (JString (js "a.txt")) (JString (js "a.txt"))
      (JString (js "hello")) JUndefined annsWorld = (r, w')
    /\ uniqueKeys (db w').
Proof.
  do 2 eexists. split; [reflexivity|].
  match goal with
  | |- uniqueKeys (db ?w') =>
      refine (proj1 (saveProjectFile_upserts annsWorld w' (js "p1")
                       (JString (js "a.txt")) (JString (js "a.txt"))
                       (JString (js "hello")) JUndefined _ _ eq_refl))
  end.
  unfold uniqueKeys. simpl. constructor; [intros []|constructor].
Defined.

(** X5. A file saved into a project is found again by its owner: after
    [saveProjectFile], [getProjectFile] on the same project and path returns a
    row with the content that was saved and its byte length, and
    [getProjectFiles] lists the row that was returned. *)
Theorem saved_file_is_found :
  forall (w : World) (projectId userId path name text : jsstring)
         (filePath fileName fileType : JsValue),
    prepareValue filePath = Some path ->
    prepareValue fileName = Some name ->
    owns (db w) userId projectId ->
    exists row w' found files,
      saveProjectFile projectId filePath fileName (JString text) fileType w
      = (inr (Some row), w')
      /\ fst (getProjectFile projectId path userId w') = inr (Some found)
      /\ ProjectFile.content found = text
      /\ ProjectFile.size_bytes found = JsString.byteLength text
      /\ fst (getProjectFiles projectId userId w') = inr files
      /\ In row files.
Proof.
  intros w projectId userId path name text filePath fileName fileType Hp Hn Ho.
  destruct (upsertProjectFile_spec projectId path name text
              (prepareValue (orText fileType)) (JsString.byteLength text) (db w))
    as (row & rows & d' & E & Hprojects & _ & Hin & (Hk & _) & Hnew & _).
  assert (Ho' : owns (Sql.touchProject projectId d') userId projectId).
  { apply (sameOwners_owns d' _ userId projectId (touchProject_sameOwners projectId d')).
    now apply (owns_same_projects (db w) d'). }
  assert (Hsel : In row (Sql.selectProjectFile projectId path userId
                           (Sql.touchProject projectId d'))).
  { apply selectProjectFile_In. auto. }
  apply rows0_In in Hsel as (found & Hfirst & Hfound).
  apply selectProjectFile_In in Hfound as (Hfound & Hkf & _).
  exists row. eexists. exists found. eexists.
  split; [|split; [|split; [|split; [|split]]]].
  - unfold saveProjectFile, bind, query, writing. rewrite Hp, Hn, E. reflexivity.
  - unfold getProjectFile, bind, query, reading; cbn [fst db]. now rewrite Hfirst.
  - destruct (Hnew found Hfound) as [(_ & Hc & _)|[Hno _]]; [exact Hc|contradiction].
  - destruct (Hnew found Hfound) as [(_ & _ & Hs)|[Hno _]]; [exact Hs|contradiction].
  - reflexivity.
  - cbn [db]. apply selectProjectFiles_In. destruct Hk as [Hk _]. auto.
Qed.

Lemma saved_file_is_found_witness :
  exists row w' found files,
    saveProjectFile (js "p1") (JString (js "b.txt")) (JString (js "b.txt"))
      (JString (js "hello")) JUndefined annsWorld
    = (inr (Some row), w')
    /\ fst (getProjectFile (js "p1") (js "b.txt") (js "ann") w') = inr (Some found)
    /\ ProjectFile.content found = js "hello"
    /\ ProjectFile.size_bytes found = 5
    /\ fst (getProjectFiles (js "p1") (js "ann") w') = inr files
    /\ In row files.
Proof.
  apply (saved_file_is_found annsWorld (js "p1") (js "ann") (js "b.txt")
           (js "b.txt") (js "hello") (JString (js "b.txt"))
           (JString (js "b.txt")) JUndefined eq_refl eq_refl).
  exists annsProject. repeat split. now left.
Defined.

Lemma removed_iff projectId path userId d f :
  removed projectId (Some path) userId d f = true
  <-> keyed projectId path f /\ owns d userId projectId.
Proof.
  unfold removed. rewrite !andb_true_iff, !eqb_eq, negb_true_iff. split.
  - intros [[Hp Hf] Hn]. split; [split; assumption|].
    destruct (Sql.owners userId f d) as [|p ps] eqn:E; [discriminate|].
    assert (Hin : In p (Sql.owners userId f d)) by (rewrite E; now left).
    apply owners_In in Hin. exists p. rewrite <- Hp. tauto.
  - intros [[Hp Hf] Ho]. split; [split; assumption|].
    rewrite <- Hp in Ho. pose proof (owners_some userId f d Ho) as Hn.
    destruct (Sql.owners userId f d); [contradiction|reflexivity].
Qed.

Lemma filter_all {A} (f : A -> bool) l :
  (forall x, In x l -> f x = true) -> List.filter f l = l.
Proof.
  induction l as [|x rest IH]; simpl; intros H; [reflexivity|].
  rewrite (H x) by now left. f_equal. apply IH. intros y Hy. apply H. now right.
Qed.

(** X6. Deleting a file is a hard delete within the caller's projects:
    afterwards [getProjectFile] finds nothing under that project and path for
    the caller, the row returned was stored under them, the rows that went
    are exactly those, and no other row or table changes. For a project the
    caller does not own nothing is returned and nothing is removed. *)
Theorem deleted_file_is_gone :
  forall (w w' : World) (projectId userId path : jsstring) (filePath : JsValue) r,
    prepareValue filePath = Some path ->
    deleteProjectFile projectId filePath userId w = (r, w') ->
    fst (getProjectFile projectId path userId w') = inr None
    /\ (exists found, r = inr found
          /\ forall f, found = Some f ->
               In f (project_files (db w)) /\ keyed projectId path f
               /\ owns (db w) userId projectId)
    /\ (forall f, In f (project_files (db w')) <->
          In f (project_files (db w))
          /\ ~ (keyed projectId path f /\ owns (db w) userId projectId))
    /\ projects (db w') = projects (db w)
    /\ conversations (db w') = conversations (db w)
    /\ (~ owns (db w) userId projectId ->
        r = inr None /\ project_files (db w') = project_files (db w)).
Proof.
  intros w w' projectId userId path filePath r Hp Hrun.
  unfold deleteProjectFile, bind, query, writing in Hrun.
  rewrite deleteProjectFile_removed, Hp in Hrun. injection Hrun as <- <-.
  cbn [db fst snd Sql.setFiles project_files projects conversations].
  assert (Hleft : forall f,
             In f (List.filter
                     (fun f => negb (removed projectId (Some path) userId (db w) f))
                     (project_files (db w)))
             <-> In f (project_files (db w))
                 /\ ~ (keyed projectId path f /\ owns (db w) userId projectId)).
  { intros f. rewrite filter_In.
    pose proof (removed_iff projectId path userId (db w) f) as Hr.
    destruct (removed projectId (Some path) userId (db w) f); simpl.
    - split; [intros [_ H]; discriminate|intros [_ H]; exfalso; tauto].
    - split; [intros [H _]|intros [H _]]; (split; [exact H|]);
        [intros H'; apply Hr in H'; discriminate|reflexivity]. }
  split; [|split; [|split; [|split; [|split]]]].
  - unfold getProjectFile, bind, query, reading; cbn [fst db].
    replace (Sql.selectProjectFile _ _ _ _) with (@nil ProjectFile.t);
      [reflexivity|].
    symmetry.
    destruct (Sql.selectProjectFile projectId path userId _) as [|f fs] eqn:E;
      [reflexivity|].
    assert (Hin : In f (f :: fs)) by now left.
    rewrite <- E in Hin. apply selectProjectFile_In in Hin as (Hin & Hk & Ho).
    cbn [Sql.setFiles project_files] in Hin. apply Hleft in Hin as [_ Hn].
    exfalso. apply Hn. split; [exact Hk|].
    now apply (owns_same_projects _ (db w)) in Ho.
  - eexists. split; [reflexivity|]. intros f Hf.
    apply rows0_Some, filter_In in Hf as [Hin Hr]. apply removed_iff in Hr.
    tauto.
  - exact Hleft.
  - reflexivity.
  - reflexivity.
  - intros Hno.
    assert (Hnone : forall f, In f (project_files (db w)) ->
                      removed projectId (Some path) userId (db w) f = false).
    { intros f _. destruct (removed _ _ _ _ f) eqn:E; [|reflexivity].
      apply removed_iff in E. tauto. }
    rewrite (filter_none _ _ Hnone). split; [reflexivity|].
    apply filter_all. intros f Hf.
    change (negb (removed projectId (Some path) userId (db w) f) = true).
    now rewrite (Hnone f Hf).
Qed.

Lemma deleted_file_is_gone_witness :
  exists r w',
    deleteProjectFile (js "p1") (JString (js "a.txt")) (js "ann") annsWorld = (r, w')
    /\ fst (getProjectFile (js "p1") (js "a.txt") (js "ann") w') = inr None.
Proof.
  do 2 eexists. split; [reflexivity|].
  match goal with
  | |- fst (getProjectFile _ _ _ ?w') = _ =>
      refine (proj1 (deleted_file_is_gone annsWorld w' (js "p1") (js "ann")
                       (js "a.txt") (JString (js "a.txt")) _ eq_refl eq_refl))
  end.
Defined.




(** ** Projects *)

Lemma maxCreated_spec (l : list Conversation.t) :
  match Sql.maxCreated l with
  | None => l = []
  | Some m =>
      (exists c, In c l /\ Conversation.created_at c = m)
      /\ forall c, In c l -> Conversation.created_at c <= m
  end.
Proof.
  induction l as [|c rest IH]; simpl; [reflexivity|].
  destruct (Sql.maxCreated rest) as [m|].
  - destruct IH as [(c' & Hc' & E) Hmax]. split.
    + destruct (Z.max_spec (Conversation.created_at c) m) as [[_ ->]|[_ ->]];
        [exists c'; auto|exists c; auto].
    + intros x [<-|Hx]; [lia|]. specialize (Hmax x Hx). lia.
  - subst rest. split; [exists c; auto|]. intros x [<-|[]]. lia.
Qed.

(** X8. [getProjects] changes nothing and lists exactly the active projects
    of the user, most recently updated first. For each, [file_count] and
    [conversation_count] are zero exactly when the project has no file, no
    conversation, and [last_conversation] is the latest [created_at] among
    its conversations, or NULL when it has none. *)
Theorem getProjects_lists_active :
  forall (w : World) (userId : jsstring),
    exists listed w',
      getProjects userId w = (inr listed, w')
      /\ db w' = db w
      /\ (forall p, In p (List.map ProjectSummary.project listed) <->
            In p (projects (db w))
            /\ Project.user_id p = userId /\ Project.status p = js "active")
      /\ latestFirst (List.map ProjectSummary.project listed)
      /\ (forall s, In s listed ->
            let mine_ f := ProjectFile.project_id f
                           = Project.id (ProjectSummary.project s) in
            let ours c := Conversation.project_id c
                          = Project.id (ProjectSummary.project s) in
            (ProjectSummary.file_count s = 0 <->
               forall f, In f (project_files (db w)) -> ~ mine_ f)
            /\ (ProjectSummary.conversation_count s = 0 <->
                  forall c, In c (conversations (db w)) -> ~ ours c)
            /\ match ProjectSummary.last_conversation s with
               | None => forall c, In c (conversations (db w)) -> ~ ours c
               | Some m =>
                   (exists c, In c (conversations (db w)) /\ ours c
                              /\ Conversation.created_at c = m)
                   /\ forall c, In c (conversations (db w)) -> ours c ->
                        Conversation.created_at c <= m
               end).
Proof.
  intros w userId. do 2 eexists. split; [reflexivity|]. split; [reflexivity|].
  cbn [db]. unfold Sql.selectProjects.
  assert (Hzero : forall {A} (P : A -> bool) l,
             Z.of_nat (List.length (List.filter P l)) = 0
             <-> forall x, In x l -> P x <> true).
  { intros A P l. split.
    - intros H x Hx Hp.
      assert (Hin : In x (List.filter P l)) by (apply filter_In; auto).
      destruct (List.filter P l); [destruct Hin|discriminate].
    - intros H. rewrite filter_none; [reflexivity|].
      intros x Hx. specialize (H x Hx). now destruct (P x). }
  split; [|split].
  - intros p. rewrite map_map. cbn [Sql.summary ProjectSummary.project].
    rewrite map_id, orderBy_In, filter_In, andb_true_iff, !eqb_eq. tauto.
  - unfold latestFirst. rewrite map_map. cbn [Sql.summary ProjectSummary.project].
    rewrite map_id.
    eapply StronglySorted_impl;
      [|apply (orderBy_sorted
                 (fun a b => Project.updated_at b <=? Project.updated_at a))].
    + intros a b H. now apply Z.leb_le in H.
    + intros a b. rewrite !Z.leb_le. lia.
    + intros a b c. rewrite !Z.leb_le. lia.
  - intros s Hs. apply in_map_iff in Hs as (p & <- & _).
    cbn [Sql.summary ProjectSummary.project
      ProjectSummary.file_count ProjectSummary.conversation_count
      ProjectSummary.last_conversation].
    split; [|split].
    + rewrite Hzero. split; intros H f Hf; specialize (H f Hf);
        rewrite eqb_eq in *; exact H.
    + rewrite Hzero. split; intros H c Hc; specialize (H c Hc);
        rewrite eqb_eq in *; exact H.
    + pose proof (maxCreated_spec
                    (List.filter
                       (fun c => Conversation.project_id c =?s Project.id p)
                       (conversations (db w)))) as Hmax.
      destruct (Sql.maxCreated _) as [m|].
      * destruct Hmax as [(c & Hc & E) Hle]. apply filter_In in Hc as [Hc Hp].
        apply eqb_eq in Hp. split; [exists c; auto|].
        intros x Hx Hxp. apply Hle. apply filter_In. split; [exact Hx|].
        now apply eqb_eq.
      * intros c Hc Hp.
        assert (Hin : In c (List.filter
                              (fun c => Conversation.project_id c =?s Project.id p)
                              (conversations (db w))))
          by (apply filter_In; split; [exact Hc|now apply eqb_eq]).
        rewrite Hmax in Hin. destruct Hin.
Qed.

(** X9. [deleteProject] does not look at the status: once it has returned a
    project, calling it again for the same owner returns the project again
    (deleted), and [DELETE /:id] answers 200 again rather than 404. *)
Theorem deleting_twice_succeeds_again :
  forall (w w' : World) (projectId userId : jsstring) (row : Project.t),
    deleteProject projectId userId w = (inr (Some row), w') ->
    (exists again w'',
       deleteProject projectId userId w' = (inr (Some again), w'')
       /\ Project.id again = projectId
       /\ Project.user_id again = userId
       /\ Project.status again = js "deleted")
    /\ (forall req,
          getUserId req = userId -> uuidRegexTest projectId = true ->
          exists response w'',
            deleteProjectHandler projectId req w' = (inr response, w'')
            /\ statusCode response = 200).
Proof.
  intros w w' projectId userId row Hrun.
  rewrite deleteProject_run in Hrun.
  destruct (Sql.softDeleteProject projectId userId (db w)) as [rows d'] eqn:E.
  apply softDeleteProject_spec in E as (_ & _ & Hrows & _).
  cbn [fst snd] in Hrun. injection Hrun as Hrow <-.
  apply rows0_Some, Hrows in Hrow as (Hin & Hid & Hu).
  assert (Hagain : exists again,
             rows0 (fst (Sql.softDeleteProject projectId userId d')) = Some again
             /\ Project.id again = projectId
             /\ Project.user_id again = userId
             /\ Project.status again = js "deleted").
  { assert (Hhit : In (Sql.markDeleted (clock d') row)
                     (fst (Sql.softDeleteProject projectId userId d'))).
    { unfold Sql.softDeleteProject; cbn [fst]. apply in_map. apply filter_In.
      split; [exact Hin|]. rewrite andb_true_iff, !eqb_eq. auto. }
    apply rows0_In in Hhit as (again & Hfirst & Hagain).
    exists again. split; [exact Hfirst|].
    unfold Sql.softDeleteProject in Hagain; cbn [fst] in Hagain.
    apply in_map_iff in Hagain as (p & <- & Hp). apply filter_In in Hp as [_ Hp].
    rewrite andb_true_iff, !eqb_eq in Hp. cbn. tauto. }
  destruct Hagain as (again & Hfirst & Hfacts). split.
  - exists again. eexists. rewrite deleteProject_run. cbn [db].
    rewrite Hfirst. split; [reflexivity|exact Hfacts].
  - intros req Hreq Hid'. unfold deleteProjectHandler, tryCatch, bind.
    rewrite Hid', Hreq. cbn [negb]. rewrite deleteProject_run. cbn [db].
    rewrite Hfirst. do 2 eexists. split; reflexivity.
Qed.

Lemma deleting_twice_succeeds_again_witness :
  exists row w' again w'',
    deleteProject (js "p1") (js "ann") annsWorld = (inr (Some row), w')
    /\ deleteProject (js "p1") (js "ann") w' = (inr (Some again), w'')
    /\ Project.status again = js "deleted".
Proof.
  do 2 eexists.
  match goal with
  | |- exists again w'', ?run = _ /\ _ =>
      assert (Hrun : run = (inr (Some (Sql.markDeleted 6 annsProject)),
                            snd (deleteProject (js "p1") (js "ann") annsWorld)))
        by reflexivity
  end.
  destruct (deleting_twice_succeeds_again _ _ _ _ _ Hrun)
    as [(again & w'' & Hagain & _ & _ & Hstatus) _].
  exists again, w''. split; [exact Hrun|]. split; assumption.
Defined.

(** ** Child writes and the parent's timestamp *)

Lemma touchProject_bumped projectId d :
  bumped projectId (clock d) d (Sql.touchProject projectId d).
Proof.
  unfold bumped, Sql.touchProject; cbn [projects Sql.setProjects].
  split; [apply length_map|]. split; [|split].
  - intros p' Hp'. apply in_map_iff in Hp' as (p & <- & Hp). eauto.
  - intros p Hp Hne. apply in_map_iff. exists p. split; [|exact Hp].
    apply eqb_neq in Hne. now rewrite Hne.
  - intros p' Hp' Hid. apply in_map_iff in Hp' as (p & <- & Hp).
    destruct (Project.id p =?s projectId) eqn:E; [reflexivity|].
    apply eqb_neq in E. contradiction.
Qed.

(** X10. [saveConversation] appends one row that carries its arguments and
    the clock as [created_at], then sets [updated_at] of every project with
    that id to the clock (whoever owns it); no other project, no other column
    and no file changes. If the insert fails nothing changes.
    [saveProjectFile] bumps the project in the same way after its upsert. *)
Theorem child_writes_bump_the_project :
  forall (w w' : World) (projectId : jsstring),
    (forall userId message response aiModel tokensUsed r,
       saveConversation projectId userId message response aiModel tokensUsed w
       = (r, w') ->
       match r with
       | inl _ => db w' = db w
       | inr row =>
           exists c,
             row = Some c
             /\ conversations (db w') = conversations (db w) ++ [c]
             /\ Conversation.project_id c = projectId
             /\ Conversation.user_id c = userId
             /\ Conversation.message c = message
             /\ Conversation.response c = response
             /\ Conversation.ai_model c = aiModel
             /\ Conversation.tokens_used c = tokensUsed
             /\ Conversation.created_at c = clock (db w)
             /\ project_files (db w') = project_files (db w)
             /\ bumped projectId (clock (db w)) (db w) (db w')
       end)
    /\ (forall filePath fileName content fileType row,
          saveProjectFile projectId filePath fileName content fileType w
          = (inr row, w') ->
          conversations (db w') = conversations (db w)
          /\ bumped projectId (clock (db w)) (db w) (db w')).
Proof.
  intros w w' projectId. split.
  - intros userId message response aiModel tokensUsed r Hrun.
    unfold saveConversation, bind, query, writing in Hrun.
    destruct (Sql.insertConversation projectId userId message response aiModel
                tokensUsed (db w)) as [e|[rows d1]] eqn:E.
    + injection Hrun as <- <-. reflexivity.
    + cbn [db] in Hrun. injection Hrun as <- <-.
      unfold Sql.insertConversation in E.
      destruct (existsb _ (conversations (db w))); [discriminate|].
      injection E as <- <-. eexists. split; [reflexivity|].
      cbn [db conversations project_files Sql.touchProject Sql.setProjects
           Conversation.project_id Conversation.user_id Conversation.message
           Conversation.response Conversation.ai_model Conversation.tokens_used
           Conversation.created_at].
      repeat (split; [reflexivity|]).
      match goal with
      | |- bumped _ _ _ (Sql.touchProject _ ?d) =>
          pose proof (touchProject_bumped projectId d) as Hb
      end.
      unfold bumped in *. exact Hb.
  - intros filePath fileName content fileType row Hrun.
    apply saveProjectFile_run in Hrun
      as [[[e He] _]|(text & path & name & rows & d' & _ & _ & _ & E & _ & Hdb)];
      [discriminate|].
    destruct (upsertProjectFile_spec projectId path name text
                (prepareValue (orText fileType)) (JsString.byteLength text) (db w))
      as (row0 & rows' & d0 & E0 & Hp & Hc & _).
    rewrite E0 in E. injection E as _ <-. rewrite Hdb.
    split; [exact Hc|].
    assert (Hclock : clock d0 = clock (db w)).
    { unfold Sql.upsertProjectFile in E0.
      destruct (existsb _ (project_files (db w)));
        apply (f_equal (fun r => match r with
                                 | inr (_, d) => clock d
                                 | inl _ => clock (db w)
                                 end)) in E0;
        symmetry; exact E0. }
    pose proof (touchProject_bumped projectId d0) as Hb.
    unfold bumped in *. rewrite Hclock, Hp in Hb. exact Hb.
Qed.

Lemma child_writes_bump_the_project_witness :
  exists c w',
    saveConversation (js "p1") (js "ann") (js "hello") (js "hi there") sonnet 12
      annsWorld
    = (inr (Some c), w')
    /\ conversations (db w') = conversations (db annsWorld) ++ [c]
    /\ Conversation.created_at c = 6.
Proof.
  pose (run := saveConversation (js "p1") (js "ann") (js "hello")
                 (js "hi there") sonnet 12 annsWorld).
  assert (Hrun : run = (fst run, snd run)) by (destruct run; reflexivity).
  destruct (child_writes_bump_the_project annsWorld (snd run) (js "p1"))
    as [Hsave _].
  specialize (Hsave (js "ann") (js "hello") (js "hi there") sonnet 12 (fst run)
                Hrun).
  assert (Hfst : exists row, fst run = inr row) by (eexists; reflexivity).
  destruct Hfst as [row Hrow]. rewrite Hrow in Hsave, Hrun.
  destruct Hsave as (c & -> & Hc & _ & _ & _ & _ & _ & _ & Hat & _).
  exists c, (snd run). split; [exact Hrun|]. split; [exact Hc|exact Hat].
Defined.

(** ** The AI gateway, configured *)

(** X11. With a client, each of the four methods calls the provider exactly
    once, whatever the outcome (there is no retry), with the model
    claude-3-5-sonnet-20241022 and its own budget of 4000, 1500, 2000 or 3000
    tokens, and touches neither the tables nor the statement log. It succeeds
    exactly when the call resolves, and then returns the text of the message
    with [total_tokens] the sum of input and output tokens. *)
Theorem one_provider_call_per_request :
  forall (client : Client) (w : World) (a b : jsstring)
         (files : list ProjectFile.t),
    let ai := {| anthropic := Some client |} in
    let outcome (method : M AIResult) (budget : Z) (p : Prompt)
                (shape : jsstring -> Usage -> AIResult) : Prop :=
      let request := {| model := sonnet; max_tokens := budget; prompt := p |} in
      exists r,
        method w = (inr r, called request w)
        /\ match client request with
           | Resolve text input output => r = shape text (usageOf input output)
           | Reject _ _ => success r = false
           end in
    outcome (generateCode ai a b files) 4000
      (GenerateCodePrompt a b (List.map contextOf files))
      (fun text usage => Generated text usage sonnet)
    /\ outcome (explainCode ai a b) 1500 (ExplainCodePrompt a b) Explained
    /\ outcome (suggestImprovements ai a b) 2000
         (SuggestImprovementsPrompt a b) Suggested
    /\ outcome (generateTests ai a b) 3000 (GenerateTestsPrompt a b) Tested.
Proof.
  intros client w a b files ai outcome. unfold outcome, ai.
  unfold generateCode, explainCode, suggestImprovements, generateTests,
    tryCatch, bind, create, called, usageOf; cbn [anthropic].
  repeat split;
    match goal with
    | |- context [client ?request] => destruct (client request)
    end; eexists; split; reflexivity.
Qed.

(** X12. The part of a file that [generateCode] puts into the prompt is the
    whole content when it has at most 1000 code units; otherwise its first
    1000 units followed by the truncation mark, 1016 units in all. In both
    cases it starts like the content and is at most 1016 units long. *)
Theorem context_is_truncated :
  forall file : ProjectFile.t,
    let content := ProjectFile.content file in
    let part := snd (contextOf file) in
    fst (contextOf file) = ProjectFile.file_path file
    /\ JsString.length part <= 1016
    /\ firstn 1000 part = firstn 1000 content
    /\ (JsString.length content <= 1000 -> part = content)
    /\ (1000 < JsString.length content ->
        part = firstn 1000 content ++ nl ++ js "... (truncated)"
        /\ JsString.length part = 1016).
Proof.
  intros file content part. unfold part, contextOf. fold content.
  cbn [fst snd]. unfold JsString.substring0, JsString.length.
  split; [reflexivity|].
  destruct (Z.of_nat (List.length content) >? 1000) eqn:E;
    rewrite Z.gtb_ltb in E; [apply Z.ltb_lt in E|apply Z.ltb_ge in E].
  - assert (Hlen : List.length (firstn 1000 content) = 1000%nat)
      by (apply firstn_length_le; lia).
    assert (Hall : List.length (firstn 1000 content ++ nl ++ js "... (truncated)")
                   = 1016%nat).
    { rewrite length_app, Hlen. reflexivity. }
    split; [rewrite Hall; lia|]. split.
    + rewrite firstn_app, Hlen, Nat.sub_diag, firstn_O, app_nil_r.
      apply firstn_firstn.
    + split; [lia|]. intros _. split; [reflexivity|]. rewrite Hall. reflexivity.
  - split; [lia|]. split; [reflexivity|]. split; [reflexivity|lia].
Qed.

(** ** The limit of the conversation history *)

Lemma readDigits_stops acc rest :
  stops rest -> readDigits 10 (Some acc) rest = Some acc.
Proof.
  destruct rest as [|u rest]; [reflexivity|]. simpl. intros H.
  unfold digitValue. simpl. now rewrite H.
Qed.






(** ** The capability endpoints *)


(** ** The start-up check *)

(** X15. [validateConfig] passes exactly when [DB_HOST] and [DB_PASSWORD] are
    both set to a non-empty text; the other settings of the pool have defaults
    and are not asked for. Otherwise it throws an [Error] whose message lists
    the missing names in the order [DB_HOST], [DB_PASSWORD], separated by a
    comma and a space. *)
Theorem validateConfig_spec :
  forall env : gmap string jsstring,
    let present key := exists value, env !! key = Some value /\ value <> [] in
    (validateConfig env = inr tt
     <-> present "DB_HOST"%string /\ present "DB_PASSWORD"%string)
    /\ (forall e,
          validateConfig env = inl e ->
          exists names,
            e = Error (js "Missing required environment variables: " ++ names)
            /\ names = (if unset env "DB_HOST"
                        then if unset env "DB_PASSWORD"
                             then js "DB_HOST, DB_PASSWORD"
                             else js "DB_HOST"
                        else js "DB_PASSWORD")).
Proof.
  intros env present.
  assert (Hunset : forall key, unset env key = false <-> present key).
  { intros key. unfold unset, present. destruct (env !! key) as [value|].
    - split.
      + intros H. exists value. split; [reflexivity|].
        intros ->. discriminate H.
      + intros (v & [= <-] & Hv). now apply eqb_neq.
    - split; [discriminate|]. now intros (v & H & _). }
  rewrite <- !Hunset. unfold validateConfig, required. cbn [List.filter].
  destruct (unset env "DB_HOST") eqn:Hhost;
    destruct (unset env "DB_PASSWORD") eqn:Hpassword;
    cbn [List.length Nat.eqb negb]; split;
    try (split; [discriminate|intros [? ?]; discriminate]);
    try (intros e [= <-]; eexists; split; reflexivity).
  split; auto.
Qed.

(** ** The files of a project *)









(** ** The chat handler and the conversation log *)

Lemma saveConversation_outcome projectId userId message response aiModel
    tokensUsed w :
  exists r w',
    saveConversation projectId userId message response aiModel tokensUsed w
    = (r, w')
    /\ providerCalls w' = providerCalls w
    /\ match r with
       | inl _ => db w' = db w
       | inr row =>
           exists c,
             row = Some c
             /\ conversations (db w') = conversations (db w) ++ [c]
             /\ project_files (db w') = project_files (db w)
             /\ Conversation.project_id c = projectId
             /\ Conversation.user_id c = userId
             /\ Conversation.message c = message
             /\ Conversation.response c = response
             /\ Conversation.tokens_used c = tokensUsed
       end.
Proof.
  unfold saveConversation, bind, query, writing, Sql.insertConversation.
  destruct (existsb _ (conversations (db w))).
  - do 2 eexists. split; [reflexivity|]. split; reflexivity.
  - do 2 eexists. split; [reflexivity|]. split; [reflexivity|].
    eexists. split; [reflexivity|]. cbn. repeat split; reflexivity.
Qed.

Lemma loadContext_quiet projectId userId w :
  exists r w',
    loadContext projectId userId w = (inr r, w')
    /\ db w' = db w
    /\ providerCalls w' = providerCalls w
    /\ (truthy projectId = false -> w' = w /\ r = inr ([], []))
    /\ (forall response, r = inl response ->
          statusCode response = 400 \/ statusCode response = 404).
Proof.
  unfold loadContext.
  destruct projectId as [| | | |id|];
    try (do 2 eexists; split; [reflexivity|]; split; [reflexivity|];
         split; [reflexivity|]; split; [auto|discriminate]).
  destruct (truthy (JString id)) eqn:Et;
    [|do 2 eexists; split; [reflexivity|]; split; [reflexivity|];
      split; [reflexivity|]; split; [auto|discriminate]].
  destruct (uuidRegexTest id); cbn [negb];
    [|do 2 eexists; split; [reflexivity|]; split; [reflexivity|];
      split; [reflexivity|]; split; [discriminate|];
      intros ? [= <-]; now left].
  unfold bind. rewrite getProject_run.
  destruct (rows0 (Sql.selectProject id userId (db w))) as [project|].
  - do 2 eexists. split; [reflexivity|]. split; [reflexivity|].
    split; [reflexivity|]. split; discriminate.
  - do 2 eexists. split; [reflexivity|]. split; [reflexivity|].
    split; [reflexivity|]. split; [discriminate|].
    intros ? [= <-]; now right.
Qed.

Lemma generateCode_quiet ai prompt projectContext files w :
  exists r w',
    generateCode ai prompt projectContext files w = (inr r, w')
    /\ db w' = db w /\ issued w' = issued w
    /\ match r with Generated _ _ _ | Failure _ _ => True | _ => False end
    /\ (providerCalls w' = providerCalls w
        \/ exists request,
             providerCalls w' = providerCalls w ++ [request]
             /\ max_tokens request = 4000).
Proof.
  unfold generateCode. destruct (anthropic ai) as [client|].
  - unfold tryCatch, bind, create. destruct (client _).
    + do 2 eexists. repeat split; try reflexivity. right. eexists. split; reflexivity.
    + do 2 eexists. repeat split; try reflexivity. right. eexists. split; reflexivity.
  - do 2 eexists. repeat split; try reflexivity. now left.
Qed.

(** X17. [POST /message] always answers, never changes a file or a project
    row other than through [saveConversation], and stores a conversation only
    on the way to a 200: whenever the status is not 200 the tables are as
    they were. When a row is stored it is one row, appended for the caller
    and the project named in the body, carrying the trimmed message and the
    text sent back as [response]; its id is the [conversationId] of the
    answer. *)
Theorem chat_stores_only_what_it_answers :
  forall (aiService : AIService) (req : Request) (w : World),
    exists response w',
      chatMessageHandler aiService req w = (inr response, w')
      /\ project_files (db w') = project_files (db w)
      /\ (statusCode response <> 200 -> db w' = db w)
      /\ (conversations (db w') = conversations (db w)
          \/ exists c message,
               conversations (db w') = conversations (db w) ++ [c]
               /\ prop (body req) (js "projectId")
                  = JString (Conversation.project_id c)
               /\ Conversation.user_id c = getUserId req
               /\ prop (body req) (js "message") = JString message
               /\ Conversation.message c = JsString.trim message
               /\ exists usage model,
                    json response
                    = ChatData (Conversation.response c) usage model
                        (JString (Conversation.project_id c))
                        (Some (Conversation.id c))).
Proof.
  intros aiService req w. unfold chatMessageHandler, tryCatch, bind.
  destruct (negb (Nat.eqb (List.length (validateChatMessage (body req))) 0));
    [do 2 eexists; split; [reflexivity|]; auto|].
  destruct (prop (body req) (js "message")) as [| | | |message|];
    try (do 2 eexists; split; [reflexivity|]; auto).
  destruct (loadContext_quiet (prop (body req) (js "projectId")) (getUserId req) w)
    as (r & w1 & E & Hdb1 & _ & _ & _).
  rewrite E; cbv beta iota.
  destruct r as [response|[projectContext existingFiles]];
    [do 2 eexists; split; [reflexivity|]; rewrite Hdb1; auto|].
  destruct (isConfigured aiService); cbn [negb];
    [|do 2 eexists; split; [reflexivity|]; rewrite Hdb1; auto].
  destruct (generateCode_quiet aiService (JsString.trim message) projectContext
              existingFiles w1) as (r & w2 & E2 & Hdb2 & _ & Hr & _).
  rewrite E2; cbv beta iota.
  destruct r as [code usage model| | | |error code]; try contradiction;
    [|do 2 eexists; split; [reflexivity|]; rewrite Hdb2, Hdb1; auto].
  destruct (prop (body req) (js "projectId")) as [| | | |projectId|];
    try (do 2 eexists; split; [reflexivity|]; cbn [ret fst snd];
         rewrite Hdb2, Hdb1; split; [reflexivity|]; split; [reflexivity|];
         now left).
  destruct (truthy (JString projectId));
    [|do 2 eexists; split; [reflexivity|]; rewrite Hdb2, Hdb1;
      split; [reflexivity|]; split; [reflexivity|]; now left].
  destruct (saveConversation_outcome projectId (getUserId req)
              (JsString.trim message) code
              (orElse (Some model) "claude-3-5-sonnet") (total_tokens usage) w2)
    as (r & w3 & E3 & _ & Hr3).
  rewrite E3; cbv beta iota.
  destruct r as [e|row].
  - do 2 eexists. split; [reflexivity|]. cbn [ret]. rewrite Hr3, Hdb2, Hdb1.
    split; [reflexivity|]. split; [reflexivity|]. now left.
  - destruct Hr3 as (c & -> & Hc & Hf & Hp & Hu & Hm & Hresp & _).
    do 2 eexists. split; [reflexivity|]. rewrite Hf, Hc, Hdb2, Hdb1.
    split; [reflexivity|]. split; [intros H; now contradiction H|].
    right. exists c, message. split; [reflexivity|].
    rewrite Hp, Hu, Hm, Hresp. split; [reflexivity|]. split; [reflexivity|].
    split; [reflexivity|]. split; [reflexivity|].
    cbn [json option_map]. eauto.
Qed.

(** X18. [POST /message] calls the provider at most once, with a budget of
    4000 tokens, and only on the way to a 200 or a 500: a request refused
    with 400, 404 or 503 costs no call. The configuration is looked at after
    the project has been looked up. A body without a project id issues no
    statement at all, is never answered 404, and gets no [conversationId]. *)
Theorem chat_calls_the_provider_last :
  forall (aiService : AIService) (req : Request) (w : World),
    exists response w',
      chatMessageHandler aiService req w = (inr response, w')
      /\ (providerCalls w' = providerCalls w
          \/ exists request,
               providerCalls w' = providerCalls w ++ [request]
               /\ max_tokens request = 4000
               /\ (statusCode response = 200 \/ statusCode response = 500))
      /\ (truthy (prop (body req) (js "projectId")) = false ->
          db w' = db w /\ issued w' = issued w
          /\ statusCode response <> 404
          /\ forall code usage model projectId conversationId,
               json response = ChatData code usage model projectId conversationId ->
               conversationId = None).
Proof.
  intros aiService req w. unfold chatMessageHandler, tryCatch, bind.
  destruct (negb (Nat.eqb (List.length (validateChatMessage (body req))) 0));
    [do 2 eexists; split; [reflexivity|]; split; [now left|];
     intros _; repeat split; discriminate|].
  destruct (prop (body req) (js "message")) as [| | | |message|];
    try (do 2 eexists; split; [reflexivity|]; split; [now left|];
         intros _; repeat split; discriminate).
  destruct (loadContext_quiet (prop (body req) (js "projectId")) (getUserId req) w)
    as (r & w1 & E & Hdb1 & Hcalls1 & Hnone & H4).
  rewrite E; cbv beta iota.
  destruct r as [response|[projectContext existingFiles]].
  { do 2 eexists. split; [reflexivity|]. split; [now left|].
    intros Hp. destruct (Hnone Hp) as [_ [=]]. }
  destruct (isConfigured aiService); cbn [negb].
  2:{ do 2 eexists. split; [reflexivity|]. split; [now left|].
      intros Hp. destruct (Hnone Hp) as [-> _]. repeat split; discriminate. }
  destruct (generateCode_quiet aiService (JsString.trim message) projectContext
              existingFiles w1) as (r & w2 & E2 & Hdb2 & Hi2 & Hr & Hcalls2).
  rewrite E2; cbv beta iota. rewrite Hcalls1 in Hcalls2.
  destruct r as [code usage model| | | |error code]; try contradiction.
  2:{ do 2 eexists. split; [reflexivity|]. cbn [ret statusCode]. split.
      - destruct Hcalls2 as [H|(request & H & Hb)]; [now left|right].
        exists request. auto.
      - intros Hp. destruct (Hnone Hp) as [-> _]. repeat split; auto; discriminate. }
  destruct (prop (body req) (js "projectId")) as [| | | |projectId|] eqn:Eid;
    try (do 2 eexists; split; [reflexivity|]; cbn [ret statusCode json option_map];
         split;
         [destruct Hcalls2 as [H|(request & H & Hb)]; [now left|right];
          exists request; auto
         |intros Hp; destruct (Hnone Hp) as [-> _]; repeat split; auto;
          try discriminate; now intros ? ? ? ? ? [= _ _ _ _ <-]]).
  destruct (truthy (JString projectId)) eqn:Et.
  2:{ do 2 eexists; split; [reflexivity|]; cbn [ret statusCode json option_map];
      split;
      [destruct Hcalls2 as [H|(request & H & Hb)]; [now left|right];
       exists request; auto
      |intros Hp; destruct (Hnone Hp) as [-> _]; repeat split; auto;
       try discriminate; now intros ? ? ? ? ? [= _ _ _ _ <-]]. }
  destruct (saveConversation_outcome projectId (getUserId req)
              (JsString.trim message) code
              (orElse (Some model) "claude-3-5-sonnet") (total_tokens usage) w2)
    as (r & w3 & E3 & Hcalls3 & _).
  rewrite E3; cbv beta iota.
  assert (Hcalls : providerCalls w3 = providerCalls w
                   \/ exists request,
                        providerCalls w3 = providerCalls w ++ [request]
                        /\ max_tokens request = 4000 /\ (200 = 200 \/ 200 = 500)).
  { rewrite Hcalls3. destruct Hcalls2 as [H|(request & H & Hb)]; [now left|right].
    exists request. auto. }
  destruct r as [e|row]; do 2 eexists; (split; [reflexivity|]);
    cbn [ret statusCode snd]; (split; [exact Hcalls|discriminate]).
Qed.

(** ** Creating a project *)

Lemma createProject_outcome userId name description template w :
  exists r w',
    createProject userId name description template w = (r, w')
    /\ match r with
       | inl _ => db w' = db w
       | inr row =>
           exists p,
             row = Some p
             /\ projects (db w') = projects (db w) ++ [p]
             /\ ~ In (Project.id p) (List.map Project.id (projects (db w)))
             /\ Project.user_id p = userId
             /\ Project.name p = name
             /\ Project.description p = description
             /\ Project.template_used p = prepareValue template
             /\ Project.status p = js "active"
       end.
Proof.
  unfold createProject, bind, query, Sql.insertProject.
  destruct (existsb _ (projects (db w))) eqn:E.
  - do 2 eexists. split; reflexivity.
  - do 2 eexists. split; [reflexivity|]. eexists. split; [reflexivity|].
    cbn. repeat split; try reflexivity.
    intros Hin. apply in_map_iff in Hin as (p & Hid & Hp).
    assert (existsb (fun p => Project.id p =?s uuid (db w) (serial (db w)))
              (projects (db w)) = true) as E'.
    { apply existsb_exists. exists p. split; [assumption|]. now apply eqb_eq. }
    congruence.
Qed.

Lemma saveTemplateFiles_returns projectId templateFiles :
  forall createdFiles w,
    exists r w',
      saveTemplateFiles projectId templateFiles createdFiles w = (inr r, w').
Proof.
  induction templateFiles as [|file rest IH]; intros createdFiles w.
  - do 2 eexists. reflexivity.
  - cbn [saveTemplateFiles]. unfold bind at 1. unfold tryCatch, bind at 1.
    destruct (saveProjectFile projectId (JString (path file))
                (JString (name file)) (JString (content file))
                (JString (type file)) w) as [[e|created] w0];
      unfold ret; cbv beta iota; apply IH.
Qed.

Lemma no_errors (errors : list jsstring) :
  negb (Nat.eqb (List.length errors) 0) = false <-> errors = [].
Proof. destruct errors; simpl; intuition discriminate. Qed.

(** X19. [POST /] answers 400, 201 or 500. It answers 400 exactly when
    [validateProjectData] reports something, and then nothing has happened.
    A 201 carries a project that belongs to the caller, is active, has a
    fresh id and the trimmed name of the body; its [files] are present
    exactly when the template is truthy. *)
Theorem create_project_outcomes :
  forall (getTemplateFiles : jsstring -> list TemplateFile)
         (req : Request) (w : World),
    exists response w',
      createProjectHandler getTemplateFiles req w = (inr response, w')
      /\ (statusCode response = 201 \/ statusCode response = 400
          \/ statusCode response = 500)
      /\ (statusCode response = 400 <-> validateProjectData (body req) <> [])
      /\ (statusCode response = 400 -> w' = w)
      /\ (statusCode response = 201 ->
          exists name project files,
            prop (body req) (js "name") = JString name
            /\ json response = ProjectData None project files
            /\ Project.name project = JsString.trim name
            /\ Project.user_id project = getUserId req
            /\ Project.status project = js "active"
            /\ ~ In (Project.id project)
                 (List.map Project.id (projects (db w)))
            /\ (files = None
                <-> truthy (prop (body req) (js "template")) = false)).
Proof.
  intros templates req w.
  match goal with
  | |- exists response w', _ = _ /\ @?P response w' => pose (post := P)
  end.
  change (exists response w',
            createProjectHandler templates req w = (inr response, w')
            /\ post response w').
  unfold createProjectHandler, tryCatch, bind.
  destruct (negb (Nat.eqb (List.length (validateProjectData (body req))) 0))
    eqn:Ev.
  { do 2 eexists. split; [reflexivity|]. unfold post; cbn [statusCode].
    split; [auto|]. split; [|split; [reflexivity|discriminate]].
    split; [|reflexivity]. intros _ H. apply no_errors in H. congruence. }
  apply no_errors in Ev.
  assert (Hnot : forall s : Z, s <> 400 ->
             s = 400 <-> validateProjectData (body req) <> [])
    by (intros s Hs; split; [contradiction|congruence]).
  assert (Hfail : forall w1, post (fail 500 "Failed to create project") w1).
  { intros w1. unfold post; cbn [fail statusCode].
    split; [auto|]. split; [apply Hnot; discriminate|].
    split; discriminate. }
  assert (Htemplate : truthy (prop (body req) (js "template")) = true ->
                      isString (prop (body req) (js "template")) = true).
  { unfold validateProjectData in Ev.
    apply errors_none in Ev as (_ & _ & _ & Ev). now apply optional_string. }
  destruct (prop (body req) (js "name")) as [| | | |name|] eqn:En;
    destruct (trimmedOrEmpty _) as [e|description];
    try (do 2 eexists; split; [reflexivity|apply Hfail]).
  destruct (createProject_outcome (getUserId req) (JsString.trim name)
              description (prop (body req) (js "template")) w)
    as (r & w1 & E & Hr).
  rewrite E; cbv beta iota.
  destruct r as [e|row]; [do 2 eexists; split; [reflexivity|apply Hfail]|].
  destruct Hr as (p & -> & _ & Hfresh & Hu & Hn & _ & _ & Hs).
  assert (Hdone : forall files w2,
             (files = None <-> truthy (prop (body req) (js "template")) = false) ->
             post {| statusCode := 201; json := ProjectData None p files |} w2).
  { intros files w2 Hfiles. unfold post; cbn [statusCode json].
    split; [auto|]. split; [apply Hnot; discriminate|].
    split; [discriminate|]. intros _. exists name, p, files. auto 10. }
  destruct (prop (body req) (js "template")) as [| |b|n|template|o] eqn:Et;
    try (do 2 eexists; split; [reflexivity|]; apply Hdone;
         split; [intros _|reflexivity];
         destruct (truthy _); [now discriminate Htemplate|reflexivity]).
  destruct (truthy (JString template)) eqn:Ett.
  - destruct (saveTemplateFiles_returns (Project.id p) (templates template)
                [] w1) as (r & w2 & E2).
    rewrite E2. do 2 eexists. split; [reflexivity|]. apply Hdone.
    split; discriminate.
  - do 2 eexists. split; [reflexivity|]. apply Hdone. split; reflexivity.
Qed.

(** X20. A description that is falsy but neither a string, [undefined] nor
    [null] (that is [false] or [0]) passes [validateProjectData], which only
    looks at truthy descriptions; [description?.trim()] then throws, and the
    request ends in 500 "Failed to create project" before any statement is
    issued. *)
Theorem falsy_description_is_a_500 :
  forall (getTemplateFiles : jsstring -> list TemplateFile)
         (req : Request) (w : World),
    let description := prop (body req) (js "description") in
    validateProjectData (body req) = [] ->
    description = JBool false \/ description = JNumber 0 ->
    createProjectHandler getTemplateFiles req w
    = (inr (fail 500 "Failed to create project"), w).
Proof.
  intros templates req w description Hv Hd. subst description.
  unfold createProjectHandler, tryCatch, bind. rewrite Hv. cbn [List.length Nat.eqb negb].
  destruct (prop (body req) (js "name")) as [| | | |name|];
    destruct Hd as [-> | ->]; reflexivity.
Qed.

Lemma falsy_description_is_a_500_witness :
  createProjectHandler (fun _ => [])
    {| headers := ∅;
       queryString := ∅;
       body := [(js "name", JString (js "Tetris"));
                (js "description", JBool false)] |}
    emptyWorld
  = (inr (fail 500 "Failed to create project"), emptyWorld).
Proof.
  apply (falsy_description_is_a_500 (fun _ => [])
           {| headers := ∅;
              queryString := ∅;
              body := [(js "name", JString (js "Tetris"));
                       (js "description", JBool false)] |}
           emptyWorld).
  - vm_compute. reflexivity.
  - left. reflexivity.
Defined.

(** ** The reading handlers *)

(** X21. The four GET handlers always answer, change no table and call no
    provider. [GET /:id/files/*] does not check the format of the id: it
    issues its one select whatever the id is, and answers 200 or 404, never
    400. *)
Theorem reads_change_nothing :
  forall (req : Request) (id path : jsstring) (w : World),
    let quiet (handler : M Response) : Prop :=
      exists response w',
        handler w = (inr response, w')
        /\ db w' = db w /\ providerCalls w' = providerCalls w in
    quiet (listProjects req)
    /\ quiet (showProject id req)
    /\ quiet (conversationsHandler id req)
    /\ exists response w',
         showFileHandler id path req w = (inr response, w')
         /\ db w' = db w /\ providerCalls w' = providerCalls w
         /\ issued w'
            = issued w
              ++ [(SelectProjectFile,
                   [JString id; JString path; JString (getUserId req)])]
         /\ (statusCode response = 200 \/ statusCode response = 404).
Proof.
  intros req id path w quiet. unfold quiet.
  split; [do 2 eexists; split; [reflexivity|]; split; reflexivity|].
  split; [|split].
  - unfold showProject, tryCatch, bind.
    destruct (uuidRegexTest id); cbn [negb];
      [|do 2 eexists; split; [reflexivity|]; split; reflexivity].
    rewrite getProject_run.
    destruct (rows0 (Sql.selectProject id (getUserId req) (db w))) as [p|];
      [|do 2 eexists; split; [reflexivity|]; split; reflexivity].
    unfold getProjectFiles at 1. unfold bind, query, reading, ret.
    cbn [db issued providerCalls].
    match goal with
    | |- context [getConversations id (getUserId req) 50 ?w1] =>
        destruct (getConversations_rows id (getUserId req) 50 w1)
          as (rows & E & _); [lia|rewrite E]
    end.
    do 2 eexists. split; [reflexivity|]. split; reflexivity.
  - unfold conversationsHandler, tryCatch, bind.
    destruct (uuidRegexTest id); cbn [negb];
      [|do 2 eexists; split; [reflexivity|]; split; reflexivity].
    rewrite getProject_run.
    destruct (rows0 (Sql.selectProject id (getUserId req) (db w))) as [p|];
      [|do 2 eexists; split; [reflexivity|]; split; reflexivity].
    match goal with
    | |- context [getConversations id (getUserId req) ?limit ?w1] =>
        destruct (getConversations_cases id (getUserId req) limit w1)
          as (r & w2 & E & Hdb & _); rewrite E
    end.
    assert (Hcalls : providerCalls w2 = providerCalls w).
    { unfold getConversations, bind, query in E.
      destruct (Sql.selectConversations _ _ _ _); injection E as _ <-; reflexivity. }
    destruct r as [e|rows]; do 2 eexists;
      (split; [reflexivity|]); cbn [ret snd]; rewrite Hdb; auto.
  - unfold showFileHandler, getProjectFile, tryCatch, bind, query, reading, ret.
    cbn [db issued providerCalls].
    destruct (rows0 (Sql.selectProjectFile id path (getUserId req) (db w)));
      do 2 eexists; (split; [reflexivity|]); cbn; auto.
Qed.

(** ** The validation of a chat message *)

(** X22. [validateChatMessage] reports nothing exactly when the message is a
    string that is not blank and has at most 10000 code units, counted before
    trimming (10000 itself passes, though the text says "less than"), and the
    project id is a string whenever it is truthy. At most three texts are
    reported. *)
Theorem validateChatMessage_accepts :
  forall data : JsObject,
    (validateChatMessage data = []
     <-> (exists s, prop data (js "message") = JString s
                    /\ JsString.trim s <> [] /\ JsString.length s <= 10000)
         /\ (truthy (prop data (js "projectId")) = true ->
             isString (prop data (js "projectId")) = true))
    /\ (List.length (validateChatMessage data) <= 3)%nat.
Proof.
  intros data. unfold validateChatMessage. split.
  - rewrite <- (text_accepted 10000), <- optional_string.
    destruct (negb (truthy (prop data (js "message")))
              || negb (isString (prop data (js "message")))
              || blank (prop data (js "message")));
      destruct (truthy (prop data (js "message"))
                && longerThan 10000 (prop data (js "message")));
      destruct (truthy (prop data (js "projectId"))
                && negb (isString (prop data (js "projectId"))));
      simpl; intuition discriminate.
  - repeat match goal with |- context [if ?c then _ else _] => destruct c end;
      simpl; lia.
Qed.
